(** * Virtuyal air monitor: the browser-side dashboard logic

    A shallow embedding of the parts of [DataMainpage.js] and
    [LoginLogic.js] that keep state: the rolling measurement window of a
    [Sensor], the admin check on [localStorage], the device partition of
    [fetchDevices], the poll loop of [fetchLatestMeasurements], the history
    request of [loadHistory], the CSV exporter and the login form handler.

    JavaScript values are the values a decoded JSON payload can hold.
    Numbers are kept abstract: the scripts never compute with a payload
    number, they only test its type, its truthiness, whether it is [1], and
    print it.  Strings are sequences of 8-bit code units; how the host
    folds a text to lower case is a parameter, and a storage comes with
    the quota of its browser. *)

From Stdlib Require Import ZArith String Ascii List Bool Lia.
From stdpp Require Import base tactics option list gmap strings pretty.

Local Set Warnings "-register-all".
Local Open Scope string_scope.
Local Open Scope list_scope.

(** ** Numbers *)

(** What the scripts observe of a number. *)
Class JSNumber (num : Type) := {
  (** [!!x]: false for [0], [-0] and [NaN] *)
  num_truthy : num -> bool;
  (** [x === 1] *)
  num_is_one : num -> bool;
  (** [String(x)] *)
  num_to_string : num -> string
}.

(** Integers are one instance; the examples below use it. *)
#[export] Instance Z_JSNumber : JSNumber Z := {
  num_truthy z := negb (Z.eqb z 0);
  num_is_one z := Z.eqb z 1;
  num_to_string z := pretty z
}.

(** ** Strings *)

Definition lower_char (c : ascii) : ascii :=
  let n := nat_of_ascii c in
  if (65 <=? n)%nat && (n <=? 90)%nat then ascii_of_nat (n + 32) else c.

(** The fold of the letters A to Z, which keeps every other unit. *)
Fixpoint lower_ascii (s : string) : string :=
  match s with
  | EmptyString => EmptyString
  | String c rest => String (lower_char c) (lower_ascii rest)
  end.

(** Every unit of the text is an ASCII character. *)
Fixpoint ascii_text (s : string) : bool :=
  match s with
  | EmptyString => true
  | String c rest => (nat_of_ascii c <? 128)%nat && ascii_text rest
  end.

(** What the scripts take from the host's strings.  How a text folds to
    lower case is the host's business, for it depends on the letters of
    every script; all that is known of it here is that a text of ASCII
    characters folds its letters A to Z and keeps the rest. *)
Class JSString := {
  (** [s.toLowerCase()] *)
  toLowerCase : string -> string;
  toLowerCase_ascii :
    forall s : string, ascii_text s = true -> toLowerCase s = lower_ascii s
}.

(** The examples below fold every text that way. *)
#[export] Instance ascii_JSString : JSString := {
  toLowerCase := lower_ascii;
  toLowerCase_ascii := fun _ _ => eq_refl
}.

(** [s.includes(c)] for a one-unit needle. *)
Fixpoint includes (s : string) (c : ascii) : bool :=
  match s with
  | EmptyString => false
  | String d rest => Ascii.eqb d c || includes rest c
  end.

(** [parts.join(sep)] *)
Fixpoint join (sep : string) (parts : list string) : string :=
  match parts with
  | [] => ""
  | [p] => p
  | p :: rest => p +:+ sep +:+ join sep rest
  end.

(** [a || b] on strings: the empty string is the only falsy one. *)
Definition str_or (a b : string) : string :=
  if String.eqb a "" then b else a.

Section Values.

Context {num : Type} `{JSNumber num} {js_string : JSString}.

(** ** Values *)

Inductive value : Type :=
  | VUndefined
  | VNull
  | VBool (b : bool)
  | VNum (n : num)
  | VStr (s : string)
  | VArr (items : list value)
  | VObj (fields : list (string * value)).

(** [!!v] *)
Definition truthy (v : value) : bool :=
  match v with
  | VUndefined | VNull => false
  | VBool b => b
  | VNum n => num_truthy n
  | VStr s => negb (String.eqb s "")
  | VArr _ | VObj _ => true
  end.

(** [v == null] *)
Definition nullish (v : value) : bool :=
  match v with
  | VUndefined | VNull => true
  | _ => false
  end.

(** [typeof v === 'object'] *)
Definition typeof_object (v : value) : bool :=
  match v with
  | VNull | VArr _ | VObj _ => true
  | _ => false
  end.

(** [typeof v === 'number'] *)
Definition typeof_number (v : value) : bool :=
  match v with
  | VNum _ => true
  | _ => false
  end.

(** [Array.isArray(v)] *)
Definition isArray (v : value) : bool :=
  match v with
  | VArr _ => true
  | _ => false
  end.

(** [a || b] and [a ?? b] *)
Definition or_else (a b : value) : value := if truthy a then a else b.
Definition coalesce (a b : value) : value := if nullish a then b else a.

Fixpoint assoc (k : string) (fields : list (string * value)) : value :=
  match fields with
  | [] => VUndefined
  | (k', v) :: rest => if String.eqb k k' then v else assoc k rest
  end.

(** [o.k] on a receiver that is neither [null] nor [undefined].  The keys
    the scripts read are plain names, never an index, [length] or a member
    inherited from a prototype, so arrays and primitives answer
    [undefined] and an object answers with its own member. *)
Definition member (o : value) (k : string) : value :=
  match o with
  | VObj fields => assoc k fields
  | _ => VUndefined
  end.

(** [o.k] in general: reading a member of [null] or [undefined] throws. *)
Definition read (o : value) (k : string) : option value :=
  if nullish o then None else Some (member o k).

(** [String(v)].  Objects decoded from JSON print as [[object Object]];
    an array prints its elements separated by commas, [null] and
    [undefined] elements as nothing. *)
Fixpoint to_string (v : value) : string :=
  match v with
  | VUndefined => "undefined"
  | VNull => "null"
  | VBool true => "true"
  | VBool false => "false"
  | VNum n => num_to_string n
  | VStr s => s
  | VArr items =>
      join "," (map (fun x => if nullish x then "" else to_string x) items)
  | VObj _ => "[object Object]"
  end.

(** ** The rolling window of a sensor *)

(** [const WINDOW_SIZE = 5] and [const SENSOR_COUNT = 5] *)
Definition WINDOW_SIZE : nat := 5.
Definition SENSOR_COUNT : nat := 5.

Record Sensor : Type := mkSensor {
  id : nat;
  deviceId : value;
  deviceName : value;
  classroomNumber : value;
  status : value;
  timeLabels : list string;
  tempData : list num;
  co2Data : list num;
  humidityData : list num;
  pm25Data : list num;
  pm10Data : list num;
  pm03Data : list num;
  pm1Data : list num;
  tvocData : list num;
  aqiData : list num;
  coData : list num;
  hchoData : list num;
  humidity : value;
  pm25 : value;
  pm1_0 : value;
  pm1 : value;
  tvoc : value;
  aqi : value;
  co : value;
  hcho : value;
  pm10 : value;
  pm03 : value;
  lastRaw : value
}.

(** [new Sensor(id, deviceId, deviceName, classroomNumber, status)] *)
Definition newSensor (i : nat) (dev name room st : value) : Sensor :=
  {| id := i; deviceId := dev; deviceName := name;
     classroomNumber := room; status := st;
     timeLabels := []; tempData := []; co2Data := [];
     humidityData := []; pm25Data := []; pm10Data := []; pm03Data := [];
     pm1Data := []; tvocData := []; aqiData := []; coData := [];
     hchoData := [];
     humidity := VNull; pm25 := VNull; pm1_0 := VNull; pm1 := VNull;
     tvoc := VNull; aqi := VNull; co := VNull; hcho := VNull;
     pm10 := VNull; pm03 := VNull; lastRaw := VNull |}.

(** [if (typeof v === 'number') arr.push(v)] *)
Definition push_number (v : value) (arr : list num) : list num :=
  match v with
  | VNum n => arr ++ [n]
  | _ => arr
  end.

(** [if (typeof v === 'number') arr.push(v);
     else if (typeof w === 'number') arr.push(w)] *)
Definition push_number_else (v w : value) (arr : list num) : list num :=
  match v with
  | VNum n => arr ++ [n]
  | _ => push_number w arr
  end.

(** [while (arr.length > WINDOW_SIZE) arr.shift()] *)
Fixpoint trim {A : Type} (arr : list A) : list A :=
  match arr with
  | [] => []
  | _ :: rest => if (WINDOW_SIZE <? length arr)%nat then trim rest else arr
  end.

(** Lines 119 to 145 of [addMeasurement]: remember the payload, push the
    label and the numeric members, refresh the last known values.  The
    label is what the clock prints at the time of the call. *)
Definition record_sample (label : string) (raw : value) (s : Sensor) : Sensor :=
  {| id := id s; deviceId := deviceId s; deviceName := deviceName s;
     classroomNumber := classroomNumber s; status := status s;
     lastRaw := raw;
     timeLabels := timeLabels s ++ [label];
     tempData := push_number (member raw "temp") (tempData s);
     co2Data := push_number (member raw "co2") (co2Data s);
     humidityData := push_number (member raw "hum") (humidityData s);
     pm25Data := push_number (member raw "pm2_5") (pm25Data s);
     pm10Data := push_number (member raw "pm10") (pm10Data s);
     pm03Data :=
       push_number_else (member raw "pm_3") (member raw "pm0_3") (pm03Data s);
     pm1Data :=
       push_number_else (member raw "pm1_0") (member raw "pm1") (pm1Data s);
     tvocData := push_number (member raw "tvoc") (tvocData s);
     aqiData := push_number (member raw "aqi") (aqiData s);
     coData := push_number (member raw "co") (coData s);
     hchoData := push_number (member raw "hcho") (hchoData s);
     humidity := coalesce (member raw "hum") (humidity s);
     pm25 := coalesce (member raw "pm2_5") (pm25 s);
     pm1_0 := coalesce (member raw "pm1_0") (pm1_0 s);
     pm1 := coalesce (member raw "pm1_0") (coalesce (member raw "pm1") (pm1 s));
     tvoc := coalesce (member raw "tvoc") (tvoc s);
     aqi := coalesce (member raw "aqi") (aqi s);
     co := coalesce (member raw "co") (co s);
     hcho := coalesce (member raw "hcho") (hcho s);
     pm10 := coalesce (member raw "pm10") (pm10 s);
     pm03 := coalesce (member raw "pm_3") (coalesce (member raw "pm0_3") (pm03 s))
  |}.

(** Lines 147 to 151: cut every series back to the window. *)
Definition trim_window (s : Sensor) : Sensor :=
  {| id := id s; deviceId := deviceId s; deviceName := deviceName s;
     classroomNumber := classroomNumber s; status := status s;
     lastRaw := lastRaw s;
     timeLabels := trim (timeLabels s);
     tempData := trim (tempData s);
     co2Data := trim (co2Data s);
     humidityData := trim (humidityData s);
     pm25Data := trim (pm25Data s);
     pm10Data := trim (pm10Data s);
     pm03Data := trim (pm03Data s);
     pm1Data := trim (pm1Data s);
     tvocData := trim (tvocData s);
     aqiData := trim (aqiData s);
     coData := trim (coData s);
     hchoData := trim (hchoData s);
     humidity := humidity s; pm25 := pm25 s; pm1_0 := pm1_0 s; pm1 := pm1 s;
     tvoc := tvoc s; aqi := aqi s; co := co s; hcho := hcho s;
     pm10 := pm10 s; pm03 := pm03 s |}.

(** [Sensor.addMeasurement(raw)] *)
Definition addMeasurement (label : string) (raw : value) (s : Sensor) : Sensor :=
  if negb (truthy raw) || negb (typeof_object raw) then s
  else trim_window (record_sample label raw s).

(** A run of calls, oldest first; each call comes with its clock label. *)
Definition addMeasurements (calls : list (string * value)) (s : Sensor) : Sensor :=
  fold_left (fun acc call => addMeasurement (fst call) (snd call) acc) calls s.

(** ** The admin check on [localStorage] *)

(** The browser either throws on every access to the storage or hands out
    its items.  [room] is the quota of the browser: it tells whether the
    storage may hold a given set of items. *)
Inductive storage : Type :=
  | Blocked
  | Items (room : gmap string string -> bool) (items : gmap string string).

(** [localStorage.getItem(k)]: [None] when the access throws, [Some None]
    for [null]. *)
Definition getItem (k : string) (ls : storage) : option (option string) :=
  match ls with
  | Blocked => None
  | Items _ items => Some (items !! k)
  end.

(** [localStorage.setItem(k, v)]: [None] when the call throws, which it
    does, leaving the storage as it was, when the quota has no room for
    the items with the new one among them. *)
Definition setItem (k v : string) (ls : storage) : option storage :=
  match ls with
  | Blocked => None
  | Items room items =>
      if room (<[k := v]> items) then Some (Items room (<[k := v]> items))
      else None
  end.

(** [localStorage.removeItem(k)] *)
Definition removeItem (k : string) (ls : storage) : option storage :=
  match ls with
  | Blocked => None
  | Items room items => Some (Items room (delete k items))
  end.

(** [item || ''] *)
Definition item_or_empty (item : option string) : string :=
  match item with
  | Some s => str_or s ""
  | None => ""
  end.

(** The body of the [try] block of [__isAdmin]: [None] when a read throws,
    [Some false] when the body runs to its end without returning. *)
Definition isAdmin_try (ls : storage) : option bool :=
  flag ← getItem "isLoggedIn" ls;
  if negb (bool_decide (flag = Some "true")) then Some false
  else
    mail ← getItem "userEmail" ls;
    let email := toLowerCase (item_or_empty mail) in
    r ← getItem "userRole" ls;
    let role := toLowerCase (item_or_empty r) in
    if String.eqb role "admin" then Some true else Some false.

(** [__isAdmin()]: a thrown read is swallowed and the answer is [false]. *)
Definition __isAdmin (ls : storage) : bool :=
  match isAdmin_try ls with
  | Some answer => answer
  | None => false
  end.

(** ** Metric names *)

(** [cmpMapMetricToApi(metric)] *)
Definition cmpMapMetricToApi (metric : string) : string :=
  let m := toLowerCase (str_or metric "") in
  if String.eqb m "humidity" then "hum"
  else if String.eqb m "pm25" then "pm2_5"
  else if String.eqb m "pm03" || String.eqb m "pm3" then "pm0_3"
  else if String.eqb m "pm1" then "pm1_0"
  else m.

(** [mapMetricToApi(metric)] *)
Definition mapMetricToApi (metric : string) : string :=
  let m := toLowerCase (str_or metric "") in
  if String.eqb m "humidity" then "hum"
  else if String.eqb m "pm1" then "pm1_0"
  else if String.eqb m "pm25" then "pm2_5"
  else if String.eqb m "pm3" || String.eqb m "pm03" then "pm0_3"
  else m.

(** The [unit] member of [metricMeta(metric)], defaulted to [''] as
    [loadHistory] does. *)
Definition metric_unit (metric : string) : string :=
  if String.eqb metric "temp" then "°C"
  else if String.eqb metric "co2" then "ppm"
  else if String.eqb metric "hum" || String.eqb metric "humidity" then "%"
  else if String.eqb metric "pm25" || String.eqb metric "pm2_5"
          || String.eqb metric "pm10" || String.eqb metric "pm03"
          || String.eqb metric "pm0_3" || String.eqb metric "pm1"
          || String.eqb metric "pm1_0" then "µg/m³"
  else if String.eqb metric "tvoc" || String.eqb metric "co"
          || String.eqb metric "hcho" then "ppm"
  else "".

(** ** The history request *)

Definition hex_digit (n : nat) : ascii :=
  if (n <? 10)%nat then ascii_of_nat (48 + n) else ascii_of_nat (55 + n).

(** The units [encodeURIComponent] leaves alone: letters, digits and
    [- _ . ! ~ * ' ( )]. *)
Definition unreserved (c : ascii) : bool :=
  let n := nat_of_ascii c in
  ((65 <=? n)%nat && (n <=? 90)%nat) || ((97 <=? n)%nat && (n <=? 122)%nat)
  || ((48 <=? n)%nat && (n <=? 57)%nat)
  || existsb (Nat.eqb n) [45; 95; 46; 33; 126; 42; 39; 40; 41]%nat.

(** [encodeURIComponent(s)], unit by unit. *)
Fixpoint encodeURIComponent (s : string) : string :=
  match s with
  | EmptyString => EmptyString
  | String c rest =>
      if unreserved c then String c (encodeURIComponent rest)
      else
        let n := nat_of_ascii c in
        String "%" (String (hex_digit (n / 16)) (String (hex_digit (n mod 16))
          (encodeURIComponent rest)))
  end.

(** An HTTP exchange as the scripts see it: [fetch] rejects, or it answers
    with [res.ok] and a body that [res.json()] decodes or fails to. *)
Inductive response : Type :=
  | Failed
  | Reply (ok : bool) (body : option value).

(** The three selectors of the history panel.  [historySensor] is what
    [parseInt(sensorSel.value, 10)] reads, [None] for [NaN]. *)
Record history_form : Type := {
  historySensor : option Z;
  historyMetric : string;
  historyRange : string
}.

Record history_meta : Type := {
  meta_deviceId : value;
  meta_sensorName : value;
  meta_room : value;
  meta_metric : string;
  meta_range : string;
  meta_unit : string
}.

(** [lastHistorySeries] and [lastHistoryMeta]; both start as [null].  The
    axis labels kept in the meta record are read by the chart only and are
    left out. *)
Record history_cache : Type := {
  lastHistorySeries : option (list value);
  lastHistoryMeta : option history_meta
}.

(** [list[idx]] with the guard [!s || !s.deviceId]. *)
Definition selected_sensor (f : history_form) (sensors : list Sensor)
  : option (nat * Sensor) :=
  idx ← historySensor f;
  if (idx <? 0)%Z then None
  else
    s ← sensors !! Z.to_nat idx;
    if truthy (deviceId s) then Some (Z.to_nat idx, s) else None.

(** The nested conditional that picks the endpoint. *)
Definition basePath (range : string) : string :=
  if String.eqb range "week" then "week"
  else if String.eqb range "month" then "month"
  else if String.eqb range "year" then "year"
  else "day".

Definition history_url (baseUrl range : string) (dev : value) (apiMetric : string)
  : string :=
  baseUrl +:+ "/sensor/history/" +:+ basePath range +:+ "/"
  +:+ encodeURIComponent (to_string dev) +:+ "?metric="
  +:+ encodeURIComponent apiMetric.

(** The URL [loadHistory] fetches, [None] when it returns before the
    request (a selector is missing, no sensor is selected). *)
Definition loadHistory_request (baseUrl : string) (form : option history_form)
    (sensors : list Sensor) : option string :=
  f ← form;
  let range := str_or (historyRange f) "day" in
  sel ← selected_sensor f sensors;
  let metric := str_or (historyMetric f) "temp" in
  let apiMetric := mapMetricToApi metric in
  Some (history_url baseUrl range (deviceId (snd sel)) apiMetric).

(** [(body.data || []).map(p => ... p.ts ...)]: [None] when the mapping
    throws, on a [data] that is no array or on a point that is [null]. *)
Definition series_of_body (body : value) : option (list value) :=
  match or_else (member body "data") (VArr []) with
  | VArr points =>
      if forallb (fun p => negb (nullish p)) points then Some points else None
  | _ => None
  end.

(** [body.success === false] *)
Definition is_false (v : value) : bool :=
  match v with
  | VBool false => true
  | _ => false
  end.

(** [loadHistory()], as far as the cache goes.  [chart_ok] says that the
    chart exists and redraws without throwing. *)
Definition loadHistory (baseUrl : string) (form : option history_form)
    (sensors : list Sensor) (net : string -> response) (chart_ok : bool)
    (cache : history_cache) : history_cache :=
  match form with
  | None => cache
  | Some f =>
      let range := str_or (historyRange f) "day" in
      match selected_sensor f sensors with
      | None => cache
      | Some (idx, s) =>
          let metric := str_or (historyMetric f) "temp" in
          let apiMetric := mapMetricToApi metric in
          match net (history_url baseUrl range (deviceId s) apiMetric) with
          | Failed => cache
          | Reply _ None => cache
          | Reply ok (Some body) =>
              match read body "success" with
              | None => cache
              | Some success =>
                  if negb ok || is_false success then cache
                  else
                    match series_of_body body with
                    | None => cache
                    | Some points =>
                        if chart_ok then
                          {| lastHistorySeries := Some points;
                             lastHistoryMeta := Some
                               {| meta_deviceId := deviceId s;
                                  meta_sensorName :=
                                    or_else (deviceName s)
                                      (VStr ("Sensor " +:+ pretty (idx + 1)%nat));
                                  meta_room :=
                                    or_else (classroomNumber s) (VStr "");
                                  meta_metric := metric;
                                  meta_range := range;
                                  meta_unit := str_or (metric_unit metric) "" |}
                          |}
                        else cache
                    end
              end
          end
      end
  end.

(** ** The CSV exporter *)

(** [new Date(ts).toLocaleString('de-DE', {...})] in the Vienna time zone,
    [''] when the formatting throws: a function of the host. *)
Variable toLocaleString : value -> string.

Definition dquote : ascii := ascii_of_nat 34.
Definition newline : ascii := ascii_of_nat 10.
Definition sep : ascii := ";"%char.

(** The byte order mark the exporter puts in front of the text. *)
Definition bom : string :=
  String (ascii_of_nat 239) (String (ascii_of_nat 187)
    (String (ascii_of_nat 191) EmptyString)).

(** The global [replace] of the quoting step: every double quote of [s]
    is written twice. *)
Fixpoint double_quotes (s : string) : string :=
  match s with
  | EmptyString => EmptyString
  | String c rest =>
      if Ascii.eqb c dquote then String dquote (String dquote (double_quotes rest))
      else String c (double_quotes rest)
  end.

(** The body of the inner [map] callback, after [String(field ?? '')]. *)
Definition csv_escape (s : string) : string :=
  if includes s dquote || includes s sep || includes s newline
  then String dquote (double_quotes s +:+ String dquote EmptyString)
  else s.

Definition csv_field (field : value) : string :=
  csv_escape (to_string (coalesce field (VStr ""))).

(** [r.map(...).join(sep)] and [rows.map(...).join('\n')] *)
Definition csv_line (r : list value) : string :=
  join (String sep EmptyString) (map csv_field r).

Definition csv_text (rows : list (list value)) : string :=
  join (String newline EmptyString) (map csv_line rows).

Definition header_row : list value :=
  map VStr ["Zeitstempel (ISO)"; "Zeit (Lokal Wien)"; "Wert"; "Anzahl";
            "Messgröße"; "Einheit"; "Sensor"; "Raum"; "Device ID"; "Zeitraum"].

(** [p.x == null ? '' : p.x] *)
Definition or_blank (v : value) : value :=
  if nullish v then VStr "" else v.

(** The callback of [lastHistorySeries.forEach]: the row pushed for point
    [p], [None] when reading [p.ts] throws. *)
Definition history_row (meta : history_meta) (p : value) : option (list value) :=
  ts0 ← read p "ts";
  let ts := or_else ts0 (VStr "") in
  let local := toLocaleString ts in
  let val := or_blank (member p "avg") in
  let n := or_blank (member p "n") in
  Some [ts; VStr local; val; n; VStr (meta_metric meta); VStr (meta_unit meta);
        meta_sensorName meta; meta_room meta; meta_deviceId meta;
        VStr (meta_range meta)].

Inductive export_outcome : Type :=
  | NoFile (hint : string)
  | Download (text : string)
  | Uncaught.

(** The units the file name keeps: letters, digits, [_] and [-]. *)
Definition name_char (c : ascii) : bool :=
  let n := nat_of_ascii c in
  ((65 <=? n)%nat && (n <=? 90)%nat) || ((97 <=? n)%nat && (n <=? 122)%nat)
  || ((48 <=? n)%nat && (n <=? 57)%nat) || (n =? 95)%nat || (n =? 45)%nat.

(** The global, case-insensitive [replace] of the file name: every run of
    other units becomes one underscore.  [in_run] tells that the unit
    before was one of them. *)
Fixpoint replace_runs (in_run : bool) (s : string) : string :=
  match s with
  | EmptyString => EmptyString
  | String c rest =>
      if name_char c then String c (replace_runs false rest)
      else if in_run then replace_runs true rest
      else String "_" (replace_runs true rest)
  end.

(** [(sensorName || 'sensor').replace(...)]: [None] when the name is
    truthy and no string, for then it has no [replace] and the call
    throws. *)
Definition safeName (sensorName : value) : option string :=
  match or_else sensorName (VStr "sensor") with
  | VStr s => Some (replace_runs false s)
  | _ => None
  end.

(** [exportHistoryCSV()]: the cache after the call and what came of it.
    [Download text] stands for the click on a link to a blob holding
    [text]; [Uncaught] for an exception that leaves the function, which
    happens before the click: when a cached point is [null], and when the
    file name is made from a sensor name that is no string.  The file name
    itself is spelled out in [exportHistoryCSV_file]. *)
Definition exportHistoryCSV (ls : storage) (cache : history_cache)
  : history_cache * export_outcome :=
  if negb (__isAdmin ls)
  then (cache, NoFile "Nur Administratoren dürfen exportieren.")
  else
    match lastHistorySeries cache, lastHistoryMeta cache with
    | Some (p :: ps), Some meta =>
        match mapM (history_row meta) (p :: ps) with
        | Some rows =>
            match safeName (meta_sensorName meta) with
            | Some _ => (cache, Download (bom +:+ csv_text (header_row :: rows)))
            | None => (cache, Uncaught)
            end
        | None => (cache, Uncaught)
        end
    | _, _ => (cache, NoFile "Keine Daten zum Exportieren.")
    end.

(** ** Devices and polling *)

Inductive thrown : Type :=
  | NetworkError
  | HttpError
  | SyntaxError
  | TypeError
  | RenderError
  | DOMException.

(** How an [async] function ends. *)
Inductive promise (A : Type) : Type :=
  | Fulfilled (a : A)
  | Rejected (e : thrown) (a : A).
Arguments Fulfilled {A} a.
Arguments Rejected {A} e a.

(** A block of statements ends normally or throws; either way it leaves a
    state behind. *)
Definition block (A : Type) : Type := (A * option thrown)%type.

(** [try { body } catch (err) { console.warn(..., err) }] *)
Definition try_log {A : Type} (body : block A) : block A :=
  (fst body, None).

(** The promise of an [async] function whose body is [body]. *)
Definition settle {A : Type} (body : block A) : promise A :=
  match body with
  | (a, None) => Fulfilled a
  | (a, Some e) => Rejected e a
  end.

(** The entries of [offlineSensors]. *)
Record OfflineSensor : Type := {
  off_deviceId : value;
  off_name : value;
  off_classroom : value;
  off_status : value
}.

(** [sensors], [offlineSensors] and [activeSensorIndex] *)
Record Page : Type := {
  sensors : list Sensor;
  offlineSensors : list OfflineSensor;
  activeSensorIndex : Z
}.

(** [(dev.status !== undefined) ? dev.status : dev.Status] *)
Definition rawStatus (dev : value) : value :=
  match member dev "status" with
  | VUndefined => member dev "Status"
  | st => st
  end.

(** The five-way comparison that decides [isOnline]. *)
Definition isOnline (st : value) : bool :=
  match st with
  | VBool b => b
  | VStr s => String.eqb s "true" || String.eqb s "online" || String.eqb s "1"
  | VNum n => num_is_one n
  | _ => false
  end.

(** The first [forEach]: split the devices, in order.  Reading the status
    of a [null] entry throws. *)
Fixpoint partition_devices (all : list value) : option (list value * list value) :=
  match all with
  | [] => Some ([], [])
  | dev :: rest =>
      if nullish dev then None
      else
        parts ← partition_devices rest;
        if isOnline (rawStatus dev) then Some (dev :: fst parts, snd parts)
        else Some (fst parts, dev :: snd parts)
  end.

(** [dev.device_id || dev.DeviceID || dev.id || dev.deviceId] *)
Definition device_id (dev : value) : value :=
  or_else (member dev "device_id") (or_else (member dev "DeviceID")
    (or_else (member dev "id") (member dev "deviceId"))).

(** [dev.name || dev.Name || dev.device_name || fallback] *)
Definition device_name (dev : value) (fallback : string) : value :=
  or_else (member dev "name") (or_else (member dev "Name")
    (or_else (member dev "device_name") (VStr fallback))).

Definition device_classroom (dev : value) : value :=
  or_else (member dev "classroom_number")
    (or_else (member dev "classroomNumber")
      (or_else (member dev "ClassroomNumber")
        (or_else (member dev "Classrooms_ClassroomNumber")
          (or_else (member dev "classrooms_classroomNumber")
            (or_else (member dev "room") (VStr "")))))).

(** The second [forEach], from index [i] on: one fresh sensor per device
    that has an id. *)
Fixpoint build_sensors (i : nat) (devices : list value) : list Sensor :=
  match devices with
  | [] => []
  | dev :: rest =>
      let dId := device_id dev in
      let name := device_name dev ("Sensor " +:+ pretty (i + 1)%nat) in
      let st := coalesce (rawStatus dev) (VStr "unknown") in
      let classroom := device_classroom dev in
      if negb (truthy dId) then build_sensors (S i) rest
      else newSensor i dId name classroom st :: build_sensors (S i) rest
  end.

(** The callback of [offlineRaw.map], from index [j] on. *)
Fixpoint offline_entries (j : nat) (devices : list value) : list OfflineSensor :=
  match devices with
  | [] => []
  | dev :: rest =>
      {| off_deviceId := device_id dev;
         off_name :=
           device_name dev ("Sensor (offline " +:+ pretty (j + 1)%nat +:+ ")");
         off_classroom := device_classroom dev;
         off_status := coalesce (rawStatus dev) (VBool false) |}
      :: offline_entries (S j) rest
  end.

(** The body of the [try] block of [fetchDevices].  [render_ok] says that
    the rendering calls at its end do not throw. *)
Definition fetchDevices_try (res : response) (render_ok : bool) (page : Page)
  : block Page :=
  match res with
  | Failed => (page, Some NetworkError)
  | Reply false _ => (page, Some HttpError)
  | Reply true None => (page, Some SyntaxError)
  | Reply true (Some json) =>
      match read json "success" with
      | None => (page, Some TypeError)
      | Some success =>
          if negb (truthy success) || negb (isArray (member json "data"))
          then (page, None)
          else
            match or_else (member json "data") (VArr []) with
            | VArr all =>
                match partition_devices all with
                | None => (page, Some TypeError)
                | Some (onlineRaw, offlineRaw) =>
                    let devices := take SENSOR_COUNT onlineRaw in
                    let sensors' := build_sensors 0 devices in
                    let offline' :=
                      filter (fun d => truthy (off_deviceId d) = true)
                             (offline_entries 0 offlineRaw) in
                    let active' :=
                      if (Z.of_nat (length sensors') <=? activeSensorIndex page)%Z
                      then (if (0 <? length sensors')%nat then 0 else -1)%Z
                      else activeSensorIndex page in
                    let page' :=
                      {| sensors := sensors'; offlineSensors := offline';
                         activeSensorIndex := active' |} in
                    (page', if render_ok then None else Some RenderError)
                end
            | _ => (page, Some TypeError)
            end
      end
  end.

(** [fetchDevices()] *)
Definition fetchDevices (res : response) (render_ok : bool) (page : Page)
  : promise Page :=
  settle (try_log (fetchDevices_try res render_ok page)).

(** The [for] loop of [fetchLatestMeasurements] from position [i] on.
    [reply i] is the answer to the request for the sensor at position [i]
    and [clock i] the label the clock prints when its sample is added. *)
Fixpoint poll_sensors (reply : nat -> response) (clock : nat -> string)
    (i : nat) (todo : list Sensor) : block (list Sensor) :=
  match todo with
  | [] => ([], None)
  | s :: rest =>
      if negb (truthy (deviceId s)) then
        let r := poll_sensors reply clock (S i) rest in (s :: fst r, snd r)
      else
        match reply i with
        | Failed => (todo, Some NetworkError)
        | Reply false _ => (todo, Some HttpError)
        | Reply true None => (todo, Some SyntaxError)
        | Reply true (Some payload) =>
            let m :=
              if truthy payload && typeof_object payload
              then or_else (member payload "data") payload
              else VNull in
            let s' := if negb (truthy m) then s
                      else addMeasurement (clock i) m s in
            let r := poll_sensors reply clock (S i) rest in
            (s' :: fst r, snd r)
        end
  end.

Definition fetchLatestMeasurements_try (reply : nat -> response)
    (clock : nat -> string) (render_ok : bool) (page : Page) : block Page :=
  let polled := poll_sensors reply clock 0 (sensors page) in
  let page' := {| sensors := fst polled;
                  offlineSensors := offlineSensors page;
                  activeSensorIndex := activeSensorIndex page |} in
  match snd polled with
  | Some e => (page', Some e)
  | None => (page', if render_ok then None else Some RenderError)
  end.

(** [fetchLatestMeasurements()] *)
Definition fetchLatestMeasurements (reply : nat -> response)
    (clock : nat -> string) (render_ok : bool) (page : Page) : promise Page :=
  settle (try_log (fetchLatestMeasurements_try reply clock render_ok page)).

(** ** The login form *)

(** [isLogin], [isResetPhase1] and [isResetPhase2] *)
Record auth_mode : Type := {
  isLogin : bool;
  isResetPhase1 : bool;
  isResetPhase2 : bool
}.

(** The trimmed values of the form fields at the time of the submit. *)
Record auth_input : Type := {
  email : string;
  password : string;
  username : string;
  resetCode : string;
  confirmPassword : string
}.

Inductive effect : Type :=
  | Alert (msg : value)
  | Redirect (href : string).

Record auth_state : Type := {
  mode : auth_mode;
  store : storage;
  effects : list effect
}.

Definition alert (msg : value) (st : auth_state) : auth_state :=
  {| mode := mode st; store := store st; effects := effects st ++ [Alert msg] |}.

Definition set_mode (m : auth_mode) (st : auth_state) : auth_state :=
  {| mode := m; store := store st; effects := effects st |}.

(** [!localStorage.getItem(k)] on what [getItem] answered *)
Definition item_missing (item : option string) : bool :=
  match item with
  | Some s => String.eqb s ""
  | None => true
  end.

(** One storage call inside a block.  When the call throws, the storage
    stays as the calls before it left it and the rest of the block is
    skipped. *)
Definition storage_call (call : storage -> option storage) (b : block storage)
  : block storage :=
  match b with
  | (ls, None) =>
      match call ls with
      | Some ls' => (ls', None)
      | None => (ls, Some DOMException)
      end
  | (ls, Some e) => (ls, Some e)
  end.

(** The storage calls of a granted login, lines 248 to 260: the storage
    they leave behind and the exception, if one of them threw. *)
Definition login_writes (mail : string) (data : value) (ls : storage)
  : block storage :=
  let user := member data "user" in
  let b1 := storage_call (setItem "isLoggedIn" "true") (ls, None) in
  let b2 := storage_call (setItem "userEmail" mail) b1 in
  let b3 := storage_call (removeItem "userRole") b2 in
  let b4 :=
    if truthy user then
      let b := if truthy (member user "username")
               then storage_call
                      (setItem "username" (to_string (member user "username"))) b3
               else b3 in
      if truthy (member user "role")
      then storage_call (setItem "userRole" (to_string (member user "role"))) b
      else b
    else b3 in
  match b4 with
  | (ls4, None) =>
      match getItem "userRole" ls4 with
      | Some r =>
          if item_missing r then storage_call (setItem "userRole" "Gast") b4
          else b4
      | None => (ls4, Some DOMException)
      end
  | (ls4, Some e) => (ls4, Some e)
  end.

(** The login branch: lines 236 to 268.  An exception thrown anywhere in
    the [try] block ends in the same alert; the storage calls made before
    it keep their effect. *)
Definition submit_login (inp : auth_input) (net : response) (st : auth_state)
  : auth_state :=
  let failed := alert (VStr "Fehler beim Login. Bitte Server prüfen.") st in
  match net with
  | Failed => failed
  | Reply _ None => failed
  | Reply ok (Some data) =>
      match read data "success" with
      | None => failed
      | Some success =>
          if ok && truthy success then
            match login_writes (email inp) data (store st) with
            | (ls', None) =>
                {| mode := mode st; store := ls';
                   effects := effects st ++ [Redirect "index.html"] |}
            | (ls', Some _) =>
                alert (VStr "Fehler beim Login. Bitte Server prüfen.")
                  {| mode := mode st; store := ls'; effects := effects st |}
            end
          else
            alert (or_else (member data "message") (VStr "Login fehlgeschlagen!")) st
      end
  end.

(** [await resp.json().catch(() => ({}))] *)
Definition json_or_empty (body : option value) : value :=
  match body with
  | Some data => data
  | None => VObj []
  end.

(** The two reset branches and the registration branch change the mode
    and raise alerts; none of them touches the storage. *)
Definition submit_reset1 (inp : auth_input) (net : response) (st : auth_state)
  : auth_state :=
  if String.eqb (email inp) "" then alert (VStr "Bitte E-Mail eingeben") st
  else
    let failed := alert (VStr "Netzwerkfehler beim Anfordern des Codes") st in
    match net with
    | Failed => failed
    | Reply ok body =>
        let data := json_or_empty body in
        if nullish data then failed
        else if ok then
          set_mode {| isLogin := isLogin (mode st); isResetPhase1 := false;
                      isResetPhase2 := true |}
            (alert (or_else (member data "message")
               (VStr "Code gesendet (falls E-Mail existiert). Prüfe dein Postfach.")) st)
        else
          alert (or_else (member data "error") (or_else (member data "message")
                   (VStr "Fehler beim Anfordern des Codes"))) st
    end.

Definition submit_reset2 (inp : auth_input) (net : response) (st : auth_state)
  : auth_state :=
  if String.eqb (email inp) "" || String.eqb (resetCode inp) ""
     || String.eqb (password inp) ""
  then alert (VStr "Bitte E-Mail, Code und neues Passwort eingeben") st
  else if negb (String.eqb (password inp) (confirmPassword inp))
  then alert (VStr "Passwörter stimmen nicht überein") st
  else
    let failed := alert (VStr "Netzwerkfehler beim Zurücksetzen") st in
    match net with
    | Failed => failed
    | Reply ok body =>
        let data := json_or_empty body in
        if nullish data then failed
        else if ok then
          set_mode {| isLogin := true; isResetPhase1 := isResetPhase1 (mode st);
                      isResetPhase2 := false |}
            (alert (or_else (member data "message")
               (VStr "Passwort erfolgreich geändert. Bitte einloggen.")) st)
        else
          alert (or_else (member data "error") (or_else (member data "message")
                   (VStr "Fehler beim Zurücksetzen"))) st
    end.

Definition submit_register (inp : auth_input) (net : response) (st : auth_state)
  : auth_state :=
  if negb (String.eqb (password inp) (confirmPassword inp))
  then alert (VStr "Passwörter stimmen nicht überein!") st
  else
    let failed := alert (VStr "Fehler bei der Registrierung. Bitte Server prüfen.") st in
    match net with
    | Failed => failed
    | Reply _ None => failed
    | Reply ok (Some data) =>
        if nullish data then failed
        else if ok && truthy (member data "message") then
          set_mode {| isLogin := true; isResetPhase1 := isResetPhase1 (mode st);
                      isResetPhase2 := isResetPhase2 (mode st) |}
            (alert (VStr "Registrierung erfolgreich! Bitte einloggen.") st)
        else
          alert (or_else (member data "error") (or_else (member data "message")
                   (VStr "Registrierung fehlgeschlagen!"))) st
    end.

(** The submit handler.  [net] is the outcome of the one request the
    handler sends, if it sends one. *)
Definition submit (inp : auth_input) (net : response) (st : auth_state)
  : auth_state :=
  if isResetPhase1 (mode st) then submit_reset1 inp net st
  else if isResetPhase2 (mode st) then submit_reset2 inp net st
  else if String.eqb (email inp) "" || String.eqb (password inp) ""
          || (negb (isLogin (mode st)) && String.eqb (username inp) "")
  then alert (VStr "Bitte alle Felder ausfüllen!") st
  else if isLogin (mode st) then submit_login inp net st
  else submit_register inp net st.

(** ** Vocabulary of the statements *)

(** [raw] passes the guard of [addMeasurement]: it is an object. *)
Definition is_object (raw : value) : bool :=
  truthy raw && typeof_object raw.

(** The last [n] elements of [l], all of [l] when it has fewer. *)
Definition last_n {A : Type} (n : nat) (l : list A) : list A :=
  drop (length l - n) l.

(** The eleven numeric series of a sensor. *)
Inductive series : Type :=
  | TempSeries | Co2Series | HumiditySeries | Pm25Series | Pm10Series
  | Pm03Series | Pm1Series | TvocSeries | AqiSeries | CoSeries | HchoSeries.

Definition series_data (k : series) (s : Sensor) : list num :=
  match k with
  | TempSeries => tempData s
  | Co2Series => co2Data s
  | HumiditySeries => humidityData s
  | Pm25Series => pm25Data s
  | Pm10Series => pm10Data s
  | Pm03Series => pm03Data s
  | Pm1Series => pm1Data s
  | TvocSeries => tvocData s
  | AqiSeries => aqiData s
  | CoSeries => coData s
  | HchoSeries => hchoData s
  end.

(** The payload members that feed a series, in the order they are tried. *)
Definition series_keys (k : series) : list string :=
  match k with
  | TempSeries => ["temp"]
  | Co2Series => ["co2"]
  | HumiditySeries => ["hum"]
  | Pm25Series => ["pm2_5"]
  | Pm10Series => ["pm10"]
  | Pm03Series => ["pm_3"; "pm0_3"]
  | Pm1Series => ["pm1_0"; "pm1"]
  | TvocSeries => ["tvoc"]
  | AqiSeries => ["aqi"]
  | CoSeries => ["co"]
  | HchoSeries => ["hcho"]
  end.

(** The first of the members [keys] of [raw] that is a number. *)
Fixpoint first_number (raw : value) (keys : list string) : option num :=
  match keys with
  | [] => None
  | k :: rest =>
      match member raw k with
      | VNum n => Some n
      | _ => first_number raw rest
      end
  end.

(** What one payload adds to a series: one number or nothing. *)
Definition sample (k : series) (raw : value) : list num :=
  match first_number raw (series_keys k) with
  | Some n => [n]
  | None => []
  end.

(** The ten last-value members of a sensor. *)
Inductive scalar : Type :=
  | Humidity | Pm25 | Pm1_0 | Pm1 | Tvoc | Aqi | Co | Hcho | Pm10 | Pm03.

Definition scalar_value (q : scalar) (s : Sensor) : value :=
  match q with
  | Humidity => humidity s
  | Pm25 => pm25 s
  | Pm1_0 => pm1_0 s
  | Pm1 => pm1 s
  | Tvoc => tvoc s
  | Aqi => aqi s
  | Co => co s
  | Hcho => hcho s
  | Pm10 => pm10 s
  | Pm03 => pm03 s
  end.

Definition scalar_keys (q : scalar) : list string :=
  match q with
  | Humidity => ["hum"]
  | Pm25 => ["pm2_5"]
  | Pm1_0 => ["pm1_0"]
  | Pm1 => ["pm1_0"; "pm1"]
  | Tvoc => ["tvoc"]
  | Aqi => ["aqi"]
  | Co => ["co"]
  | Hcho => ["hcho"]
  | Pm10 => ["pm10"]
  | Pm03 => ["pm_3"; "pm0_3"]
  end.

(** The first of the members [keys] of [raw] that is neither [null] nor
    [undefined]. *)
Fixpoint first_present (raw : value) (keys : list string) : option value :=
  match keys with
  | [] => None
  | k :: rest =>
      if nullish (member raw k) then first_present raw rest
      else Some (member raw k)
  end.

(** A CSV line is read back by splitting on the separator outside quotes
    and collapsing doubled quotes.  [quoted] tells whether the reader is
    inside a quoted field and [cur] is the field read so far. *)
Fixpoint split_fields (quoted : bool) (cur : string) (line : string)
  : list string :=
  match line with
  | EmptyString => [cur]
  | String c rest =>
      if quoted then
        if Ascii.eqb c dquote then
          match rest with
          | String d rest' =>
              if Ascii.eqb d dquote
              then split_fields true (cur +:+ String dquote EmptyString) rest'
              else split_fields false cur rest
          | EmptyString => [cur]
          end
        else split_fields true (cur +:+ String c EmptyString) rest
      else
        if Ascii.eqb c sep then cur :: split_fields false EmptyString rest
        else if Ascii.eqb c dquote then split_fields true cur rest
        else split_fields false (cur +:+ String c EmptyString) rest
  end.

Definition parse_line (line : string) : list string :=
  split_fields false EmptyString line.

(** A reader of a whole CSV text: rows end at newlines outside quotes,
    fields at separators outside quotes, and doubled quotes collapse.
    [row] holds the fields of the current row read so far. *)
Fixpoint read_rows (quoted : bool) (cur : string) (row : list string)
    (text : string) : list (list string) :=
  match text with
  | EmptyString => [row ++ [cur]]
  | String c rest =>
      if quoted then
        if Ascii.eqb c dquote then
          match rest with
          | String d rest' =>
              if Ascii.eqb d dquote
              then read_rows true (cur +:+ String dquote EmptyString) row rest'
              else read_rows false cur row rest
          | EmptyString => [row ++ [cur]]
          end
        else read_rows true (cur +:+ String c EmptyString) row rest
      else
        if Ascii.eqb c sep
        then read_rows false EmptyString (row ++ [cur]) rest
        else if Ascii.eqb c newline
        then (row ++ [cur]) :: read_rows false EmptyString [] rest
        else if Ascii.eqb c dquote then read_rows true cur row rest
        else read_rows false (cur +:+ String c EmptyString) row rest
  end.

Definition parse_csv (text : string) : list (list string) :=
  read_rows false EmptyString [] text.

(** [String(field ?? '')]: the text of a field before quoting. *)
Definition field_text (field : value) : string :=
  to_string (coalesce field (VStr "")).



(** A backend request that failed: the network is down, the status is not
    ok, or the body is no JSON. *)
Definition request_failed (res : response) : bool :=
  match res with
  | Failed => true
  | Reply false _ => true
  | Reply true None => true
  | Reply true (Some _) => false
  end.

(** A device list the page accepts: [success] is truthy and [data] is an
    array. *)
Definition accepted (json : value) : bool :=
  truthy (member json "success") && isArray (member json "data").

(** The state an [async] function leaves behind, however it ends. *)
Definition settled {A : Type} (p : promise A) : A :=
  match p with
  | Fulfilled a => a
  | Rejected _ a => a
  end.

(** The online devices of a list, in order. *)
Definition online_devices (all : list value) : list value :=
  List.filter (fun dev => isOnline (rawStatus dev)) all.

Definition offline_devices (all : list value) : list value :=
  List.filter (fun dev => negb (isOnline (rawStatus dev))) all.

(** Device [dev] shows up among the sensors, or among the offline
    entries, under its id. *)
Definition shown_online (dev : value) (page : Page) : Prop :=
  exists s : Sensor, In s (sensors page) /\ deviceId s = device_id dev.

Definition shown_offline (dev : value) (page : Page) : Prop :=
  exists o : OfflineSensor,
    In o (offlineSensors page) /\ off_deviceId o = device_id dev.


(** The form is in login mode: no reset phase is active and [isLogin]
    holds. *)
Definition login_mode (m : auth_mode) : bool :=
  negb (isResetPhase1 m) && negb (isResetPhase2 m) && isLogin m.

(** The body of a [validateUser] response that is ok and has a truthy
    [success]. *)
Definition login_granted (net : response) : option value :=
  match net with
  | Reply true (Some data) =>
      if truthy (member data "success") then Some data else None
  | _ => None
  end.

(** The role the backend supplied, as the storage would hold it: the text
    of a truthy [data.user.role] that does not print as the empty string. *)
Definition supplied_role (data : value) : option string :=
  let user := member data "user" in
  if truthy user && truthy (member user "role")
     && negb (String.eqb (to_string (member user "role")) "")
  then Some (to_string (member user "role"))
  else None.

(** Likewise the user name: the text of a truthy [data.user.username]. *)
Definition supplied_username (data : value) : option string :=
  let user := member data "user" in
  if truthy user && truthy (member user "username")
  then Some (to_string (member user "username"))
  else None.

(** The caches the history panel can be in: both members [null] at the
    start, then whatever [loadHistory] leaves. *)
Inductive cached : history_cache -> Prop :=
  | cached_init :
      cached {| lastHistorySeries := None; lastHistoryMeta := None |}
  | cached_load (baseUrl : string) (form : option history_form)
      (sensors : list Sensor) (net : string -> response) (chart_ok : bool)
      (cache : history_cache) :
      cached cache ->
      cached (loadHistory baseUrl form sensors net chart_ok cache).

End Values.

Arguments value : clear implicits.
Arguments Sensor : clear implicits.
Arguments response : clear implicits.
Arguments history_meta : clear implicits.
Arguments history_cache : clear implicits.
Arguments OfflineSensor : clear implicits.
Arguments Page : clear implicits.
Arguments effect : clear implicits.
Arguments auth_state : clear implicits.
Arguments Fulfilled {A} a.
Arguments Rejected {A} e a.

(** * The rest of the dashboard

    The functions around the ones above: the active sensor, the search
    box, the labels of the views, the comparison requests, the download of
    the export and the other handlers of the login form. *)

Section Pages.

Context {num : Type} `{JSNumber num} {js_string : JSString}.

(** ** The active sensor *)

(** [getActive()]: [sensors[activeSensorIndex]], which is [undefined] for
    an index out of range. *)
Definition getActive (page : Page num) : option (Sensor num) :=
  if (activeSensorIndex page <? 0)%Z then None
  else sensors page !! Z.to_nat (activeSensorIndex page).

(** [activateSensorByIndex(idx)] for an integer [idx]: the page after the
    call and the boolean it returns.  With or without a tab element the
    index in range becomes [activeSensorIndex]: the click handler of the
    tabs makes the same test and the same assignment.  The redraw that
    follows is left out. *)
Definition activateSensorByIndex (idx : Z) (page : Page num) : Page num * bool :=
  if (idx <? 0)%Z || (Z.of_nat (length (sensors page)) <=? idx)%Z
  then (page, false)
  else ({| sensors := sensors page; offlineSensors := offlineSensors page;
           activeSensorIndex := idx |}, true).

(** What happens to a page: a device list arrives, a round of polls runs,
    a sensor is activated.  Each call runs to its end before the next one
    starts. *)
Inductive page_event : Type :=
  | DevicesLoaded (res : response num) (render_ok : bool)
  | Polled (reply : nat -> response num) (clock : nat -> string) (render_ok : bool)
  | Activated (idx : Z).

Definition page_step (page : Page num) (ev : page_event) : Page num :=
  match ev with
  | DevicesLoaded res render_ok => settled (fetchDevices res render_ok page)
  | Polled reply clock render_ok =>
      settled (fetchLatestMeasurements reply clock render_ok page)
  | Activated idx => fst (activateSensorByIndex idx page)
  end.

(** [let sensors = []; let offlineSensors = []; let activeSensorIndex = 0] *)
Definition initial_page : Page num :=
  {| sensors := []; offlineSensors := []; activeSensorIndex := 0 |}.

Definition run_page (events : list page_event) (page : Page num) : Page num :=
  fold_left page_step events page.

(** The series of a sensor fit the window and none is longer than the
    list of time labels. *)
Definition window_ok (s : Sensor num) : Prop :=
  length (timeLabels s) <= WINDOW_SIZE
  /\ forall k : series, length (series_data k s) <= length (timeLabels s).

Definition sensor_ok (s : Sensor num) : Prop :=
  truthy (deviceId s) = true /\ truthy (deviceName s) = true
  /\ isOnline (status s) = true /\ window_ok s.

Definition offline_ok (o : OfflineSensor num) : Prop :=
  truthy (off_deviceId o) = true /\ truthy (off_name o) = true
  /\ isOnline (off_status o) = false.

(** The shape every page has, whatever happened to it. *)
Definition page_ok (page : Page num) : Prop :=
  length (sensors page) <= SENSOR_COUNT
  /\ Forall sensor_ok (sensors page)
  /\ Forall offline_ok (offlineSensors page)
  /\ (-1 <= activeSensorIndex page)%Z
  /\ ((activeSensorIndex page < Z.of_nat (length (sensors page)))%Z
      \/ (activeSensorIndex page <= 0)%Z).

(** A poll leaves each sensor as it was or adds one measurement to it. *)
Definition polled_from (s s' : Sensor num) : Prop :=
  s' = s \/ exists (label : string) (raw : value num), s' = addMeasurement label raw s.

End Pages.

Section Search.

Context {num : Type} `{JSNumber num} {js_string : JSString}.

(** ** The search box *)

(** [q.toString().trim()]: what counts as white space is the host's
    business. *)
Variable trim : string -> string.

(** [(v || '').toLowerCase()]: [None] when [v] is truthy and no string,
    for then it has no such method and the call throws. *)
Definition lower_text (v : value num) : option string :=
  match or_else v (VStr "") with
  | VStr s => Some (toLowerCase s)
  | _ => None
  end.

(** [text.includes(needle)] for a needle of any length;
    [text.startsWith(needle)] is [String.prefix needle text]. *)
Fixpoint includes_text (needle text : string) : bool :=
  String.prefix needle text
  || match text with
     | EmptyString => false
     | String _ rest => includes_text needle rest
     end.

(** The callbacks of the two [findIndex] calls; [test] is [startsWith] or
    [includes].  The room is looked at only when the name does not
    match. *)
Definition sensor_matches (test : string -> string -> bool) (needle : string)
    (s : Sensor num) : option bool :=
  name ← lower_text (deviceName s);
  if test needle name then Some true
  else
    room ← lower_text (classroomNumber s);
    Some (test needle room).

(** [list.findIndex(p)], counting from [i]: [-1] when nothing matches,
    [None] when the callback throws before a match. *)
Fixpoint findIndex (p : Sensor num -> option bool) (i : nat)
    (l : list (Sensor num)) : option Z :=
  match l with
  | [] => Some (-1)%Z
  | s :: rest =>
      match p s with
      | Some true => Some (Z.of_nat i)
      | Some false => findIndex p (S i) rest
      | None => None
      end
  end.

(** [findSensorIndexByQuery(q)] *)
Definition findSensorIndexByQuery (q : string) (sensors : list (Sensor num))
  : option Z :=
  if String.eqb q "" then Some (-1)%Z
  else
    let needle := toLowerCase (trim q) in
    if String.eqb needle "" then Some (-1)%Z
    else
      idx ← findIndex (sensor_matches String.prefix needle) 0 sensors;
      if negb (idx =? -1)%Z then Some idx
      else findIndex (sensor_matches includes_text needle) 0 sensors.

(** The Enter key in the search box: activate the first hit, if any.
    [None] when the search throws. *)
Definition search_enter (q : string) (page : Page num) : option (Page num) :=
  idx ← findSensorIndexByQuery q (sensors page);
  if negb (idx =? -1)%Z then Some (fst (activateSensorByIndex idx page))
  else Some page.

(** ** Labels *)

(** [room ? ' - ' + room : ''] *)
Definition room_suffix (room : value num) : string :=
  if truthy room then " - " +:+ to_string room else "".

(** The label [refreshTabLabels], [updateHistorySensorOptions] and the
    comparison grid give the sensor at position [idx]. *)
Definition tab_label (idx : nat) (s : Sensor num) : string :=
  to_string (or_else (deviceName s) (VStr ("Sensor " +:+ pretty (idx + 1)%nat)))
  +:+ room_suffix (classroomNumber s).


(** The label [updateComparisonCharts] puts under a comparison chart: in
    the live range the time of the last sample is added. *)
Definition comparison_label (range : string) (idx : nat) (s : Sensor num)
  : string :=
  if String.eqb range "now" then
    let lastLabel := match last (timeLabels s) with
                     | Some l => l
                     | None => ""
                     end in
    tab_label idx s
    +:+ (if String.eqb lastLabel "" then "" else " um " +:+ lastLabel)
  else tab_label idx s.

End Search.

Section Comparison.

Context {num : Type} `{JSNumber num} {js_string : JSString}.

(** ** The comparison charts *)

(** The URL [cmpFetchHour] ([bucket] is ['hour']) and [cmpFetchDay]
    ([bucket] is ['day']) fetch. *)
Definition cmp_url (baseUrl bucket : string) (s : Sensor num) (metric : string)
  : string :=
  baseUrl +:+ "/sensor/history/" +:+ bucket +:+ "/"
  +:+ encodeURIComponent (to_string (deviceId s)) +:+ "?metric="
  +:+ encodeURIComponent (cmpMapMetricToApi metric).

(** The body the two functions share: the points of the answer, and the
    empty list on any failure, a thrown exception included. *)
Definition cmp_fetch (baseUrl bucket : string) (s : Sensor num) (metric : string)
    (net : string -> response num) : list (value num) :=
  match net (cmp_url baseUrl bucket s metric) with
  | Failed => []
  | Reply _ None => []
  | Reply ok (Some body) =>
      match read body "success" with
      | None => []
      | Some success =>
          if negb ok || is_false success then []
          else match member body "data" with
               | VArr points => points
               | _ => []
               end
      end
  end.

(** [cmpFetchHour(sensor, metric)] and [cmpFetchDay(sensor, metric)] *)
Definition cmpFetchHour (baseUrl : string) (s : Sensor num) (metric : string)
    (net : string -> response num) : list (value num) :=
  cmp_fetch baseUrl "hour" s metric net.

Definition cmpFetchDay (baseUrl : string) (s : Sensor num) (metric : string)
    (net : string -> response num) : list (value num) :=
  cmp_fetch baseUrl "day" s metric net.

(** [getSeriesForMetric(sensor, metric)] *)
Definition getSeriesForMetric (s : Sensor num) (metric : string) : list num :=
  if String.eqb metric "temp" then tempData s
  else if String.eqb metric "co2" then co2Data s
  else if String.eqb metric "humidity" then humidityData s
  else if String.eqb metric "pm25" then pm25Data s
  else if String.eqb metric "pm10" then pm10Data s
  else if String.eqb metric "pm03" then pm03Data s
  else if String.eqb metric "pm3" then pm03Data s
  else if String.eqb metric "pm1" then pm1Data s
  else if String.eqb metric "tvoc" then tvocData s
  else if String.eqb metric "co" then coData s
  else if String.eqb metric "hcho" then hchoData s
  else [].

(** An entry of [chartDefs]; [chart_key] names the series of the sensor
    the chart draws. *)
Record chart_def : Type := {
  chart_id : string;
  chart_label : string;
  chart_key : series;
  chart_metric : string;
  chart_color : string
}.

Definition chartDefs : list chart_def :=
  [ {| chart_id := "chartTemperature"; chart_label := "Temperatur (°C)";
       chart_key := TempSeries; chart_metric := "temp"; chart_color := "#ff5722" |};
    {| chart_id := "chartCO2"; chart_label := "CO₂ (ppm)";
       chart_key := Co2Series; chart_metric := "co2"; chart_color := "#2196f3" |};
    {| chart_id := "chartHumidity"; chart_label := "Luftfeuchte (%)";
       chart_key := HumiditySeries; chart_metric := "humidity";
       chart_color := "#00acc1" |};
    {| chart_id := "chartPM25"; chart_label := "PM2.5 (µg/m³)";
       chart_key := Pm25Series; chart_metric := "pm25"; chart_color := "#7b1fa2" |};
    {| chart_id := "chartPM10"; chart_label := "PM10 (µg/m³)";
       chart_key := Pm10Series; chart_metric := "pm10"; chart_color := "#6a1b9a" |};
    {| chart_id := "chartPM03"; chart_label := "PM0.3 (µg/m³)";
       chart_key := Pm03Series; chart_metric := "pm03"; chart_color := "#8e24aa" |};
    {| chart_id := "chartPM1"; chart_label := "PM1 (µg/m³)";
       chart_key := Pm1Series; chart_metric := "pm1"; chart_color := "#ab47bc" |};
    {| chart_id := "chartTVOC"; chart_label := "TVOC (ppb)";
       chart_key := TvocSeries; chart_metric := "tvoc"; chart_color := "#00796b" |};
    {| chart_id := "chartCO"; chart_label := "CO (ppm)";
       chart_key := CoSeries; chart_metric := "co"; chart_color := "#5d4037" |};
    {| chart_id := "chartHCHO"; chart_label := "HCHO (ppm)";
       chart_key := HchoSeries; chart_metric := "hcho"; chart_color := "#c62828" |} ].

End Comparison.

Arguments chart_def : clear implicits.

Section Download.

Context {num : Type} `{JSNumber num} {js_string : JSString}.
Variable toLocaleString : value num -> string.

(** ** The download of the export *)

(** [iso.replace(/[:T]/g, '-').split('.')[0]] on [iso], the text of
    [now.toISOString()]. *)
Fixpoint stamp (iso : string) : string :=
  match iso with
  | EmptyString => EmptyString
  | String c rest =>
      if Ascii.eqb c "." then EmptyString
      else if Ascii.eqb c ":" || Ascii.eqb c "T" then String "-" (stamp rest)
      else String c (stamp rest)
  end.

Inductive file_outcome : Type :=
  | NotOffered (hint : string)
  | Offered (name text : string)
  | Thrown.

(** [exportHistoryCSV()] with the file name: after the text is put
    together the file name is made from the sensor name, the metric, the
    range and the time [iso] of the click, and only then is the link
    clicked. *)
Definition exportHistoryCSV_file (iso : string) (ls : storage)
    (cache : history_cache num) : history_cache num * file_outcome :=
  match exportHistoryCSV toLocaleString ls cache with
  | (cache', NoFile hint) => (cache', NotOffered hint)
  | (cache', Uncaught) => (cache', Thrown)
  | (cache', Download text) =>
      match lastHistoryMeta cache with
      | Some meta =>
          match safeName (meta_sensorName meta) with
          | Some safe =>
              (cache',
               Offered ("history_" +:+ safe +:+ "_" +:+ meta_metric meta +:+ "_"
                        +:+ meta_range meta +:+ "_" +:+ stamp iso +:+ ".csv")
                       text)
          | None => (cache', Thrown)
          end
      | None => (cache', Thrown)
      end
  end.

End Download.

Section Form.

Context {num : Type} `{JSNumber num} {js_string : JSString}.

(** ** The other handlers of the login form *)

(** [handleToggleClick]: switch between login and registration. *)
Definition toggle (st : auth_state num) : auth_state num :=
  set_mode {| isLogin := negb (isLogin (mode st));
              isResetPhase1 := isResetPhase1 (mode st);
              isResetPhase2 := isResetPhase2 (mode st) |} st.

(** The click on the link for a forgotten password. *)
Definition forgot (st : auth_state num) : auth_state num :=
  set_mode {| isLogin := false; isResetPhase1 := true; isResetPhase2 := false |} st.

(** The click on the link that cancels a reset. *)
Definition cancel_reset (st : auth_state num) : auth_state num :=
  set_mode {| isLogin := true; isResetPhase1 := false; isResetPhase2 := false |} st.

(** What the user can do to the form.  A submission comes with the field
    values at that time and with the outcome of its request. *)
Inductive form_event : Type :=
  | Submitted (inp : auth_input) (net : response num)
  | Toggled
  | Forgot
  | Cancelled.

Definition form_step (st : auth_state num) (ev : form_event) : auth_state num :=
  match ev with
  | Submitted inp net => submit inp net st
  | Toggled => toggle st
  | Forgot => forgot st
  | Cancelled => cancel_reset st
  end.

Definition form_run (events : list form_event) (st : auth_state num)
  : auth_state num :=
  fold_left form_step events st.

(** The effect is an alert. *)
Definition is_alert (e : effect num) : bool :=
  match e with
  | Alert _ => true
  | Redirect _ => false
  end.

End Form.

Arguments form_event : clear implicits.

(** ** Sample data

    Concrete payloads, with integers for numbers, on which the
    definitions above can be run. *)

Definition demo_sensor : Sensor Z :=
  newSensor 0 (VStr "dev-1") (VStr "Labor") (VStr "101") (VBool true).

Definition demo_payload (t c : Z) : value Z :=
  VObj [("temp", VNum t); ("co2", VNum c); ("hum", VNull);
        ("pm0_3", VNum (t + 100)%Z); ("pm1", VStr "n/a")].

(** Seven polls, one more than the window holds plus one. *)
Definition demo_calls : list (string * value Z) :=
  [("10:00", demo_payload 1 400); ("10:01", demo_payload 2 410);
   ("10:02", demo_payload 3 420); ("10:03", VObj [("co2", VNum 430)]);
   ("10:04", demo_payload 5 440); ("10:05", demo_payload 6 450);
   ("10:06", demo_payload 7 460)]%Z.

Definition demo_device (name : string) (st : value Z) : value Z :=
  VObj [("device_id", VStr name); ("status", st)].

(** Six devices that are all online. *)
Definition six_online : list (value Z) :=
  map (fun name => demo_device name (VBool true)) ["a"; "b"; "c"; "d"; "e"; "f"].

Definition device_list (devices : list (value Z)) : value Z :=
  VObj [("success", VBool true); ("data", VArr devices)].

Definition empty_page : Page Z :=
  {| sensors := []; offlineSensors := []; activeSensorIndex := 0 |}.

(** Two online devices, one offline device and one offline entry without
    an id. *)
Definition mixed_devices : list (value Z) :=
  [demo_device "a" (VStr "online"); demo_device "b" (VNum 0);
   VObj [("Status", VNum 1); ("id", VStr "c")]; VObj [("status", VBool false)]]%Z.

Definition demo_form : history_form :=
  {| historySensor := Some 0%Z; historyMetric := "PM25";
     historyRange := "month" |}.

Definition demo_history : value Z :=
  VObj [("success", VBool true);
        ("data", VArr [VObj [("ts", VStr "2025-01-01T10:00:00Z");
                             ("avg", VNum 21); ("n", VNum 4)];
                       VObj [("ts", VStr "2025-01-01T11:00:00Z");
                             ("avg", VNull)]])]%Z.

Definition demo_clock (ts : value Z) : string :=
  match ts with
  | VStr "2025-01-01T10:00:00Z" => "01.01.2025, 11:00:00"
  | VStr "2025-01-01T11:00:00Z" => "01.01.2025, 12:00:00"
  | _ => "Invalid Date"
  end.

Definition demo_cache : history_cache Z :=
  loadHistory "https://air.example/api" (Some demo_form) [demo_sensor]
    (fun _ => Reply true (Some demo_history)) true
    {| lastHistorySeries := None; lastHistoryMeta := None |}.

(** A quota with room for everything, and a quota of [n] units counted
    over the keys and the values. *)
Definition no_limit (items : gmap string string) : bool := true.

Definition storage_size (items : gmap string string) : nat :=
  map_fold (fun k v n => String.length k + String.length v + n)%nat 0%nat items.

Definition limit (n : nat) (items : gmap string string) : bool :=
  (storage_size items <=? n)%nat.

Definition admin_storage : storage :=
  Items no_limit (<["userRole" := "Admin"]> (<["isLoggedIn" := "true"]> ∅)).

Definition guest_storage : storage :=
  Items no_limit
    (<["userRole" := "admin"]> (<["userEmail" := "old@example.org"]> ∅)).

(** The same items in a storage that is nearly full. *)
Definition tight_storage : storage :=
  Items (limit 55)
    (<["userRole" := "admin"]> (<["userEmail" := "old@example.org"]> ∅)).

Definition login_input : auth_input :=
  {| email := "eva@example.org"; password := "secret"; username := "";
     resetCode := ""; confirmPassword := "" |}.

Definition login_start : auth_state Z :=
  {| mode := {| isLogin := true; isResetPhase1 := false;
                isResetPhase2 := false |};
     store := guest_storage; effects := [] |}.

Definition tight_start : auth_state Z :=
  {| mode := {| isLogin := true; isResetPhase1 := false;
                isResetPhase2 := false |};
     store := tight_storage; effects := [] |}.

Definition login_reply : response Z :=
  Reply true (Some (VObj [("success", VBool true);
                          ("user", VObj [("username", VStr "eva")])])).

(** Sample data for the rest of the dashboard. *)

Definition named_device (dev name room : string) (st : value Z) : value Z :=
  VObj [("device_id", VStr dev); ("name", VStr name);
        ("classroom_number", VStr room); ("status", st)].

(** Three online sensors, one of them without a room, and one offline
    device. *)
Definition school_devices : list (value Z) :=
  [named_device "d1" "Kollab" "Raum 7" (VBool true);
   named_device "d2" "Labor Nord" "" (VStr "online");
   named_device "d3" "Werkstatt" "Lab 2" (VNum 1);
   named_device "d4" "Keller" "U1" (VStr "offline")]%Z.

Definition school_events : list (page_event (num := Z)) :=
  [DevicesLoaded (Reply true (Some (device_list school_devices))) true].

Definition school_page : Page Z := run_page school_events initial_page.

(** A poll round in which the second request fails. *)
Definition broken_round (i : nat) : response Z :=
  match i with
  | 0 => Reply true (Some (demo_payload 21%Z 400%Z))
  | 1 => Reply false None
  | _ => Reply true (Some (VObj [("data", demo_payload 23%Z 420%Z)]))
  end.

Definition drop_blanks (s : string) : string :=
  (fix go (t : string) : string :=
     match t with
     | String c rest => if Ascii.eqb c " " then go rest else t
     | EmptyString => EmptyString
     end) s.

(** A [trim] for the examples: blanks at both ends are dropped. *)
Definition trim_blanks (s : string) : string :=
  String.rev (drop_blanks (String.rev (drop_blanks s))).

Definition day_form : history_form :=
  {| historySensor := Some 1%Z; historyMetric := "pm3"; historyRange := "" |}.

Definition empty_cache : history_cache Z :=
  {| lastHistorySeries := None; lastHistoryMeta := None |}.

(** A sensor whose device name the backend sent as a number. *)
Definition numbered_sensor : Sensor Z :=
  newSensor 0 (VStr "dev-9") (VNum 12%Z) (VStr "") (VBool true).

Definition numbered_cache : history_cache Z :=
  loadHistory "https://air.example/api" (Some demo_form) [numbered_sensor]
    (fun _ => Reply true (Some demo_history)) true empty_cache.

Definition admin_reply : response Z :=
  Reply true (Some (VObj [("success", VBool true);
                          ("user", VObj [("role", VStr "ADMIN")])])).

(** A backend that sends the role as a one-element array. *)
Definition array_reply : response Z :=
  Reply true (Some (VObj [("success", VBool true);
                          ("user", VObj [("role", VArr [VStr "Admin"])])])).

(** The school page after six rounds of polls that all succeed: one round
    more than the window holds. *)
Definition busy_events : list (page_event (num := Z)) :=
  school_events
  ++ map (fun round : Z * string =>
            Polled (fun _ => Reply true (Some (demo_payload (fst round) 400)))
                   (fun _ => snd round) true)
         [(21, "10:01"); (22, "10:02"); (23, "10:03"); (24, "10:04");
          (25, "10:05"); (26, "10:06")]%Z.

Definition busy_sensor : Sensor Z :=
  nth 1 (sensors (run_page busy_events initial_page)) demo_sensor.

Definition quiet_events : list (form_event Z) :=
  [Toggled; Submitted login_input Failed; Toggled;
   Submitted login_input (Reply false (Some (VObj [("success", VBool true)])));
   Forgot; Submitted login_input (Reply true (Some (VObj [])));
   Cancelled; Submitted login_input (Reply true (Some (VObj [("success", VNum 0)])))]%Z.

(** * Properties *)

(** Closes a goal whose hypothesis [Hout] denies membership in a list of
    string literals, once the member has been identified. *)
Ltac listed Hout := exfalso; apply Hout; subst; auto 10.

Section Window.

Context {num : Type} `{JSNumber num} {js_string : JSString}.

Lemma trim_last_n {A : Type} (l : list A) : trim l = last_n WINDOW_SIZE l.
Proof.
  unfold last_n. induction l as [|a l IH]; [reflexivity|].
  cbn [trim]. destruct (Nat.ltb_spec WINDOW_SIZE (length (a :: l))) as [Hlt|Hge].
  - rewrite IH. cbn [length] in *.
    replace (S (length l) - WINDOW_SIZE) with (S (length l - WINDOW_SIZE)) by lia.
    reflexivity.
  - replace (length (a :: l) - WINDOW_SIZE) with 0 by lia. reflexivity.
Qed.

Lemma last_n_length {A : Type} (n : nat) (l : list A) :
  length (last_n n l) <= n.
Proof. unfold last_n. rewrite length_drop. lia. Qed.

Lemma last_n_app {A : Type} (n : nat) (l p : list A) :
  last_n n (last_n n l ++ p) = last_n n (l ++ p).
Proof.
  unfold last_n.
  destruct (Nat.le_gt_cases (length l) n) as [Hle|Hgt].
  - replace (length l - n) with 0 by lia. reflexivity.
  - rewrite <- (drop_app_le l p (length l - n)) by lia.
    rewrite drop_drop. f_equal.
    rewrite length_drop, !length_app. lia.
Qed.

Lemma trim_length {A : Type} (l : list A) : length (trim l) <= WINDOW_SIZE.
Proof. rewrite trim_last_n. apply last_n_length. Qed.

Lemma is_object_guard (raw : value num) :
  is_object raw = true ->
  negb (truthy raw) || negb (typeof_object raw) = false.
Proof.
  unfold is_object. intros Hobj. apply andb_true_iff in Hobj as [-> ->].
  reflexivity.
Qed.

Lemma push_number_sample (raw : value num) (key : string) (arr : list num) :
  push_number (member raw key) arr
  = arr ++ match first_number raw [key] with Some n => [n] | None => [] end.
Proof.
  unfold push_number. cbn [first_number].
  destruct (member raw key); try (symmetry; apply app_nil_r); reflexivity.
Qed.

Lemma push_number_else_sample (raw : value num) (k1 k2 : string) (arr : list num) :
  push_number_else (member raw k1) (member raw k2) arr
  = arr ++ match first_number raw [k1; k2] with Some n => [n] | None => [] end.
Proof.
  unfold push_number_else, push_number. cbn [first_number].
  destruct (member raw k1); try reflexivity;
    destruct (member raw k2); try (symmetry; apply app_nil_r); reflexivity.
Qed.

(** One call on an object: every series is the old one with the sample
    pushed, cut back to the window. *)
Lemma addMeasurement_series (label : string) (raw : value num) (s : Sensor num)
    (k : series) :
  is_object raw = true ->
  series_data k (addMeasurement label raw s)
  = trim (series_data k s ++ sample k raw).
Proof.
  intros Hobj. unfold addMeasurement. rewrite (is_object_guard raw Hobj).
  unfold sample.
  destruct k; cbn [series_data trim_window record_sample series_keys
                   tempData co2Data humidityData pm25Data pm10Data pm03Data
                   pm1Data tvocData aqiData coData hchoData];
    first [ rewrite push_number_sample | rewrite push_number_else_sample ];
    reflexivity.
Qed.

Lemma addMeasurement_labels (label : string) (raw : value num) (s : Sensor num) :
  is_object raw = true ->
  timeLabels (addMeasurement label raw s) = trim (timeLabels s ++ [label]).
Proof.
  intros Hobj. unfold addMeasurement. rewrite (is_object_guard raw Hobj).
  reflexivity.
Qed.

Lemma addMeasurements_series (k : series) (calls : list (string * value num)) :
  forall s0 : Sensor num,
  calls <> [] ->
  Forall (fun c => is_object (snd c) = true) calls ->
  series_data k (addMeasurements calls s0)
  = last_n WINDOW_SIZE
      (series_data k s0 ++ flat_map (fun c => sample k (snd c)) calls).
Proof.
  induction calls as [|c cs IH]; intros s0 Hne Hall; [congruence|].
  inversion Hall as [|? ? Hc Hcs]; subst.
  unfold addMeasurements in *. cbn [fold_left flat_map].
  destruct cs as [|c' cs'].
  - cbn [fold_left flat_map]. rewrite app_nil_r.
    rewrite addMeasurement_series by assumption. apply trim_last_n.
  - rewrite IH by (assumption || discriminate).
    rewrite addMeasurement_series by assumption.
    rewrite trim_last_n, last_n_app, <- app_assoc. reflexivity.
Qed.

Lemma addMeasurements_labels (calls : list (string * value num)) :
  forall s0 : Sensor num,
  calls <> [] ->
  Forall (fun c => is_object (snd c) = true) calls ->
  timeLabels (addMeasurements calls s0)
  = last_n WINDOW_SIZE (timeLabels s0 ++ map fst calls).
Proof.
  induction calls as [|c cs IH]; intros s0 Hne Hall; [congruence|].
  inversion Hall as [|? ? Hc Hcs]; subst.
  unfold addMeasurements in *. cbn [fold_left map].
  destruct cs as [|c' cs'].
  - cbn [fold_left map]. rewrite addMeasurement_labels by assumption.
    apply trim_last_n.
  - rewrite IH by (assumption || discriminate).
    rewrite addMeasurement_labels by assumption.
    rewrite trim_last_n, last_n_app, <- app_assoc. reflexivity.
Qed.

(** C1. Rolling-window invariant: after any non-empty run of
    [addMeasurement] calls with object arguments, started from any sensor,
    each of the eleven numeric series and [timeLabels] holds at most
    [WINDOW_SIZE] entries and is exactly the last [WINDOW_SIZE] entries of
    what it held at the start followed by everything pushed to it since,
    oldest dropped first.  For a sensor fresh from its constructor this is
    the suffix of the values ever pushed. *)
Theorem rolling_window_invariant (s0 : Sensor num)
    (calls : list (string * value num)) :
  calls <> [] ->
  Forall (fun c => is_object (snd c) = true) calls ->
  (forall k : series,
     length (series_data k (addMeasurements calls s0)) <= WINDOW_SIZE
     /\ series_data k (addMeasurements calls s0)
        = last_n WINDOW_SIZE
            (series_data k s0 ++ flat_map (fun c => sample k (snd c)) calls))
  /\ length (timeLabels (addMeasurements calls s0)) <= WINDOW_SIZE
  /\ timeLabels (addMeasurements calls s0)
     = last_n WINDOW_SIZE (timeLabels s0 ++ map fst calls).
Proof.
  intros Hne Hall. split; [intros k; split|split].
  - rewrite addMeasurements_series by assumption. apply last_n_length.
  - apply addMeasurements_series; assumption.
  - rewrite addMeasurements_labels by assumption. apply last_n_length.
  - apply addMeasurements_labels; assumption.
Qed.

End Window.

Section Frame.

Context {num : Type} `{JSNumber num} {js_string : JSString}.

Lemma addMeasurement_noop (label : string) (raw : value num) (s : Sensor num) :
  is_object raw = false -> addMeasurement label raw s = s.
Proof.
  unfold is_object, addMeasurement. intros Hno.
  rewrite <- negb_andb, Hno. reflexivity.
Qed.

Lemma first_number_typeof (raw : value num) (keys : list string) :
  match first_number raw keys with
  | Some _ => existsb (fun key => typeof_number (member raw key)) keys = true
  | None => existsb (fun key => typeof_number (member raw key)) keys = false
  end.
Proof.
  induction keys as [|key keys IH]; [reflexivity|].
  cbn [first_number existsb].
  destruct (member raw key); cbn [typeof_number orb]; try exact IH; reflexivity.
Qed.

Lemma first_present_nullish (raw : value num) (keys : list string) :
  match first_present raw keys with
  | Some v =>
      nullish v = false
      /\ forallb (fun key => nullish (member raw key)) keys = false
  | None => forallb (fun key => nullish (member raw key)) keys = true
  end.
Proof.
  induction keys as [|key keys IH]; [reflexivity|].
  cbn [first_present forallb].
  destruct (nullish (member raw key)) eqn:Hn; cbn [andb].
  - exact IH.
  - split; [exact Hn | reflexivity].
Qed.

Lemma addMeasurement_scalar (label : string) (raw : value num) (s : Sensor num)
    (q : scalar) :
  is_object raw = true ->
  scalar_value q (addMeasurement label raw s)
  = match first_present raw (scalar_keys q) with
    | Some v => v
    | None => scalar_value q s
    end.
Proof.
  intros Hobj. unfold addMeasurement. rewrite (is_object_guard raw Hobj).
  destruct q; cbn [scalar_value trim_window record_sample scalar_keys
                   first_present humidity pm25 pm1_0 pm1 tvoc aqi co hcho
                   pm10 pm03];
    unfold coalesce;
    repeat match goal with
           | |- context [nullish ?v] => destruct (nullish v)
           end; reflexivity.
Qed.

(** C8. Conditional append and no-op frame.  A [raw] that is [null] or no
    object leaves the sensor as it is.  For an object, every numeric series
    has a value pushed (before the window is cut) exactly when one of its
    payload members is of type number, and that value is the first such
    member; [timeLabels] has exactly one label pushed; and every last-value
    member keeps its previous value when all of its payload members are
    [null] or [undefined], and takes the first one that is not otherwise.
    The payload is remembered in [lastRaw] and the identity of the sensor
    is kept. *)
Theorem addMeasurement_frame (label : string) (raw : value num) (s : Sensor num) :
  (is_object raw = false -> addMeasurement label raw s = s)
  /\ (is_object raw = true ->
      (forall k : series,
         (existsb (fun key => typeof_number (member raw key)) (series_keys k) = true ->
          exists n, first_number raw (series_keys k) = Some n
             /\ series_data k (addMeasurement label raw s)
                = trim (series_data k s ++ [n]))
         /\ (existsb (fun key => typeof_number (member raw key)) (series_keys k) = false ->
             series_data k (addMeasurement label raw s) = trim (series_data k s)))
      /\ timeLabels (addMeasurement label raw s) = trim (timeLabels s ++ [label])
      /\ (forall q : scalar,
         (forallb (fun key => nullish (member raw key)) (scalar_keys q) = true ->
          scalar_value q (addMeasurement label raw s) = scalar_value q s)
         /\ (forallb (fun key => nullish (member raw key)) (scalar_keys q) = false ->
             exists v, first_present raw (scalar_keys q) = Some v
                /\ nullish v = false
                /\ scalar_value q (addMeasurement label raw s) = v))
      /\ lastRaw (addMeasurement label raw s) = raw
      /\ id (addMeasurement label raw s) = id s
      /\ deviceId (addMeasurement label raw s) = deviceId s
      /\ deviceName (addMeasurement label raw s) = deviceName s
      /\ classroomNumber (addMeasurement label raw s) = classroomNumber s
      /\ status (addMeasurement label raw s) = status s).
Proof.
  split; [apply addMeasurement_noop|]. intros Hobj.
  split; [|split; [|split]].
  - intros k. rewrite addMeasurement_series by assumption. unfold sample.
    pose proof (first_number_typeof raw (series_keys k)) as Hty.
    destruct (first_number raw (series_keys k)) as [n|]; split; intros He.
    + exists n. split; reflexivity.
    + congruence.
    + congruence.
    + rewrite app_nil_r. reflexivity.
  - apply addMeasurement_labels. assumption.
  - intros q. rewrite addMeasurement_scalar by assumption.
    pose proof (first_present_nullish raw (scalar_keys q)) as Hpr.
    destruct (first_present raw (scalar_keys q)) as [v|]; split; intros He.
    + destruct Hpr. congruence.
    + exists v. destruct Hpr. auto.
    + reflexivity.
    + congruence.
  - unfold addMeasurement. rewrite (is_object_guard raw Hobj).
    repeat split; reflexivity.
Qed.

End Frame.

Section Admin.

Context {js_string : JSString}.

Lemma str_or_empty (s : string) : str_or s "" = s.
Proof.
  unfold str_or. destruct (String.eqb_spec s ""); congruence.
Qed.

Lemma item_or_empty_some (item : option string) (s : string) :
  item = Some s -> item_or_empty item = s.
Proof. intros ->. apply str_or_empty. Qed.

(** C2. [__isAdmin()] answers [true] exactly when the storage can be read,
    holds ['true'] under [isLoggedIn] and holds under [userRole] a string
    whose lowercased form is ['admin']; in every other case, a storage
    that throws on access included, it answers [false]. *)
Theorem isAdmin_true_iff (ls : storage) :
  (__isAdmin ls = true <->
   exists (room : gmap string string -> bool) (items : gmap string string)
          (role : string),
     ls = Items room items
     /\ items !! "isLoggedIn" = Some "true"
     /\ items !! "userRole" = Some role
     /\ toLowerCase role = "admin")
  /\ (__isAdmin ls = false <->
      ~ exists (room : gmap string string -> bool) (items : gmap string string)
          (role : string),
          ls = Items room items
          /\ items !! "isLoggedIn" = Some "true"
          /\ items !! "userRole" = Some role
          /\ toLowerCase role = "admin").
Proof.
  assert (Hiff : __isAdmin ls = true <->
    exists (room : gmap string string -> bool) (items : gmap string string)
          (role : string),
      ls = Items room items /\ items !! "isLoggedIn" = Some "true"
      /\ items !! "userRole" = Some role /\ toLowerCase role = "admin").
  { unfold __isAdmin, isAdmin_try. destruct ls as [|room items]; cbn.
    - split; [discriminate|]. intros (? & ? & ? & ? & _). discriminate.
    - destruct (decide (items !! "isLoggedIn" = Some "true")) as [Hin|Hout].
      + rewrite bool_decide_eq_true_2 by assumption. cbn.
        destruct (items !! "userRole") as [role|] eqn:Hrole; cbn.
        * rewrite str_or_empty.
          destruct (String.eqb_spec (toLowerCase role) "admin") as [Heq|Hne].
          -- split; [intros _|reflexivity]. exists room, items, role. auto.
          -- split; [discriminate|].
             intros (room' & items' & role' & Hls & _ & Hrole' & Hadm).
             injection Hls as <- <-. congruence.
        * rewrite (toLowerCase_ascii "") by reflexivity. cbn.
          split; [discriminate|].
          intros (room' & items' & role' & Hls & _ & Hrole' & _).
          injection Hls as <- <-. congruence.
      + rewrite bool_decide_eq_false_2 by assumption. cbn.
        split; [discriminate|].
        intros (room' & items' & role' & Hls & Hlog & _). injection Hls as <- <-.
        contradiction. }
  split; [exact Hiff|].
  rewrite <- Hiff. destruct (__isAdmin ls); split; congruence.
Qed.

(** C9. The two metric-name mappers agree on every string. *)
Theorem metric_mappers_agree (metric : string) :
  cmpMapMetricToApi metric = mapMetricToApi metric.
Proof.
  unfold cmpMapMetricToApi, mapMetricToApi.
  generalize (toLowerCase (str_or metric "")). intros m.
  destruct (String.eqb_spec m "humidity") as [-> | _]; [reflexivity|].
  destruct (String.eqb_spec m "pm25") as [-> | _]; [reflexivity|].
  destruct (String.eqb_spec m "pm03") as [-> | _]; [reflexivity|].
  destruct (String.eqb_spec m "pm3") as [-> | _]; [reflexivity|].
  destruct (String.eqb_spec m "pm1") as [-> | _]; reflexivity.
Qed.

End Admin.

Section History.

Context {num : Type} `{JSNumber num} {js_string : JSString}.

Lemma basePath_listed (range : string) :
  In range ["day"; "week"; "month"; "year"] ->
  basePath (str_or range "day") = range.
Proof.
  cbn [In]. intros [<-|[<-|[<-|[<-|[]]]]]; reflexivity.
Qed.

Lemma basePath_other (range : string) :
  ~ In range ["day"; "week"; "month"; "year"] ->
  basePath (str_or range "day") = "day".
Proof.
  cbn [In]. intros Hout. unfold str_or.
  destruct (String.eqb_spec range ""); [reflexivity|].
  unfold basePath.
  destruct (String.eqb_spec range "week"); [listed Hout|].
  destruct (String.eqb_spec range "month"); [listed Hout|].
  destruct (String.eqb_spec range "year"); [listed Hout|reflexivity].
Qed.

(** [mapMetricToApi] looks at the lowercased key only. *)
Lemma mapMetricToApi_table (key : string) :
  (toLowerCase key = "humidity" -> mapMetricToApi key = "hum")
  /\ (toLowerCase key = "pm1" -> mapMetricToApi key = "pm1_0")
  /\ (toLowerCase key = "pm25" -> mapMetricToApi key = "pm2_5")
  /\ (toLowerCase key = "pm3" -> mapMetricToApi key = "pm0_3")
  /\ (toLowerCase key = "pm03" -> mapMetricToApi key = "pm0_3")
  /\ (~ In (toLowerCase key) ["humidity"; "pm1"; "pm25"; "pm3"; "pm03"] ->
      mapMetricToApi key = toLowerCase key).
Proof.
  unfold mapMetricToApi. rewrite str_or_empty.
  generalize (toLowerCase key). intros m. cbn [In].
  repeat split; try (intros ->; reflexivity).
  intros Hout.
  destruct (String.eqb_spec m "humidity"); [listed Hout|].
  destruct (String.eqb_spec m "pm1"); [listed Hout|].
  destruct (String.eqb_spec m "pm25"); [listed Hout|].
  destruct (String.eqb_spec m "pm3"); [listed Hout|].
  destruct (String.eqb_spec m "pm03"); [listed Hout|reflexivity].
Qed.

(** C4, as the code has it.  When [loadHistory] sends its request, the
    URL is [<baseUrl>/sensor/history/<r>/<deviceId>?metric=<m>] with the
    device id and [m] passed through [encodeURIComponent]; [r] is the
    selected range when that is one of ['day'], ['week'], ['month'],
    ['year'] and ['day'] for every other value; [m] is [mapMetricToApi] of
    the selected metric (['temp'] when the selector is empty), and
    [mapMetricToApi] lowercases its key, maps the lowercased key
    ['humidity'] to ['hum'], ['pm1'] to ['pm1_0'], ['pm25'] to ['pm2_5'],
    ['pm3'] and ['pm03'] to ['pm0_3'], and answers every other lowercased
    key as it is.  The outcome of [loadHistory] depends on the network at
    that URL only. *)
Theorem history_range_routing (baseUrl : string) (f : history_form)
    (sensors : list (Sensor num)) (url : string) :
  loadHistory_request baseUrl (Some f) sensors = Some url ->
  exists (idx : nat) (s : Sensor num) (r m : string),
    selected_sensor f sensors = Some (idx, s)
    /\ url = baseUrl +:+ "/sensor/history/" +:+ r +:+ "/"
             +:+ encodeURIComponent (to_string (deviceId s)) +:+ "?metric="
             +:+ encodeURIComponent m
    /\ (In (historyRange f) ["day"; "week"; "month"; "year"] ->
        r = historyRange f)
    /\ (~ In (historyRange f) ["day"; "week"; "month"; "year"] -> r = "day")
    /\ m = mapMetricToApi (str_or (historyMetric f) "temp")
    /\ (forall key : string,
          (toLowerCase key = "humidity" -> mapMetricToApi key = "hum")
          /\ (toLowerCase key = "pm1" -> mapMetricToApi key = "pm1_0")
          /\ (toLowerCase key = "pm25" -> mapMetricToApi key = "pm2_5")
          /\ (toLowerCase key = "pm3" -> mapMetricToApi key = "pm0_3")
          /\ (toLowerCase key = "pm03" -> mapMetricToApi key = "pm0_3")
          /\ (~ In (toLowerCase key) ["humidity"; "pm1"; "pm25"; "pm3"; "pm03"] ->
              mapMetricToApi key = toLowerCase key))
    /\ (forall (net net' : string -> response num) (chart_ok : bool)
               (cache : history_cache num),
          net url = net' url ->
          loadHistory baseUrl (Some f) sensors net chart_ok cache
          = loadHistory baseUrl (Some f) sensors net' chart_ok cache).
Proof.
  unfold loadHistory_request. cbn [mbind option_bind].
  destruct (selected_sensor f sensors) as [[idx s]|] eqn:Hsel; [|discriminate].
  cbn [mbind option_bind snd]. intros [= <-].
  exists idx, s, (basePath (str_or (historyRange f) "day")),
         (mapMetricToApi (str_or (historyMetric f) "temp")).
  split; [reflexivity|]. split; [reflexivity|].
  split; [apply basePath_listed|]. split; [apply basePath_other|].
  split; [reflexivity|]. split; [apply mapMetricToApi_table|].
  intros net net' chart_ok cache Hnet. unfold loadHistory.
  rewrite Hsel, Hnet. reflexivity.
Qed.

End History.

Section Devices.

Context {num : Type} `{JSNumber num} {js_string : JSString}.

Lemma partition_devices_filter (all : list (value num)) :
  Forall (fun dev => nullish dev = false) all ->
  partition_devices all = Some (online_devices all, offline_devices all).
Proof.
  unfold online_devices, offline_devices.
  induction 1 as [|dev rest Hdev _ IH]; [reflexivity|].
  cbn [partition_devices List.filter]. rewrite Hdev, IH.
  cbn [mbind option_bind fst snd].
  destruct (isOnline (rawStatus dev)); reflexivity.
Qed.

Lemma partition_devices_null (all : list (value num)) :
  ~ Forall (fun dev => nullish dev = false) all ->
  partition_devices all = None.
Proof.
  induction all as [|dev rest IH]; intros Hnot.
  - exfalso. apply Hnot. constructor.
  - cbn [partition_devices]. destruct (nullish dev) eqn:Hdev; [reflexivity|].
    rewrite IH; [reflexivity|].
    intros Hrest. apply Hnot. constructor; assumption.
Qed.

Lemma build_sensors_sound (devices : list (value num)) :
  forall (i : nat) (s : Sensor num),
  In s (build_sensors i devices) ->
  truthy (deviceId s) = true
  /\ exists dev, In dev devices /\ deviceId s = device_id dev.
Proof.
  induction devices as [|dev rest IH]; intros i s Hin; [destruct Hin|].
  cbn [build_sensors] in Hin.
  destruct (truthy (device_id dev)) eqn:Hid; cbn [negb] in Hin.
  - destruct Hin as [<-|Hin].
    + split; [exact Hid|]. exists dev. split; [left|]; reflexivity.
    + destruct (IH _ _ Hin) as [Ht (d & Hd & Heq)].
      split; [exact Ht|]. exists d. split; [right|]; assumption.
  - destruct (IH _ _ Hin) as [Ht (d & Hd & Heq)].
    split; [exact Ht|]. exists d. split; [right|]; assumption.
Qed.

Lemma build_sensors_complete (devices : list (value num)) :
  forall (i : nat) (dev : value num),
  In dev devices -> truthy (device_id dev) = true ->
  exists s, In s (build_sensors i devices) /\ deviceId s = device_id dev.
Proof.
  induction devices as [|d rest IH]; intros i dev Hin Hid; [destruct Hin|].
  cbn [build_sensors]. destruct Hin as [-> | Hin].
  - rewrite Hid. cbn [negb]. eexists. split; [left; reflexivity|reflexivity].
  - destruct (IH (S i) dev Hin Hid) as (s & Hs & Heq).
    exists s. split; [|exact Heq].
    destruct (negb (truthy (device_id d))); [|right]; exact Hs.
Qed.

Lemma build_sensors_length (devices : list (value num)) :
  forall i : nat, length (build_sensors i devices) <= length devices.
Proof.
  induction devices as [|dev rest IH]; intros i; [reflexivity|].
  cbn [build_sensors]. specialize (IH (S i)).
  destruct (negb (truthy (device_id dev))); cbn [length]; lia.
Qed.

Lemma offline_entries_ids (devices : list (value num)) :
  forall (j : nat) (id0 : value num),
  In id0 (map off_deviceId (offline_entries j devices))
  <-> In id0 (map device_id devices).
Proof.
  induction devices as [|dev rest IH]; intros j id0; [reflexivity|].
  cbn [offline_entries map In off_deviceId]. rewrite IH. reflexivity.
Qed.

(** The ids of the sensors and of the offline entries, in order: the
    truthy ids of the devices they are built from. *)
Lemma build_sensors_ids (devices : list (value num)) :
  forall i : nat,
  map deviceId (build_sensors i devices)
  = List.filter truthy (map device_id devices).
Proof.
  induction devices as [|dev rest IH]; intros i; [reflexivity|].
  cbn [build_sensors map List.filter].
  destruct (truthy (device_id dev)); cbn [negb map]; rewrite IH; reflexivity.
Qed.

Lemma offline_entries_shown (devices : list (value num)) :
  forall j : nat,
  map off_deviceId
    (filter (fun d => truthy (off_deviceId d) = true) (offline_entries j devices))
  = List.filter truthy (map device_id devices).
Proof.
  induction devices as [|dev rest IH]; intros j; [reflexivity|].
  cbn [offline_entries map List.filter]. rewrite filter_cons.
  cbn [off_deviceId].
  destruct (decide (truthy (device_id dev) = true)) as [Hid|Hid].
  - rewrite Hid. cbn [map off_deviceId]. rewrite IH. reflexivity.
  - apply not_true_is_false in Hid. rewrite Hid. apply IH.
Qed.

Lemma isOnline_values (st : value num) :
  isOnline st = true <->
  st = VBool true \/ st = VStr "true" \/ st = VStr "online"
  \/ (exists n, st = VNum n /\ num_is_one n = true) \/ st = VStr "1".
Proof.
  split.
  - destruct st as [| |b|n|s|items|fields]; cbn [isOnline]; try discriminate.
    + intros ->. auto.
    + intros Hone. right; right; right; left. exists n. auto.
    + destruct (String.eqb_spec s "true") as [-> | _]; [auto|].
      destruct (String.eqb_spec s "online") as [-> | _]; [auto|].
      destruct (String.eqb_spec s "1") as [-> | _]; [auto 6|discriminate].
  - intros [-> | [-> | [-> | [(n & -> & Hone) | ->]]]]; try reflexivity. exact Hone.
Qed.

Lemma In_take {A : Type} (n : nat) (l : list A) (x : A) :
  In x (take n l) -> In x l.
Proof.
  revert l. induction n as [|n IH]; intros [|a l] Hin; try destruct Hin.
  - left. assumption.
  - right. apply IH. assumption.
Qed.

(** What [fetchDevices] leaves behind on an accepted list without [null]
    entries. *)
Lemma fetchDevices_accepted (json : value num) (all : list (value num))
    (render_ok : bool) (page : Page num) :
  truthy (member json "success") = true ->
  member json "data" = VArr all ->
  Forall (fun dev => nullish dev = false) all ->
  exists page',
    fetchDevices (Reply true (Some json)) render_ok page = Fulfilled page'
    /\ sensors page' = build_sensors 0 (take SENSOR_COUNT (online_devices all))
    /\ offlineSensors page'
       = filter (fun d => truthy (off_deviceId d) = true)
                (offline_entries 0 (offline_devices all)).
Proof.
  intros Hsucc Hdata Hall.
  unfold fetchDevices, try_log, settle, fetchDevices_try.
  assert (Hread : read json "success" = Some (member json "success")).
  { unfold read. destruct json; try discriminate Hdata; reflexivity. }
  rewrite Hread, Hsucc, Hdata. cbn [isArray negb orb or_else truthy].
  rewrite (partition_devices_filter all Hall). cbn [fst].
  eexists. split; [reflexivity|]. split; reflexivity.
Qed.

(** C3, as the code has it.  On a device list with truthy [success], an
    array [data] and no [null] entry, [fetchDevices] is fulfilled and: a
    device counts as online exactly when its status ([status], or [Status]
    when [status] is undefined) is one of [true], ['true'], ['online'],
    [1], ['1']; [sensors] has at most [SENSOR_COUNT] entries, each with a
    truthy id taken from one of the first [SENSOR_COUNT] online devices,
    and each of those devices that has an id is shown; every entry of
    [offlineSensors] has a truthy id taken from an offline device, and
    every offline device that has an id is shown there.  The ids of
    [sensors] are, in order, the truthy ids of the first [SENSOR_COUNT]
    online devices and the ids of [offlineSensors] the truthy ids of the
    offline devices, nothing more: an online device past the first
    [SENSOR_COUNT] adds no entry to either, so that it is shown only under
    an id it shares with one of the devices that do. *)
Theorem device_partition (json : value num) (all : list (value num))
    (render_ok : bool) (page : Page num) :
  truthy (member json "success") = true ->
  member json "data" = VArr all ->
  Forall (fun dev => nullish dev = false) all ->
  exists page',
    fetchDevices (Reply true (Some json)) render_ok page = Fulfilled page'
    /\ (forall dev : value num,
          In dev (online_devices all) <->
          In dev all
          /\ (rawStatus dev = VBool true \/ rawStatus dev = VStr "true"
              \/ rawStatus dev = VStr "online"
              \/ (exists n, rawStatus dev = VNum n /\ num_is_one n = true)
              \/ rawStatus dev = VStr "1"))
    /\ (forall dev : value num,
          rawStatus dev
          = match member dev "status" with
            | VUndefined => member dev "Status"
            | st => st
            end)
    /\ length (sensors page') <= SENSOR_COUNT
    /\ (forall s : Sensor num, In s (sensors page') ->
          truthy (deviceId s) = true
          /\ exists dev, In dev (take SENSOR_COUNT (online_devices all))
                         /\ deviceId s = device_id dev)
    /\ (forall dev : value num,
          In dev (take SENSOR_COUNT (online_devices all)) ->
          truthy (device_id dev) = true -> shown_online dev page')
    /\ (forall o : OfflineSensor num, In o (offlineSensors page') ->
          truthy (off_deviceId o) = true
          /\ exists dev, In dev (offline_devices all)
                         /\ off_deviceId o = device_id dev)
    /\ (forall dev : value num,
          In dev all -> isOnline (rawStatus dev) = false ->
          truthy (device_id dev) = true -> shown_offline dev page')
    /\ (forall dev : value num,
          In dev (offline_devices all) <->
          In dev all /\ isOnline (rawStatus dev) = false)
    /\ map deviceId (sensors page')
       = List.filter truthy
           (map device_id (take SENSOR_COUNT (online_devices all)))
    /\ map off_deviceId (offlineSensors page')
       = List.filter truthy (map device_id (offline_devices all))
    /\ (forall dev : value num,
          shown_online dev page' ->
          exists dev' : value num,
            In dev' (take SENSOR_COUNT (online_devices all))
            /\ device_id dev' = device_id dev)
    /\ (forall dev : value num,
          shown_offline dev page' ->
          exists dev' : value num,
            In dev' (offline_devices all) /\ device_id dev' = device_id dev).
Proof.
  intros Hsucc Hdata Hall.
  destruct (fetchDevices_accepted json all render_ok page Hsucc Hdata Hall)
    as (page' & Hrun & Hsens & Hoff).
  exists page'. split; [exact Hrun|].
  split.
  { intros dev. unfold online_devices. rewrite filter_In, isOnline_values.
    reflexivity. }
  split; [reflexivity|].
  split.
  { rewrite Hsens. etransitivity; [apply build_sensors_length|].
    rewrite length_take. lia. }
  split.
  { intros s Hin. rewrite Hsens in Hin.
    apply build_sensors_sound in Hin. exact Hin. }
  split.
  { intros dev Hin Hid. unfold shown_online. rewrite Hsens.
    apply build_sensors_complete; assumption. }
  split.
  { intros o Hin. rewrite Hoff in Hin.
    apply list_elem_of_In, list_elem_of_filter in Hin as [Hid Hin].
    split; [exact Hid|].
    apply list_elem_of_In in Hin.
    assert (Hmap : In (off_deviceId o)
                      (map off_deviceId (offline_entries 0 (offline_devices all))))
      by (apply in_map; exact Hin).
    apply offline_entries_ids, in_map_iff in Hmap as (dev & Heq & Hdev).
    exists dev. split; [exact Hdev|]. symmetry. exact Heq. }
  split.
  { intros dev Hin Hst Hid. unfold shown_offline. rewrite Hoff.
    assert (Hdev : In dev (offline_devices all)).
    { unfold offline_devices. apply filter_In. rewrite Hst. auto. }
    assert (Hmap : In (device_id dev)
                      (map off_deviceId (offline_entries 0 (offline_devices all))))
      by (apply offline_entries_ids, in_map; exact Hdev).
    apply in_map_iff in Hmap as (o & Heq & Ho).
    exists o. split; [|exact Heq].
    apply list_elem_of_In, list_elem_of_filter. split.
    - rewrite Heq. exact Hid.
    - apply list_elem_of_In. exact Ho. }
  split.
  { intros dev. unfold offline_devices. rewrite filter_In, negb_true_iff.
    reflexivity. }
  split; [rewrite Hsens; apply build_sensors_ids|].
  split; [rewrite Hoff; apply offline_entries_shown|].
  split.
  - intros dev (s & Hin & Hid). rewrite Hsens in Hin.
    apply build_sensors_sound in Hin as (_ & dev' & Hdev' & Heq).
    exists dev'. split; [exact Hdev'|]. congruence.
  - intros dev (o & Hin & Hid).
    assert (Hmap : In (off_deviceId o) (map off_deviceId (offlineSensors page')))
      by (apply in_map; exact Hin).
    rewrite Hoff, offline_entries_shown in Hmap.
    apply filter_In in Hmap as [Hmap _].
    apply in_map_iff in Hmap as (dev' & Heq & Hdev').
    exists dev'. split; [exact Hdev'|]. congruence.
Qed.

End Devices.

Section Containment.

Context {num : Type} `{JSNumber num} {js_string : JSString}.

Lemma settle_try_log {A : Type} (body : block A) :
  settle (try_log body) = Fulfilled (fst body).
Proof. reflexivity. Qed.

Lemma fetchDevices_try_failed (res : response num) (render_ok : bool)
    (page : Page num) :
  request_failed res = true ->
  fst (fetchDevices_try res render_ok page) = page
  /\ exists e, snd (fetchDevices_try res render_ok page) = Some e.
Proof.
  destruct res as [|[|] [json|]]; cbn; try discriminate; eauto.
Qed.

Lemma fetchDevices_try_rejected (json : value num) (render_ok : bool)
    (page : Page num) :
  accepted json = false ->
  fst (fetchDevices_try (Reply true (Some json)) render_ok page) = page.
Proof.
  unfold accepted, fetchDevices_try, read. intros Hacc.
  destruct (nullish json); [reflexivity|].
  rewrite <- negb_andb, Hacc. reflexivity.
Qed.

Lemma poll_sensors_failure (reply : nat -> response num) (clock : nat -> string)
    (todo : list (Sensor num)) :
  forall (i j : nat) (s : Sensor num),
  todo !! j = Some s ->
  truthy (deviceId s) = true ->
  request_failed (reply (i + j)) = true ->
  exists e, snd (poll_sensors reply clock i todo) = Some e.
Proof.
  induction todo as [|s0 rest IH]; intros i j s Hj Hid Hfail; [discriminate|].
  cbn [poll_sensors]. destruct j as [|j].
  - injection Hj as ->. rewrite Hid. cbn [negb].
    rewrite Nat.add_0_r in Hfail.
    destruct (reply i) as [|[|] [payload|]]; cbn in *; try discriminate; eauto.
  - cbn in Hj. replace (i + S j) with (S i + j) in Hfail by lia.
    destruct (IH (S i) j s Hj Hid Hfail) as [e He].
    destruct (negb (truthy (deviceId s0))); cbn [snd]; [eauto|].
    destruct (reply i) as [|[|] [payload|]]; cbn [snd]; eauto.
Qed.

(** C6. Best-effort failure containment.  A failed backend request (the
    network is down, the status is not ok, the body does not parse) makes
    the [try] block of [fetchDevices], and of [fetchLatestMeasurements]
    when it is the request of a polled sensor, end in an exception; no
    exception leaves either function, whose promise is always fulfilled;
    and after a failed request, or a device list whose [success] is not
    truthy or whose [data] is no array, [fetchDevices] leaves [sensors] and
    [offlineSensors] as they were. *)
Theorem failures_contained :
  (forall (res : response num) (render_ok : bool) (page : Page num),
     exists page', fetchDevices res render_ok page = Fulfilled page')
  /\ (forall (reply : nat -> response num) (clock : nat -> string)
             (render_ok : bool) (page : Page num),
        exists page',
          fetchLatestMeasurements reply clock render_ok page = Fulfilled page')
  /\ (forall (res : response num) (render_ok : bool) (page : Page num),
        request_failed res = true ->
        exists e, snd (fetchDevices_try res render_ok page) = Some e)
  /\ (forall (reply : nat -> response num) (clock : nat -> string)
             (render_ok : bool) (page : Page num) (i : nat) (s : Sensor num),
        sensors page !! i = Some s ->
        truthy (deviceId s) = true ->
        request_failed (reply i) = true ->
        exists e,
          snd (fetchLatestMeasurements_try reply clock render_ok page) = Some e)
  /\ (forall (res : response num) (render_ok : bool) (page : Page num),
        request_failed res = true
        \/ (exists json, res = Reply true (Some json) /\ accepted json = false) ->
        sensors (settled (fetchDevices res render_ok page)) = sensors page
        /\ offlineSensors (settled (fetchDevices res render_ok page))
           = offlineSensors page).
Proof.
  split; [|split; [|split; [|split]]].
  - intros res render_ok page. eexists. apply settle_try_log.
  - intros reply clock render_ok page. eexists. apply settle_try_log.
  - intros res render_ok page Hfail.
    apply (fetchDevices_try_failed res render_ok page Hfail).
  - intros reply clock render_ok page i s Hi Hid Hfail.
    unfold fetchLatestMeasurements_try.
    destruct (poll_sensors_failure reply clock (sensors page) 0 i s Hi Hid Hfail)
      as [e He].
    rewrite He. eauto.
  - intros res render_ok page Hcase.
    unfold fetchDevices. rewrite settle_try_log. cbn [settled].
    destruct Hcase as [Hfail|(json & -> & Hacc)].
    + destruct (fetchDevices_try_failed res render_ok page Hfail) as [-> _].
      split; reflexivity.
    + rewrite (fetchDevices_try_rejected json render_ok page Hacc).
      split; reflexivity.
Qed.

End Containment.

Section Login.

Context {num : Type} `{JSNumber num} {js_string : JSString}.

(** One step of a run of storage calls on a storage that is handed out:
    unfold the call, then settle the role read back from the storage or
    split on the answer of the quota. *)
Ltac storage_step :=
  cbn [storage_call setItem removeItem getItem fst snd andb negb default];
  lazymatch goal with
  | |- context [item_missing (?m !! ?k)] =>
      let r := fresh "r" in
      let E := fresh "Eitem" in
      destruct (m !! k) as [r|] eqn:E; simplify_map_eq; cbn [item_missing];
      try match goal with
          | |- context [String.eqb ?a ""] => destruct (String.eqb_spec a "")
          end
  | |- context [if ?room ?m then Some (Items ?room _) else None] =>
      let E := fresh "Eroom" in destruct (room m) eqn:E
  end.

Ltac storage_done :=
  cbn [storage_call setItem removeItem getItem fst snd andb negb default];
  eexists; split; [reflexivity|]; split; [intros; by simplify_map_eq|];
  split; [first [left; reflexivity | right; by simplify_map_eq]|];
  split;
  [ first [ discriminate
          | intros _; repeat split; by simplify_map_eq ]
  | intros Hroom;
    repeat match goal with
           | E : _ = false |- _ => rewrite Hroom in E; discriminate E
           end; reflexivity ].

(** What the storage calls of a granted login leave on a storage that is
    handed out: the keys they do not name stay; unless the first call
    threw, which leaves everything as it was, the login flag is set; when
    no call threw, the four keys hold the new login; and no call throws
    when the quota has room for everything. *)
Lemma login_writes_items (mail : string) (data : value num)
    (room : gmap string string -> bool) (items : gmap string string) :
  exists items' : gmap string string,
    fst (login_writes mail data (Items room items)) = Items room items'
    /\ (forall k : string,
          k <> "isLoggedIn" -> k <> "userEmail" -> k <> "userRole" ->
          k <> "username" -> items' !! k = items !! k)
    /\ (items' = items \/ items' !! "isLoggedIn" = Some "true")
    /\ (snd (login_writes mail data (Items room items)) = None ->
        items' !! "isLoggedIn" = Some "true"
        /\ items' !! "userEmail" = Some mail
        /\ items' !! "userRole" = Some (default "Gast" (supplied_role data))
        /\ items' !! "username"
           = match supplied_username data with
             | Some name => Some name
             | None => items !! "username"
             end)
    /\ ((forall m : gmap string string, room m = true) ->
        snd (login_writes mail data (Items room items)) = None).
Proof.
  unfold login_writes, supplied_role, supplied_username.
  destruct (truthy (member data "user")); cbn [andb];
    [destruct (truthy (member (member data "user") "username"));
     destruct (truthy (member (member data "user") "role")); cbn [andb negb]|];
    repeat storage_step; try storage_done.
Qed.

Lemma login_granted_inv (net : response num) (data : value num) :
  login_granted net = Some data ->
  net = Reply true (Some data)
  /\ truthy (member data "success") = true
  /\ read data "success" = Some (member data "success").
Proof.
  unfold login_granted.
  destruct net as [|[|] [body|]]; try discriminate.
  destruct (truthy (member body "success")) eqn:Hsucc; [|discriminate].
  intros [= <-]. split; [reflexivity|]. split; [exact Hsucc|].
  unfold read. destruct body; try discriminate Hsucc; reflexivity.
Qed.

Lemma submit_login_denied (inp : auth_input) (net : response num)
    (st : auth_state num) :
  login_granted net = None -> store (submit_login inp net st) = store st.
Proof.
  unfold submit_login, login_granted. intros Hno.
  destruct net as [|ok [data|]]; try reflexivity.
  unfold read. destruct (nullish data) eqn:Hnull; [reflexivity|].
  destruct ok; cbn [andb]; [|reflexivity].
  destruct (truthy (member data "success")); [discriminate|reflexivity].
Qed.

(** Outside login mode the submit handler leaves the storage alone. *)
Lemma submit_elsewhere (inp : auth_input) (net : response num)
    (st : auth_state num) :
  login_mode (mode st) = false -> store (submit inp net st) = store st.
Proof.
  unfold login_mode, submit, submit_reset1, submit_reset2, submit_register.
  intros Hmode.
  destruct (isResetPhase1 (mode st)), (isResetPhase2 (mode st)),
    (isLogin (mode st)); try discriminate Hmode;
    repeat match goal with
           | |- context [if ?b then _ else _] => destruct b
           | |- context [match ?r with Failed => _ | Reply _ _ => _ end] =>
               destruct r as [|? [?|]]
           end; reflexivity.
Qed.

Lemma submit_in_login_mode (inp : auth_input) (net : response num)
    (st : auth_state num) :
  login_mode (mode st) = true -> email inp <> "" -> password inp <> "" ->
  submit inp net st = submit_login inp net st.
Proof.
  unfold submit, login_mode. intros Hmode Hmail Hpass.
  destruct (isResetPhase1 (mode st)); [discriminate|].
  destruct (isResetPhase2 (mode st)); [discriminate|].
  destruct (isLogin (mode st)); [|discriminate].
  destruct (String.eqb_spec (email inp) ""); [contradiction|].
  destruct (String.eqb_spec (password inp) ""); [contradiction|].
  reflexivity.
Qed.

(** A granted login ends in the redirect when no storage call threw and in
    the alert of the [catch] block when one did; either way the storage is
    the one the calls left. *)
Lemma submit_login_granted (inp : auth_input) (data : value num)
    (st : auth_state num) :
  truthy (member data "success") = true ->
  store (submit_login inp (Reply true (Some data)) st)
  = fst (login_writes (email inp) data (store st))
  /\ effects (submit_login inp (Reply true (Some data)) st)
     = effects st
       ++ [match snd (login_writes (email inp) data (store st)) with
           | None => Redirect "index.html"
           | Some _ => Alert (VStr "Fehler beim Login. Bitte Server prüfen.")
           end].
Proof.
  intros Hsucc. unfold submit_login.
  assert (Hread : read data "success" = Some (member data "success")).
  { unfold read. destruct data; try discriminate Hsucc; reflexivity. }
  rewrite Hread, Hsucc. cbn [andb].
  destruct (login_writes (email inp) data (store st)) as [ls' [e|]];
    split; reflexivity.
Qed.



End Login.

Section Quoting.

Lemma append_nil_r (s : string) : s +:+ "" = s.
Proof.
  induction s as [|c s IH]; [reflexivity|].
  change (String c (s +:+ "") = String c s). f_equal. exact IH.
Qed.

Lemma append_assoc (s t u : string) : (s +:+ t) +:+ u = s +:+ (t +:+ u).
Proof.
  induction s as [|c s IH]; [reflexivity|].
  change (String c ((s +:+ t) +:+ u) = String c (s +:+ (t +:+ u))).
  f_equal. exact IH.
Qed.

Lemma includes_In (s : string) (c : ascii) :
  includes s c = true <-> In c (list_ascii_of_string s).
Proof.
  induction s as [|d s IH]; cbn [includes list_ascii_of_string In].
  - split; [discriminate|tauto].
  - rewrite orb_true_iff, IH. destruct (Ascii.eqb_spec d c); intuition congruence.
Qed.

(** A field without quote and separator is read back as it stands. *)
Lemma split_plain (s : string) :
  forall cur rest : string,
  includes s dquote = false ->
  includes s sep = false ->
  split_fields false cur (s +:+ rest) = split_fields false (cur +:+ s) rest.
Proof.
  induction s as [|c s IH]; intros cur rest Hq Hs.
  - rewrite append_nil_r. reflexivity.
  - cbn [includes] in Hq, Hs.
    apply orb_false_iff in Hq as [Hcq Hq]. apply orb_false_iff in Hs as [Hcs Hs].
    change (String c s +:+ rest) with (String c (s +:+ rest)).
    cbn [split_fields]. rewrite Hcs, Hcq, IH by assumption.
    rewrite append_assoc. reflexivity.
Qed.

(** Inside quotes, doubled quotes collapse and the closing quote ends the
    field, provided no further quote follows it. *)
Lemma split_quoted (s : string) :
  forall cur rest : string,
  (forall d r, rest = String d r -> Ascii.eqb d dquote = false) ->
  split_fields true cur (double_quotes s +:+ String dquote rest)
  = split_fields false (cur +:+ s) rest.
Proof.
  induction s as [|c s IH]; intros cur rest Hrest.
  - rewrite append_nil_r.
    change (double_quotes "" +:+ String dquote rest) with (String dquote rest).
    cbn [split_fields]. rewrite Ascii.eqb_refl.
    destruct rest as [|d r]; [reflexivity|].
    rewrite (Hrest d r eq_refl). reflexivity.
  - cbn [double_quotes]. destruct (Ascii.eqb_spec c dquote) as [-> | Hc].
    + change (String dquote (String dquote (double_quotes s)) +:+ String dquote rest)
        with (String dquote (String dquote (double_quotes s +:+ String dquote rest))).
      cbn [split_fields]. rewrite Ascii.eqb_refl, IH by assumption.
      rewrite append_assoc. reflexivity.
    + change (String c (double_quotes s) +:+ String dquote rest)
        with (String c (double_quotes s +:+ String dquote rest)).
      cbn [split_fields].
      destruct (Ascii.eqb_spec c dquote); [contradiction|].
      rewrite IH by assumption. rewrite append_assoc. reflexivity.
Qed.

(** One escaped field in front of the end of the line or of a separator. *)
Lemma split_escaped (s rest : string) :
  (forall d r, rest = String d r -> d = sep) ->
  split_fields false "" (csv_escape s +:+ rest) = split_fields false s rest.
Proof.
  intros Hrest. unfold csv_escape.
  destruct (includes s dquote || includes s sep || includes s newline) eqn:Hq.
  - change (String dquote (double_quotes s +:+ String dquote "") +:+ rest)
      with (String dquote ((double_quotes s +:+ String dquote "") +:+ rest)).
    rewrite append_assoc.
    change (String dquote "" +:+ rest) with (String dquote rest).
    cbn [split_fields].
    change (Ascii.eqb dquote sep) with false.
    rewrite Ascii.eqb_refl. rewrite split_quoted; [reflexivity|].
    intros d r Hd. rewrite (Hrest d r Hd). reflexivity.
  - apply orb_false_iff in Hq as [Hq _]. apply orb_false_iff in Hq as [Hq Hs].
    apply split_plain; assumption.
Qed.

Lemma parse_line_join (fields : list string) :
  fields <> [] ->
  parse_line (join (String sep "") (map csv_escape fields)) = fields.
Proof.
  unfold parse_line.
  induction fields as [|f rest IH]; intros Hne; [congruence|].
  destruct rest as [|g rest].
  - cbn [map join]. rewrite <- (append_nil_r (csv_escape f)).
    rewrite split_escaped by discriminate. reflexivity.
  - change (join (String sep "") (map csv_escape (f :: g :: rest)))
      with (csv_escape f +:+ String sep (join (String sep "") (map csv_escape (g :: rest)))).
    rewrite split_escaped by (intros d r [= -> _]; reflexivity).
    cbn [split_fields]. rewrite Ascii.eqb_refl.
    rewrite IH by discriminate. reflexivity.
Qed.

Lemma length_append (s t : string) :
  String.length (s +:+ t) = String.length s + String.length t.
Proof.
  induction s as [|c s IH]; [reflexivity|].
  change (S (String.length (s +:+ t)) = S (String.length s + String.length t)).
  rewrite IH. reflexivity.
Qed.

Lemma length_double_quotes (s : string) :
  String.length s <= String.length (double_quotes s).
Proof.
  induction s as [|c s IH]; [reflexivity|].
  cbn [double_quotes]. destruct (Ascii.eqb c dquote); cbn [String.length]; lia.
Qed.

(** Wrapping makes a string longer, so a wrapped field is never mistaken
    for a plain one. *)
Lemma wrapped_longer (s : string) :
  String dquote (double_quotes s +:+ String dquote "") <> s.
Proof.
  intros Heq. apply (f_equal String.length) in Heq.
  cbn [String.length] in Heq. rewrite length_append in Heq.
  pose proof (length_double_quotes s). cbn [String.length] in Heq. lia.
Qed.

Lemma csv_escape_cases (s : string) :
  (csv_escape s = String dquote (double_quotes s +:+ String dquote "")
   <-> In dquote (list_ascii_of_string s) \/ In sep (list_ascii_of_string s)
       \/ In newline (list_ascii_of_string s))
  /\ (csv_escape s = s
      <-> ~ (In dquote (list_ascii_of_string s) \/ In sep (list_ascii_of_string s)
             \/ In newline (list_ascii_of_string s))).
Proof.
  rewrite <- !includes_In. unfold csv_escape.
  pose proof (wrapped_longer s) as Hlong.
  destruct (includes s dquote), (includes s sep), (includes s newline);
    cbn [orb]; intuition congruence.
Qed.

End Quoting.

Section CsvExport.

Context {num : Type} `{JSNumber num} {js_string : JSString}.
Variable toLocaleString : value num -> string.

Lemma series_of_body_points (body : value num) (points : list (value num)) :
  series_of_body body = Some points ->
  Forall (fun p => nullish p = false) points.
Proof.
  unfold series_of_body.
  destruct (or_else (member body "data") (VArr [])); try discriminate.
  destruct (forallb (fun p => negb (nullish p)) items) eqn:Hall; [|discriminate].
  intros [= <-]. apply List.Forall_forall. intros p Hin.
  rewrite forallb_forall in Hall. apply negb_true_iff, Hall, Hin.
Qed.




Lemma history_row_filled (meta : history_meta num) (p : value num)
    (r : list (value num)) :
  history_row toLocaleString meta p = Some r -> r <> [].
Proof.
  unfold history_row. destruct (read p "ts"); cbn; [|discriminate].
  intros [= <-]. discriminate.
Qed.

Lemma parse_csv_line (r : list (value num)) :
  r <> [] -> parse_line (csv_line r) = map field_text r.
Proof.
  intros Hne. unfold csv_line.
  replace (map csv_field r) with (map csv_escape (map field_text r))
    by (rewrite map_map; reflexivity).
  apply parse_line_join. destruct r; [congruence|discriminate].
Qed.

Lemma read_plain (s : string) :
  forall (cur : string) (row : list string) (rest : string),
  includes s dquote = false ->
  includes s sep = false ->
  includes s newline = false ->
  read_rows false cur row (s +:+ rest) = read_rows false (cur +:+ s) row rest.
Proof.
  induction s as [|c s IH]; intros cur row rest Hq Hs Hn.
  - rewrite append_nil_r. reflexivity.
  - cbn [includes] in Hq, Hs, Hn.
    apply orb_false_iff in Hq as [Hcq Hq]. apply orb_false_iff in Hs as [Hcs Hs].
    apply orb_false_iff in Hn as [Hcn Hn].
    change (String c s +:+ rest) with (String c (s +:+ rest)).
    cbn [read_rows]. rewrite Hcs, Hcn, Hcq, IH by assumption.
    rewrite append_assoc. reflexivity.
Qed.

Lemma read_quoted (s : string) :
  forall (cur : string) (row : list string) (rest : string),
  (forall d r, rest = String d r -> Ascii.eqb d dquote = false) ->
  read_rows true cur row (double_quotes s +:+ String dquote rest)
  = read_rows false (cur +:+ s) row rest.
Proof.
  induction s as [|c s IH]; intros cur row rest Hrest.
  - rewrite append_nil_r.
    change (double_quotes "" +:+ String dquote rest) with (String dquote rest).
    cbn [read_rows]. rewrite Ascii.eqb_refl.
    destruct rest as [|d r]; [reflexivity|].
    rewrite (Hrest d r eq_refl). reflexivity.
  - cbn [double_quotes]. destruct (Ascii.eqb_spec c dquote) as [-> | Hc].
    + change (String dquote (String dquote (double_quotes s)) +:+ String dquote rest)
        with (String dquote (String dquote (double_quotes s +:+ String dquote rest))).
      cbn [read_rows]. rewrite Ascii.eqb_refl, IH by assumption.
      rewrite append_assoc. reflexivity.
    + change (String c (double_quotes s) +:+ String dquote rest)
        with (String c (double_quotes s +:+ String dquote rest)).
      cbn [read_rows].
      destruct (Ascii.eqb_spec c dquote); [contradiction|].
      rewrite IH by assumption. rewrite append_assoc. reflexivity.
Qed.

Lemma read_escaped (s rest : string) (row : list string) :
  (forall d r, rest = String d r -> d = sep \/ d = newline) ->
  read_rows false "" row (csv_escape s +:+ rest) = read_rows false s row rest.
Proof.
  intros Hrest. unfold csv_escape.
  destruct (includes s dquote || includes s sep || includes s newline) eqn:Hq.
  - change (String dquote (double_quotes s +:+ String dquote "") +:+ rest)
      with (String dquote ((double_quotes s +:+ String dquote "") +:+ rest)).
    rewrite append_assoc.
    change (String dquote "" +:+ rest) with (String dquote rest).
    cbn [read_rows].
    change (Ascii.eqb dquote sep) with false.
    change (Ascii.eqb dquote newline) with false.
    rewrite Ascii.eqb_refl. rewrite read_quoted; [reflexivity|].
    intros d r Hd. destruct (Hrest d r Hd) as [-> | ->]; reflexivity.
  - apply orb_false_iff in Hq as [Hq Hn]. apply orb_false_iff in Hq as [Hq Hs].
    apply read_plain; assumption.
Qed.

(** One line, followed by the end of the text or by a newline. *)
Lemma read_line (fields : list string) :
  forall (f : string) (row : list string) (rest : string),
  read_rows false "" row
    (join (String sep "") (map csv_escape (f :: fields)) +:+ String newline rest)
  = (row ++ f :: fields) :: read_rows false "" [] rest
  /\ read_rows false "" row (join (String sep "") (map csv_escape (f :: fields)))
     = [row ++ f :: fields].
Proof.
  induction fields as [|g fields IH]; intros f row rest.
  - cbn [map join]. split.
    + rewrite read_escaped by (intros d r [= <- _]; auto).
      cbn [read_rows]. change (Ascii.eqb newline sep) with false.
      rewrite Ascii.eqb_refl. reflexivity.
    + rewrite <- (append_nil_r (csv_escape f)).
      rewrite read_escaped by discriminate. reflexivity.
  - change (join (String sep "") (map csv_escape (f :: g :: fields)))
      with (csv_escape f +:+ String sep (join (String sep "") (map csv_escape (g :: fields)))).
    destruct (IH g (row ++ [f]) rest) as [IHn IHe].
    rewrite <- (app_assoc row [f] (g :: fields)) in IHn, IHe. cbn [app] in IHn, IHe.
    split.
    + rewrite append_assoc.
      change (String sep (join (String sep "") (map csv_escape (g :: fields)))
              +:+ String newline rest)
        with (String sep (join (String sep "") (map csv_escape (g :: fields))
                          +:+ String newline rest)).
      rewrite read_escaped by (intros d r [= <- _]; auto).
      cbn [read_rows]. rewrite Ascii.eqb_refl. exact IHn.
    + rewrite read_escaped by (intros d r [= <- _]; auto).
      cbn [read_rows]. rewrite Ascii.eqb_refl. exact IHe.
Qed.

Lemma read_text (rows : list (list string)) :
  rows <> [] ->
  Forall (fun r => r <> []) rows ->
  parse_csv (join (String newline "")
               (map (fun r => join (String sep "") (map csv_escape r)) rows))
  = rows.
Proof.
  unfold parse_csv.
  induction rows as [|r rows IH]; intros Hne Hall; [congruence|].
  inversion Hall as [|? ? Hr Hrows]; subst.
  destruct r as [|f fields]; [congruence|].
  destruct rows as [|r' rows'].
  - cbn [map join]. apply (read_line fields f [] "").
  - change (join (String newline "")
              (map (fun r => join (String sep "") (map csv_escape r))
                   ((f :: fields) :: r' :: rows')))
      with (join (String sep "") (map csv_escape (f :: fields))
            +:+ String newline
                  (join (String newline "")
                     (map (fun r => join (String sep "") (map csv_escape r))
                          (r' :: rows')))).
    rewrite (proj1 (read_line fields f [] _)). cbn [app].
    rewrite IH by (assumption || discriminate). reflexivity.
Qed.

Lemma csv_text_texts (rows : list (list (value num))) :
  csv_text rows
  = join (String newline "")
      (map (fun r => join (String sep "") (map csv_escape r))
           (map (map field_text) rows)).
Proof.
  unfold csv_text, csv_line. rewrite map_map. f_equal.
  apply map_ext. intros r. rewrite map_map. reflexivity.
Qed.

Lemma csv_text_read (rows : list (list (value num))) :
  rows <> [] -> Forall (fun r => r <> []) rows ->
  parse_csv (csv_text rows) = map (map field_text) rows.
Proof.
  intros Hne Hall. rewrite csv_text_texts. apply read_text.
  - destruct rows; [congruence|discriminate].
  - apply List.Forall_forall. intros t Hin.
    apply in_map_iff in Hin as (r0 & <- & Hr0).
    rewrite List.Forall_forall in Hall. specialize (Hall r0 Hr0).
    destruct r0; [congruence|discriminate].
Qed.





(** C10. CSV quoting round-trip.  The exporter wraps a field in double
    quotes, with every inner double quote doubled, exactly when the text of
    the field holds a double quote, the separator or a newline, and writes
    it as it is otherwise; hence reading a line back, by splitting on the
    separator outside quotes and collapsing doubled quotes, gives exactly
    the texts of the fields of its row, and this holds for every line of
    every file the exporter offers. *)
Theorem csv_quoting_roundtrip :
  (forall s : string,
     (csv_escape s = String dquote (double_quotes s +:+ String dquote "")
      <-> In dquote (list_ascii_of_string s) \/ In sep (list_ascii_of_string s)
          \/ In newline (list_ascii_of_string s))
     /\ (csv_escape s = s
         <-> ~ (In dquote (list_ascii_of_string s)
                \/ In sep (list_ascii_of_string s)
                \/ In newline (list_ascii_of_string s))))
  /\ (forall (field : value num) (row : list (value num)),
        csv_line (field :: row)
        = join (String sep "") (map (fun v => csv_escape (field_text v)) (field :: row))
        /\ parse_line (csv_line (field :: row)) = map field_text (field :: row))
  /\ (forall (ls : storage) (cache : history_cache num) (text : string),
        snd (exportHistoryCSV toLocaleString ls cache) = Download text ->
        exists rows : list (list (value num)),
          text = bom +:+ join (String newline "") (map csv_line rows)
          /\ Forall (fun r => parse_line (csv_line r) = map field_text r) rows).
Proof.
  split; [exact csv_escape_cases|]. split.
  - intros field row. split; [reflexivity|].
    apply parse_csv_line. discriminate.
  - intros ls cache text. unfold exportHistoryCSV.
    destruct (negb (__isAdmin ls)); [discriminate|].
    destruct (lastHistorySeries cache) as [[|p ps]|]; try discriminate.
    destruct (lastHistoryMeta cache) as [meta|]; [|discriminate].
    destruct (mapM (history_row toLocaleString meta) (p :: ps)) as [rows|] eqn:Hrows;
      [|discriminate].
    destruct (safeName (meta_sensorName meta)); [|discriminate].
    cbn [snd]. intros [= <-]. exists (header_row :: rows).
    split; [reflexivity|]. constructor.
    + apply parse_csv_line. discriminate.
    + apply mapM_Some in Hrows.
      induction Hrows as [|q r qs rs Hq _ IH]; constructor; [|exact IH].
      apply parse_csv_line. eapply history_row_filled. exact Hq.
Qed.

End CsvExport.

(** * The statements on the sample data *)

Example demo_window :
  tempData (addMeasurements demo_calls demo_sensor) = [2; 3; 5; 6; 7]%Z
  /\ co2Data (addMeasurements demo_calls demo_sensor)
     = [420; 430; 440; 450; 460]%Z
  /\ pm03Data (addMeasurements demo_calls demo_sensor)
     = [102; 103; 105; 106; 107]%Z
  /\ pm1Data (addMeasurements demo_calls demo_sensor) = []
  /\ timeLabels (addMeasurements demo_calls demo_sensor)
     = ["10:02"; "10:03"; "10:04"; "10:05"; "10:06"].
Proof. repeat split; reflexivity. Qed.

Lemma rolling_window_invariant_witness :
  demo_calls <> []
  /\ Forall (fun c => is_object (snd c) = true) demo_calls
  /\ length (tempData (addMeasurements demo_calls demo_sensor)) <= WINDOW_SIZE
  /\ tempData (addMeasurements demo_calls demo_sensor) = [2; 3; 5; 6; 7]%Z
  /\ timeLabels (addMeasurements demo_calls demo_sensor)
     = ["10:02"; "10:03"; "10:04"; "10:05"; "10:06"].
Proof.
  assert (Hne : demo_calls <> []) by discriminate.
  assert (Hobj : Forall (fun c => is_object (snd c) = true) demo_calls)
    by (repeat constructor).
  destruct (rolling_window_invariant demo_sensor demo_calls Hne Hobj)
    as (Hseries & _ & Hlabels).
  destruct (Hseries TempSeries) as [Hlen Htemp].
  split; [exact Hne|]. split; [exact Hobj|]. split; [exact Hlen|].
  split; [exact Htemp|exact Hlabels].
Defined.

Example demo_frame :
  addMeasurement "10:00" (VStr "note") demo_sensor = demo_sensor
  /\ humidity (addMeasurement "10:00" (demo_payload 1 400) demo_sensor) = VNull
  /\ pm03 (addMeasurement "10:00" (demo_payload 1 400) demo_sensor) = VNum 101%Z
  /\ pm1 (addMeasurement "10:00" (demo_payload 1 400) demo_sensor) = VStr "n/a"
  /\ pm1Data (addMeasurement "10:00" (demo_payload 1 400) demo_sensor) = [].
Proof. repeat split; reflexivity. Qed.

Lemma addMeasurement_frame_witness :
  is_object (VStr "note" : value Z) = false
  /\ addMeasurement "10:00" (VStr "note") demo_sensor = demo_sensor
  /\ is_object (demo_payload 1 400) = true
  /\ timeLabels (addMeasurement "10:00" (demo_payload 1 400) demo_sensor)
     = ["10:00"]
  /\ scalar_value Humidity (addMeasurement "10:00" (demo_payload 1 400) demo_sensor)
     = scalar_value Humidity demo_sensor
  /\ lastRaw (addMeasurement "10:00" (demo_payload 1 400) demo_sensor)
     = demo_payload 1 400.
Proof.
  destruct (addMeasurement_frame "10:00" (VStr "note") demo_sensor)
    as [Hnoop _].
  destruct (addMeasurement_frame "10:00" (demo_payload 1 400) demo_sensor)
    as [_ Hobj].
  destruct (Hobj eq_refl) as (_ & Hlabels & Hscalars & Hraw & _).
  split; [reflexivity|]. split; [exact (Hnoop eq_refl)|].
  split; [reflexivity|]. split; [exact Hlabels|].
  split; [exact (proj1 (Hscalars Humidity) eq_refl)|exact Hraw].
Defined.

Example demo_admin :
  __isAdmin admin_storage = true
  /\ __isAdmin guest_storage = false
  /\ __isAdmin Blocked = false.
Proof. repeat split; vm_compute; reflexivity. Qed.

Lemma isAdmin_true_iff_witness :
  __isAdmin admin_storage = true /\ __isAdmin Blocked = false.
Proof.
  split.
  - apply (proj1 (isAdmin_true_iff admin_storage)).
    eexists _, _, "Admin". split; [reflexivity|].
    split; [vm_compute; reflexivity|]. split; vm_compute; reflexivity.
  - apply (proj2 (isAdmin_true_iff Blocked)).
    intros (room & items & role & Hls & _). discriminate Hls.
Defined.

Example demo_mappers :
  map mapMetricToApi ["humidity"; "pm1"; "pm25"; "pm3"; "pm03"; "Temp"; "PM25"; ""]
  = ["hum"; "pm1_0"; "pm2_5"; "pm0_3"; "pm0_3"; "temp"; "pm2_5"; ""].
Proof. reflexivity. Qed.

(** The key ['PM25'] is none of the five listed keys, yet it is not
    mapped to its lowercased form ['pm25']. *)
Lemma history_metric_counterexample :
  ~ (forall key : string,
       ~ In key ["humidity"; "pm1"; "pm25"; "pm3"; "pm03"] ->
       mapMetricToApi key = toLowerCase key).
Proof.
  intros Hall. specialize (Hall "PM25").
  assert (Hout : ~ In "PM25" ["humidity"; "pm1"; "pm25"; "pm3"; "pm03"]).
  { cbn [In]. intros [Heq|[Heq|[Heq|[Heq|[Heq|[]]]]]]; discriminate Heq. }
  specialize (Hall Hout). vm_compute in Hall. discriminate Hall.
Qed.

Example demo_request :
  loadHistory_request "https://air.example/api" (Some demo_form) [demo_sensor]
  = Some "https://air.example/api/sensor/history/month/dev-1?metric=pm2_5".
Proof. reflexivity. Qed.

Lemma history_range_routing_witness :
  loadHistory_request "https://air.example/api" (Some demo_form) [demo_sensor]
  = Some "https://air.example/api/sensor/history/month/dev-1?metric=pm2_5"
  /\ exists r m : string,
       "https://air.example/api/sensor/history/month/dev-1?metric=pm2_5"
       = "https://air.example/api" +:+ "/sensor/history/" +:+ r +:+ "/"
         +:+ encodeURIComponent "dev-1" +:+ "?metric=" +:+ encodeURIComponent m
       /\ r = "month" /\ m = mapMetricToApi "PM25".
Proof.
  assert (Hreq : loadHistory_request "https://air.example/api" (Some demo_form)
                   [demo_sensor]
                 = Some "https://air.example/api/sensor/history/month/dev-1?metric=pm2_5")
    by reflexivity.
  split; [exact Hreq|].
  destruct (history_range_routing "https://air.example/api" demo_form
              [demo_sensor]
              "https://air.example/api/sensor/history/month/dev-1?metric=pm2_5"
              Hreq)
    as (idx & s & r & m & Hsel & Hurl & Hin & _ & Hm & _).
  injection Hsel as <- <-.
  exists r, m. split; [exact Hurl|]. split; [|exact Hm].
  apply Hin. cbn. auto.
Defined.

Example demo_partition :
  map deviceId (sensors (settled
    (fetchDevices (Reply true (Some (device_list mixed_devices))) true empty_page)))
  = [VStr "a"; VStr "c"]
  /\ map off_deviceId (offlineSensors (settled
       (fetchDevices (Reply true (Some (device_list mixed_devices))) true empty_page)))
     = [VStr "b"].
Proof. split; reflexivity. Qed.

Lemma device_partition_witness :
  truthy (member (device_list mixed_devices) "success") = true
  /\ member (device_list mixed_devices) "data" = VArr mixed_devices
  /\ Forall (fun dev => nullish dev = false) mixed_devices
  /\ exists page' : Page Z,
       fetchDevices (Reply true (Some (device_list mixed_devices))) true empty_page
       = Fulfilled page'
       /\ length (sensors page') <= SENSOR_COUNT
       /\ shown_offline (demo_device "b" (VNum 0%Z)) page'.
Proof.
  assert (Hall : Forall (fun dev : value Z => nullish dev = false) mixed_devices)
    by (repeat constructor).
  destruct (device_partition (device_list mixed_devices) mixed_devices true
              empty_page eq_refl eq_refl Hall)
    as (page' & Hrun & _ & _ & Hlen & _ & _ & _ & Hoff & _).
  split; [reflexivity|]. split; [reflexivity|]. split; [exact Hall|].
  exists page'. split; [exact Hrun|]. split; [exact Hlen|].
  apply Hoff; [|reflexivity|reflexivity].
  right. left. reflexivity.
Defined.

(** Six online devices with ids: the sixth is past the limit of
    [SENSOR_COUNT] and is shown neither among the sensors nor among the
    offline entries. *)
Lemma device_partition_counterexample :
  ~ (forall dev : value Z,
       In dev six_online ->
       truthy (device_id dev) = true ->
       shown_online dev
         (settled (fetchDevices (Reply true (Some (device_list six_online)))
                     true empty_page))
       \/ shown_offline dev
            (settled (fetchDevices (Reply true (Some (device_list six_online)))
                        true empty_page))).
Proof.
  intros Hall.
  destruct (Hall (demo_device "f" (VBool true))) as [Hon|Hoff].
  - cbn. auto 10.
  - reflexivity.
  - destruct Hon as (s & Hin & Hid). vm_compute in Hin, Hid.
    repeat (destruct Hin as [<- | Hin]; [discriminate Hid|]). exact Hin.
  - destruct Hoff as (o & Hin & _). vm_compute in Hin. exact Hin.
Qed.

Example demo_login :
  store (submit login_input login_reply login_start)
  = Items no_limit (<["userRole" := "Gast"]> (<["username" := "eva"]>
      (<["userEmail" := "eva@example.org"]> (<["isLoggedIn" := "true"]> ∅))))
  /\ store (submit login_input (Reply false (Some (VObj []))) login_start)
     = guest_storage
  /\ store (submit login_input Failed login_start) = guest_storage
  /\ submit login_input login_reply tight_start
     = {| mode := mode tight_start;
          store := Items (limit 55) (<["username" := "eva"]>
            (<["userEmail" := "eva@example.org"]> (<["isLoggedIn" := "true"]> ∅)));
          effects := [Alert (VStr "Fehler beim Login. Bitte Server prüfen.")] |}.
Proof. repeat split; vm_compute; reflexivity. Qed.



Lemma failures_contained_witness :
  request_failed (Reply false (Some (device_list six_online))) = true
  /\ (exists page' : Page Z,
        fetchDevices (Reply false (Some (device_list six_online))) true empty_page
        = Fulfilled page')
  /\ sensors (settled (fetchDevices (Reply false (Some (device_list six_online)))
                         true empty_page))
     = sensors empty_page
  /\ offlineSensors (settled (fetchDevices (Reply true (Some (VObj [("data", VArr six_online)])))
                                true empty_page))
     = offlineSensors empty_page.
Proof.
  destruct (failures_contained (num := Z)) as (Hdev & _ & _ & _ & Hsame).
  split; [reflexivity|]. split; [apply Hdev|]. split.
  - apply Hsame. left. reflexivity.
  - apply Hsame. right. eexists. split; reflexivity.
Defined.

Example demo_escape :
  csv_escape "21.5" = "21.5"
  /\ csv_escape "Raum 1; EG"
     = String dquote ("Raum 1; EG" +:+ String dquote "")
  /\ csv_escape (String dquote "A" +:+ String dquote " Labor")
     = String dquote (String dquote (String dquote "A")
         +:+ String dquote (String dquote " Labor") +:+ String dquote "")
  /\ parse_line (csv_line [VStr "Raum 1; EG"; VNull; VNum 7%Z;
                           VStr (String dquote "A" +:+ String dquote " Labor")])
     = ["Raum 1; EG"; ""; "7"; String dquote "A" +:+ String dquote " Labor"].
Proof. repeat split; reflexivity. Qed.

Example demo_export :
  exportHistoryCSV demo_clock admin_storage demo_cache
  = (demo_cache,
     Download (bom +:+ join (String newline "")
       ["Zeitstempel (ISO);Zeit (Lokal Wien);Wert;Anzahl;Messgröße;Einheit;Sensor;Raum;Device ID;Zeitraum";
        "2025-01-01T10:00:00Z;01.01.2025, 11:00:00;21;4;PM25;;Labor;101;dev-1;month";
        "2025-01-01T11:00:00Z;01.01.2025, 12:00:00;;;PM25;;Labor;101;dev-1;month"]))
  /\ exportHistoryCSV demo_clock guest_storage demo_cache
     = (demo_cache, NoFile "Nur Administratoren dürfen exportieren.").
Proof. split; vm_compute; reflexivity. Qed.



Lemma csv_quoting_roundtrip_witness :
  parse_line (csv_line [VStr "Raum 1; EG"; VNull; VNum 7%Z])
  = ["Raum 1; EG"; ""; "7"]
  /\ exists (text : string) (rows : list (list (value Z))),
       snd (exportHistoryCSV demo_clock admin_storage demo_cache) = Download text
       /\ text = bom +:+ join (String newline "") (map csv_line rows)
       /\ Forall (fun r => parse_line (csv_line r) = map field_text r) rows.
Proof.
  destruct (csv_quoting_roundtrip demo_clock) as (_ & Hline & Hfile).
  split; [exact (proj2 (Hline (VStr "Raum 1; EG") [VNull; VNum 7%Z]))|].
  assert (Hrun : exists text : string,
             snd (exportHistoryCSV demo_clock admin_storage demo_cache)
             = Download text) by (eexists; vm_compute; reflexivity).
  destruct Hrun as [text Hrun].
  destruct (Hfile admin_storage demo_cache text Hrun) as (rows & Htext & Hrows).
  exists text, rows. split; [exact Hrun|]. split; [exact Htext|exact Hrows].
Defined.

(** * Properties of the rest of the dashboard *)

Section PageProps.

Context {num : Type} `{JSNumber num} {js_string : JSString}.

Lemma last_n_length_min {A : Type} (n : nat) (l : list A) :
  length (last_n n l) = Nat.min n (length l).
Proof. unfold last_n. rewrite length_drop. lia. Qed.

Lemma sample_length (k : series) (raw : value num) : length (sample k raw) <= 1.
Proof. unfold sample. destruct (first_number raw (series_keys k)); cbn; lia. Qed.

Lemma addMeasurement_identity (label : string) (raw : value num) (s : Sensor num) :
  id (addMeasurement label raw s) = id s
  /\ deviceId (addMeasurement label raw s) = deviceId s
  /\ deviceName (addMeasurement label raw s) = deviceName s
  /\ classroomNumber (addMeasurement label raw s) = classroomNumber s
  /\ status (addMeasurement label raw s) = status s.
Proof.
  unfold addMeasurement.
  destruct (negb (truthy raw) || negb (typeof_object raw)); repeat split; reflexivity.
Qed.

Lemma addMeasurement_window (label : string) (raw : value num) (s : Sensor num) :
  window_ok s -> window_ok (addMeasurement label raw s).
Proof.
  intros [Hlab Hser]. destruct (is_object raw) eqn:Hobj.
  - split.
    + rewrite addMeasurement_labels by assumption. apply trim_length.
    + intros k. rewrite addMeasurement_series, addMeasurement_labels by assumption.
      rewrite !trim_last_n, !last_n_length_min, !length_app. cbn [length].
      pose proof (sample_length k raw). specialize (Hser k). lia.
  - rewrite addMeasurement_noop by assumption. split; assumption.
Qed.

Lemma addMeasurement_sensor_ok (label : string) (raw : value num) (s : Sensor num) :
  sensor_ok s -> sensor_ok (addMeasurement label raw s).
Proof.
  intros (Hid & Hname & Hst & Hwin). unfold sensor_ok.
  destruct (addMeasurement_identity label raw s) as (_ & -> & -> & _ & ->).
  split; [assumption|]. split; [assumption|]. split; [assumption|].
  apply addMeasurement_window. assumption.
Qed.

Lemma poll_sensors_pointwise (reply : nat -> response num) (clock : nat -> string)
    (todo : list (Sensor num)) :
  forall i : nat, Forall2 polled_from todo (fst (poll_sensors reply clock i todo)).
Proof.
  assert (Hrefl : forall l : list (Sensor num), Forall2 polled_from l l).
  { induction l; constructor; [left; reflexivity|assumption]. }
  induction todo as [|s rest IH]; intros i; [constructor|].
  cbn [poll_sensors].
  destruct (negb (truthy (deviceId s))).
  - cbn [fst]. constructor; [left; reflexivity|apply IH].
  - destruct (reply i) as [|[|] [payload|]]; cbn [fst]; try apply Hrefl.
    constructor; [|apply IH].
    match goal with |- polled_from _ (if ?b then _ else _) => destruct b end;
      [left; reflexivity|right; eauto].
Qed.

Lemma polled_from_identity (s s' : Sensor num) :
  polled_from s s' ->
  id s' = id s /\ deviceId s' = deviceId s /\ deviceName s' = deviceName s
  /\ classroomNumber s' = classroomNumber s /\ status s' = status s.
Proof.
  intros [-> | (label & raw & ->)]; [repeat split; reflexivity|].
  apply addMeasurement_identity.
Qed.

Lemma polled_from_ok (s s' : Sensor num) :
  polled_from s s' -> sensor_ok s -> sensor_ok s'.
Proof.
  intros [-> | (label & raw & ->)]; [tauto|]. apply addMeasurement_sensor_ok.
Qed.

Lemma fetchLatestMeasurements_sensors (reply : nat -> response num)
    (clock : nat -> string) (render_ok : bool) (page : Page num) :
  sensors (settled (fetchLatestMeasurements reply clock render_ok page))
  = fst (poll_sensors reply clock 0 (sensors page))
  /\ offlineSensors (settled (fetchLatestMeasurements reply clock render_ok page))
     = offlineSensors page
  /\ activeSensorIndex (settled (fetchLatestMeasurements reply clock render_ok page))
     = activeSensorIndex page.
Proof.
  unfold fetchLatestMeasurements, fetchLatestMeasurements_try.
  rewrite settle_try_log. cbn [settled].
  destruct (snd (poll_sensors reply clock 0 (sensors page))); repeat split; reflexivity.
Qed.

(** X1. A round of polls never adds, drops or reorders sensors and never
    touches what identifies them: the number of sensors, and the id,
    device id, name, room and status of the sensor at every position, are
    the same before and after, as are the offline entries and the active
    index; all a poll can change is the measurements of a sensor. *)
Theorem poll_keeps_sensors (reply : nat -> response num) (clock : nat -> string)
    (render_ok : bool) (page : Page num) :
  length (sensors (settled (fetchLatestMeasurements reply clock render_ok page)))
  = length (sensors page)
  /\ (forall (j : nat) (s' : Sensor num),
        sensors (settled (fetchLatestMeasurements reply clock render_ok page)) !! j
        = Some s' ->
        exists s : Sensor num,
          sensors page !! j = Some s
          /\ id s' = id s /\ deviceId s' = deviceId s
          /\ deviceName s' = deviceName s
          /\ classroomNumber s' = classroomNumber s /\ status s' = status s)
  /\ offlineSensors (settled (fetchLatestMeasurements reply clock render_ok page))
     = offlineSensors page
  /\ activeSensorIndex (settled (fetchLatestMeasurements reply clock render_ok page))
     = activeSensorIndex page.
Proof.
  destruct (fetchLatestMeasurements_sensors reply clock render_ok page)
    as (-> & Hoff & Hact).
  pose proof (poll_sensors_pointwise reply clock (sensors page) 0) as Hall.
  split; [symmetry; eapply Forall2_length; exact Hall|].
  split; [|split; assumption].
  intros j s' Hj.
  destruct (Forall2_lookup_r _ _ _ _ _ Hall Hj) as (s & Hs & Hrel).
  exists s. split; [exact Hs|]. apply polled_from_identity. exact Hrel.
Qed.

Lemma poll_sensors_stops (reply : nat -> response num) (clock : nat -> string)
    (todo : list (Sensor num)) :
  forall (i k : nat) (s : Sensor num),
  todo !! k = Some s ->
  truthy (deviceId s) = true ->
  request_failed (reply (i + k)) = true ->
  forall j : nat, k <= j ->
  fst (poll_sensors reply clock i todo) !! j = todo !! j.
Proof.
  induction todo as [|s0 rest IH]; intros i k s Hk Hid Hfail j Hle; [discriminate|].
  cbn [poll_sensors]. destruct k as [|k].
  - injection Hk as ->. rewrite Hid. cbn [negb].
    rewrite Nat.add_0_r in Hfail.
    destruct (reply i) as [|[|] [payload|]]; cbn in *; try discriminate; reflexivity.
  - cbn in Hk. replace (i + S k) with (S i + k) in Hfail by lia.
    destruct j as [|j]; [lia|].
    assert (Hrest : fst (poll_sensors reply clock (S i) rest) !! j = rest !! j)
      by (apply (IH (S i) k s); [assumption..|lia]).
    destruct (negb (truthy (deviceId s0))); cbn [fst]; [exact Hrest|].
    destruct (reply i) as [|[|] [payload|]]; cbn [fst]; try reflexivity.
    exact Hrest.
Qed.

(** X2. A failed request ends the round: when the request for the sensor
    at position [k] fails (network, status or body), that sensor and every
    sensor after it keep their measurements for this round, whatever the
    backend would have answered for them. *)
Theorem poll_stops_at_failure (reply : nat -> response num)
    (clock : nat -> string) (render_ok : bool) (page : Page num)
    (k : nat) (s : Sensor num) :
  sensors page !! k = Some s ->
  truthy (deviceId s) = true ->
  request_failed (reply k) = true ->
  forall j : nat, k <= j ->
  sensors (settled (fetchLatestMeasurements reply clock render_ok page)) !! j
  = sensors page !! j.
Proof.
  intros Hk Hid Hfail j Hle.
  destruct (fetchLatestMeasurements_sensors reply clock render_ok page) as (-> & _).
  apply (poll_sensors_stops reply clock (sensors page) 0 k s); assumption.
Qed.

End PageProps.

Section PageInvariant.

Context {num : Type} `{JSNumber num} {js_string : JSString}.

Lemma partition_devices_some (all on off : list (value num)) :
  partition_devices all = Some (on, off) ->
  on = online_devices all /\ off = offline_devices all.
Proof.
  revert on off. unfold online_devices, offline_devices.
  induction all as [|dev rest IH]; intros on off; cbn [partition_devices List.filter].
  - intros [= <- <-]. split; reflexivity.
  - destruct (nullish dev); [discriminate|].
    destruct (partition_devices rest) as [[on' off']|]; [|discriminate].
    destruct (IH on' off' eq_refl) as [-> ->].
    cbn [mbind option_bind fst snd].
    destruct (isOnline (rawStatus dev)); cbn [negb];
      intros [= <- <-]; split; reflexivity.
Qed.

Lemma or_else_truthy (a b : value num) :
  truthy b = true -> truthy (or_else a b) = true.
Proof.
  intros Hb. unfold or_else. destruct (truthy a) eqn:Ha; assumption.
Qed.

Lemma device_name_truthy (dev : value num) (fallback : string) :
  fallback <> "" -> truthy (device_name dev fallback) = true.
Proof.
  intros Hne. unfold device_name. repeat apply or_else_truthy.
  cbn [truthy]. destruct (String.eqb_spec fallback ""); [contradiction|reflexivity].
Qed.

Lemma online_status_kept (st : value num) :
  isOnline st = true -> isOnline (coalesce st (VStr "unknown")) = true.
Proof. destruct st; cbn; congruence. Qed.

Lemma offline_status_kept (st : value num) :
  isOnline st = false -> isOnline (coalesce st (VBool false)) = false.
Proof. destruct st; cbn; congruence. Qed.

Lemma build_sensors_ok (devices : list (value num)) :
  Forall (fun dev => isOnline (rawStatus dev) = true) devices ->
  forall i : nat, Forall sensor_ok (build_sensors i devices).
Proof.
  induction 1 as [|dev rest Hon _ IH]; intros i; [constructor|].
  cbn [build_sensors].
  destruct (truthy (device_id dev)) eqn:Hid; cbn [negb]; [|apply IH].
  constructor; [|apply IH].
  split; [exact Hid|]. split; [apply device_name_truthy; discriminate|].
  split; [apply online_status_kept; exact Hon|].
  split; [cbn; unfold WINDOW_SIZE; lia|]. intros k. destruct k; cbn; lia.
Qed.

Lemma offline_entries_ok (devices : list (value num)) :
  Forall (fun dev => isOnline (rawStatus dev) = false) devices ->
  forall j : nat,
  Forall offline_ok
    (filter (fun d => truthy (off_deviceId d) = true) (offline_entries j devices)).
Proof.
  induction 1 as [|dev rest Hoff _ IH]; intros j; [constructor|].
  cbn [offline_entries]. rewrite filter_cons. cbn [off_deviceId].
  destruct (decide (truthy (device_id dev) = true)) as [Hid|_]; [|apply IH].
  constructor; [|apply IH].
  split; [exact Hid|]. split; [apply device_name_truthy; discriminate|].
  apply offline_status_kept. exact Hoff.
Qed.

Lemma take_online (all : list (value num)) (n : nat) :
  Forall (fun dev => isOnline (rawStatus dev) = true) (take n (online_devices all)).
Proof.
  apply List.Forall_forall. intros dev Hin. apply In_take in Hin.
  unfold online_devices in Hin. apply filter_In in Hin as [_ Hon]. exact Hon.
Qed.

Lemma offline_devices_off (all : list (value num)) :
  Forall (fun dev => isOnline (rawStatus dev) = false) (offline_devices all).
Proof.
  apply List.Forall_forall. intros dev Hin.
  unfold offline_devices in Hin. apply filter_In in Hin as [_ Hoff].
  apply negb_true_iff. exact Hoff.
Qed.

(** What [fetchDevices] can leave behind: the page as it was, or a page
    rebuilt from the devices of an accepted list. *)
Lemma fetchDevices_shape (res : response num) (render_ok : bool) (page : Page num) :
  settled (fetchDevices res render_ok page) = page
  \/ exists all : list (value num),
       sensors (settled (fetchDevices res render_ok page))
       = build_sensors 0 (take SENSOR_COUNT (online_devices all))
       /\ offlineSensors (settled (fetchDevices res render_ok page))
          = filter (fun d => truthy (off_deviceId d) = true)
                   (offline_entries 0 (offline_devices all))
       /\ activeSensorIndex (settled (fetchDevices res render_ok page))
          = (if (Z.of_nat (length (build_sensors 0
                   (take SENSOR_COUNT (online_devices all))))
                 <=? activeSensorIndex page)%Z
             then (if (0 <? length (build_sensors 0
                         (take SENSOR_COUNT (online_devices all))))%nat
                   then 0 else -1)%Z
             else activeSensorIndex page).
Proof.
  unfold fetchDevices. rewrite settle_try_log. cbn [settled].
  unfold fetchDevices_try.
  destruct res as [|[|] [json|]]; try (left; reflexivity).
  destruct (read json "success") as [success|]; [|left; reflexivity].
  destruct (negb (truthy success) || negb (isArray (member json "data")));
    [left; reflexivity|].
  destruct (or_else (member json "data") (VArr [])) as [| | | | |all|];
    try (left; reflexivity).
  destruct (partition_devices all) as [[on off]|] eqn:Hpart; [|left; reflexivity].
  destruct (partition_devices_some all on off Hpart) as [-> ->].
  right. exists all. cbn [fst sensors offlineSensors activeSensorIndex].
  split; [reflexivity|]. split; reflexivity.
Qed.

Lemma fetchDevices_page_ok (res : response num) (render_ok : bool) (page : Page num) :
  page_ok page -> page_ok (settled (fetchDevices res render_ok page)).
Proof.
  intros Hok.
  destruct (fetchDevices_shape res render_ok page)
    as [-> | (all & Hs & Ho & Ha)]; [exact Hok|].
  destruct Hok as (_ & _ & _ & Hlow & _).
  unfold page_ok. rewrite Hs, Ho, Ha.
  split.
  { etransitivity; [apply build_sensors_length|]. rewrite length_take. lia. }
  split; [apply build_sensors_ok, take_online|].
  split; [apply offline_entries_ok, offline_devices_off|].
  set (n := length (build_sensors 0 (take SENSOR_COUNT (online_devices all)))).
  destruct (Z.leb_spec (Z.of_nat n) (activeSensorIndex page));
    destruct (Nat.ltb_spec 0 n); lia.
Qed.

Lemma activate_page_ok (idx : Z) (page : Page num) :
  page_ok page -> page_ok (fst (activateSensorByIndex idx page)).
Proof.
  intros Hok. unfold activateSensorByIndex.
  destruct (Z.ltb_spec idx 0); cbn [orb fst]; [exact Hok|].
  destruct (Z.leb_spec (Z.of_nat (length (sensors page))) idx); cbn [fst];
    [exact Hok|].
  destruct Hok as (Hlen & Hsens & Hoff & _).
  unfold page_ok. cbn [sensors offlineSensors activeSensorIndex].
  repeat split; try assumption; lia.
Qed.

Lemma poll_page_ok (reply : nat -> response num) (clock : nat -> string)
    (render_ok : bool) (page : Page num) :
  page_ok page ->
  page_ok (settled (fetchLatestMeasurements reply clock render_ok page)).
Proof.
  intros (Hlen & Hsens & Hoff & Hlow & Hup).
  destruct (fetchLatestMeasurements_sensors reply clock render_ok page)
    as (Hs & Ho & Ha).
  pose proof (poll_sensors_pointwise reply clock (sensors page) 0) as Hall.
  unfold page_ok. rewrite Hs, Ho, Ha.
  rewrite <- (Forall2_length _ _ _ Hall).
  repeat split; try assumption.
  clear Hs Hlen Hup. induction Hall as [|s s' l l' Hrel _ IH]; [constructor|].
  inversion Hsens; subst. constructor; [|apply IH; assumption].
  eapply polled_from_ok; eassumption.
Qed.

Lemma page_step_ok (page : Page num) (ev : page_event) :
  page_ok page -> page_ok (page_step page ev).
Proof.
  destruct ev; cbn [page_step];
    [apply fetchDevices_page_ok|apply poll_page_ok|apply activate_page_ok].
Qed.

Lemma initial_page_ok : page_ok (initial_page (num := num)).
Proof.
  unfold page_ok, initial_page, SENSOR_COUNT. cbn.
  repeat split; try constructor; lia.
Qed.

Lemma run_page_ok (events : list page_event) :
  forall page : Page num, page_ok page -> page_ok (run_page events page).
Proof.
  unfold run_page.
  induction events as [|ev events IH]; intros page Hok; [exact Hok|].
  cbn [fold_left]. apply IH, page_step_ok, Hok.
Qed.

(** X3. The shape of the page is kept by everything that can happen to it.
    After any run of device lists, poll rounds and activations, started
    from the empty page, there are at most [SENSOR_COUNT] sensors; every
    sensor has a truthy device id and name, a status that counts as
    online, at most [WINDOW_SIZE] time labels and no series longer than
    its time labels; every offline entry has a truthy device id and name
    and a status that does not count as online; and the active index is
    at least [-1] and, unless it is [0] or [-1], below the number of
    sensors. *)
Theorem page_shape_kept (events : list page_event) :
  length (sensors (run_page events (initial_page (num := num)))) <= SENSOR_COUNT
  /\ (forall s : Sensor num,
        In s (sensors (run_page events (initial_page (num := num)))) ->
        truthy (deviceId s) = true
        /\ truthy (deviceName s) = true
        /\ isOnline (status s) = true
        /\ length (timeLabels s) <= WINDOW_SIZE
        /\ forall k : series, length (series_data k s) <= length (timeLabels s))
  /\ (forall o : OfflineSensor num,
        In o (offlineSensors (run_page events (initial_page (num := num)))) ->
        truthy (off_deviceId o) = true
        /\ truthy (off_name o) = true
        /\ isOnline (off_status o) = false)
  /\ (-1 <= activeSensorIndex (run_page events (initial_page (num := num))))%Z
  /\ ((activeSensorIndex (run_page events (initial_page (num := num)))
       < Z.of_nat (length (sensors (run_page events (initial_page (num := num))))))%Z
      \/ (activeSensorIndex (run_page events (initial_page (num := num))) <= 0)%Z).
Proof.
  destruct (run_page_ok events _ initial_page_ok)
    as (Hlen & Hsens & Hoff & Hlow & Hup).
  rewrite List.Forall_forall in Hsens, Hoff.
  split; [exact Hlen|]. split; [|split; [|split; assumption]].
  - intros s Hin. destruct (Hsens s Hin) as (Hid & Hname & Hst & Hlab & Hser).
    auto.
  - intros o Hin. apply (Hoff o Hin).
Qed.

(** X4. The active sensor after a device list.  On an accepted list
    without [null] entries: an index that was [-1] stays [-1], so no
    sensor is active even when the new list has sensors; from an index
    that was not negative, a sensor is active exactly when the new list
    has one, and the index is [-1] when it has none. *)
Theorem active_after_devices (json : value num) (all : list (value num))
    (render_ok : bool) (page : Page num) :
  truthy (member json "success") = true ->
  member json "data" = VArr all ->
  Forall (fun dev => nullish dev = false) all ->
  (activeSensorIndex page = (-1)%Z ->
   activeSensorIndex
     (settled (fetchDevices (Reply true (Some json)) render_ok page)) = (-1)%Z
   /\ getActive (settled (fetchDevices (Reply true (Some json)) render_ok page))
      = None)
  /\ ((0 <= activeSensorIndex page)%Z ->
      sensors (settled (fetchDevices (Reply true (Some json)) render_ok page)) = [] ->
      activeSensorIndex
        (settled (fetchDevices (Reply true (Some json)) render_ok page)) = (-1)%Z)
  /\ ((0 <= activeSensorIndex page)%Z ->
      sensors (settled (fetchDevices (Reply true (Some json)) render_ok page)) <> [] ->
      is_Some (getActive
        (settled (fetchDevices (Reply true (Some json)) render_ok page)))).
Proof.
  intros Hsucc Hdata Hall.
  destruct (fetchDevices_accepted json all render_ok page Hsucc Hdata Hall)
    as (page' & Hrun & Hsens & _).
  assert (Hact : activeSensorIndex page'
                 = (if (Z.of_nat (length (sensors page')) <=? activeSensorIndex page)%Z
                    then (if (0 <? length (sensors page'))%nat then 0 else -1)%Z
                    else activeSensorIndex page)).
  { revert Hrun. unfold fetchDevices, try_log, settle, fetchDevices_try.
    assert (Hread : read json "success" = Some (member json "success")).
    { unfold read. destruct json; try discriminate Hdata; reflexivity. }
    rewrite Hread, Hsucc, Hdata. cbn [isArray negb orb or_else truthy].
    rewrite (partition_devices_filter all Hall). cbn [fst].
    intros [= <-]. reflexivity. }
  rewrite Hrun. cbn [settled]. unfold getActive. rewrite Hact.
  split; [|split].
  - intros ->. destruct (Z.leb_spec (Z.of_nat (length (sensors page'))) (-1));
      [lia|]. split; reflexivity.
  - intros Hpos ->. cbn [length]. change (Z.of_nat 0) with 0%Z.
    destruct (Z.leb_spec 0 (activeSensorIndex page)); [reflexivity|lia].
  - intros Hpos Hne.
    assert (0 < length (sensors page')) by (destruct (sensors page'); cbn; [congruence|lia]).
    destruct (Z.leb_spec (Z.of_nat (length (sensors page'))) (activeSensorIndex page)).
    + destruct (Nat.ltb_spec 0 (length (sensors page'))); [|lia].
      cbn. apply lookup_lt_is_Some. assumption.
    + destruct (Z.ltb_spec (activeSensorIndex page) 0); [lia|].
      apply lookup_lt_is_Some. lia.
Qed.

End PageInvariant.

Section SearchProps.

Context {num : Type} `{JSNumber num} {js_string : JSString}.
Variable trim : string -> string.

Lemma findIndex_found (p : Sensor num -> option bool) (l : list (Sensor num)) :
  forall (i : nat) (r : Z),
  findIndex p i l = Some r ->
  (r = (-1)%Z /\ Forall (fun s => p s = Some false) l)
  \/ exists (k : nat) (s : Sensor num),
       r = Z.of_nat (i + k) /\ l !! k = Some s /\ p s = Some true
       /\ forall (j : nat) (s' : Sensor num),
            j < k -> l !! j = Some s' -> p s' = Some false.
Proof.
  induction l as [|s0 rest IH]; intros i r; cbn [findIndex].
  - intros [= <-]. left. split; [reflexivity|constructor].
  - destruct (p s0) as [[|]|] eqn:Hp; [| |discriminate].
    + intros [= <-]. right. exists 0, s0.
      rewrite Nat.add_0_r. repeat split; try assumption. intros j s' Hj. lia.
    + intros Hrest. destruct (IH (S i) r Hrest) as [[-> Hall]|(k & s & -> & Hk & Hs & Hbefore)].
      * left. split; [reflexivity|constructor; assumption].
      * right. exists (S k), s. split; [f_equal; lia|].
        split; [exact Hk|]. split; [exact Hs|].
        intros [|j] s' Hj Hlook.
        -- injection Hlook as <-. exact Hp.
        -- apply (Hbefore j s'); [lia|exact Hlook].
Qed.

Lemma prefix_includes_text (needle text : string) :
  String.prefix needle text = true -> includes_text needle text = true.
Proof.
  intros Hp. destruct text; cbn [includes_text]; rewrite Hp; reflexivity.
Qed.

Lemma starts_is_hit (needle : string) (s : Sensor num) :
  sensor_matches String.prefix needle s = Some true ->
  sensor_matches includes_text needle s = Some true.
Proof.
  unfold sensor_matches.
  destruct (lower_text (deviceName s)) as [name|]; cbn [mbind option_bind];
    [|discriminate].
  destruct (String.prefix needle name) eqn:Hname.
  - rewrite (prefix_includes_text _ _ Hname). reflexivity.
  - destruct (lower_text (classroomNumber s)) as [room|]; cbn [mbind option_bind];
      [|discriminate].
    intros [= Hroom]. rewrite (prefix_includes_text _ _ Hroom).
    destruct (includes_text needle name); reflexivity.
Qed.

(** The short form of the answer: [-1], or a position whose sensor has
    the needle. *)
Lemma search_finds_aux (q : string) (sensors : list (Sensor num)) (idx : Z) :
  findSensorIndexByQuery trim q sensors = Some idx ->
  idx = (-1)%Z
  \/ exists (k : nat) (s : Sensor num),
       idx = Z.of_nat k /\ sensors !! k = Some s
       /\ sensor_matches includes_text (toLowerCase (trim q)) s = Some true.
Proof.
  unfold findSensorIndexByQuery.
  destruct (String.eqb q ""); [intros [= <-]; auto|].
  destruct (String.eqb (toLowerCase (trim q)) ""); [intros [= <-]; auto|].
  destruct (findIndex (sensor_matches String.prefix (toLowerCase (trim q))) 0 sensors)
    as [first|] eqn:Hfirst; cbn [mbind option_bind]; [|discriminate].
  destruct (findIndex_found _ _ _ _ Hfirst)
    as [[-> _]|(k & s & -> & Hk & Hs & _)].
  - cbn [Z.eqb negb]. intros Hsecond.
    destruct (findIndex_found _ _ _ _ Hsecond)
      as [[-> _]|(k & s & -> & Hk & Hs & _)]; [auto|].
    right. exists k, s. auto.
  - destruct (Z.eqb_spec (Z.of_nat (0 + k)) (-1)); [lia|]. cbn [negb].
    intros [= <-]. right. exists k, s. split; [reflexivity|].
    split; [exact Hk|]. apply starts_is_hit. exact Hs.
Qed.

(** X5. What the search finds.  When [findSensorIndexByQuery] answers
    without throwing, the answer is [-1] or a position of the list.  It is
    [-1] only for an empty query, a query that is empty once trimmed, or
    when no sensor has the lowercased needle in its lowercased name or
    room.  Otherwise the sensor at the answer has the needle in its name
    or room; it is the first sensor whose name or room starts with the
    needle if there is one, and the first that contains it if none starts
    with it. *)
Theorem search_finds (q : string) (sensors : list (Sensor num)) (idx : Z) :
  findSensorIndexByQuery trim q sensors = Some idx ->
  (idx = (-1)%Z
   /\ (q = "" \/ toLowerCase (trim q) = ""
       \/ Forall (fun s => sensor_matches includes_text (toLowerCase (trim q)) s
                           = Some false) sensors))
  \/ exists (k : nat) (s : Sensor num),
       idx = Z.of_nat k /\ sensors !! k = Some s
       /\ toLowerCase (trim q) <> ""
       /\ sensor_matches includes_text (toLowerCase (trim q)) s = Some true
       /\ ((sensor_matches String.prefix (toLowerCase (trim q)) s = Some true
            /\ forall (j : nat) (s' : Sensor num),
                 j < k -> sensors !! j = Some s' ->
                 sensor_matches String.prefix (toLowerCase (trim q)) s' = Some false)
           \/ (Forall (fun s' => sensor_matches String.prefix (toLowerCase (trim q)) s'
                                 = Some false) sensors
               /\ forall (j : nat) (s' : Sensor num),
                    j < k -> sensors !! j = Some s' ->
                    sensor_matches includes_text (toLowerCase (trim q)) s'
                    = Some false)).
Proof.
  unfold findSensorIndexByQuery.
  destruct (String.eqb_spec q "") as [-> | Hq].
  { intros [= <-]. left. auto. }
  destruct (String.eqb_spec (toLowerCase (trim q)) "") as [Hn | Hn].
  { intros [= <-]. left. auto. }
  destruct (findIndex (sensor_matches String.prefix (toLowerCase (trim q))) 0 sensors)
    as [first|] eqn:Hfirst; cbn [mbind option_bind]; [|discriminate].
  destruct (findIndex_found _ _ _ _ Hfirst)
    as [[-> Hnone]|(k & s & -> & Hk & Hs & Hbefore)].
  - cbn [Z.eqb negb]. intros Hsecond.
    destruct (findIndex_found _ _ _ _ Hsecond)
      as [[-> Hnone2]|(k & s & -> & Hk & Hs & Hbefore)].
    + left. auto.
    + right. exists k, s. repeat split; try assumption. right. split; assumption.
  - destruct (Z.eqb_spec (Z.of_nat (0 + k)) (-1)); [lia|]. cbn [negb].
    intros [= <-]. right. exists k, s. repeat split; try assumption.
    + apply starts_is_hit. exact Hs.
    + left. split; assumption.
Qed.

(** X6. Enter in the search box.  When the search answers a position, the
    Enter key makes that position the active index, so that the active
    sensor is the sensor the search found, which has the needle in its
    name or room; the sensors and the offline entries stay as they were.
    When the search answers [-1] the page is left as it is. *)
Theorem search_enter_activates (q : string) (page page' : Page num) :
  search_enter trim q page = Some page' ->
  exists idx : Z,
    findSensorIndexByQuery trim q (sensors page) = Some idx
    /\ ((idx = (-1)%Z /\ page' = page)
        \/ exists (k : nat) (s : Sensor num),
             idx = Z.of_nat k
             /\ sensors page !! k = Some s
             /\ activeSensorIndex page' = idx
             /\ getActive page' = Some s
             /\ sensor_matches includes_text (toLowerCase (trim q)) s = Some true
             /\ sensors page' = sensors page
             /\ offlineSensors page' = offlineSensors page).
Proof.
  unfold search_enter.
  destruct (findSensorIndexByQuery trim q (sensors page)) as [idx|] eqn:Hfind;
    cbn [mbind option_bind]; [|discriminate].
  intros Hrun. exists idx. split; [reflexivity|]. revert Hrun.
  destruct (search_finds_aux q (sensors page) idx Hfind)
    as [-> | (k & s & -> & Hk & Hhit)].
  - cbn [Z.eqb negb]. intros [= <-]. left. auto.
  - destruct (Z.eqb_spec (Z.of_nat k) (-1)); [lia|]. cbn [negb].
    intros [= <-]. right. exists k, s.
    pose proof (lookup_lt_Some _ _ _ Hk) as Hlt.
    unfold activateSensorByIndex.
    destruct (Z.ltb_spec (Z.of_nat k) 0); [lia|].
    destruct (Z.leb_spec (Z.of_nat (length (sensors page))) (Z.of_nat k)); [lia|].
    cbn [orb fst]. unfold getActive. cbn [activeSensorIndex sensors offlineSensors].
    destruct (Z.ltb_spec (Z.of_nat k) 0); [lia|].
    rewrite Nat2Z.id. repeat split; assumption.
Qed.

End SearchProps.

Section LabelProps.

Context {num : Type} `{JSNumber num} {js_string : JSString}.



End LabelProps.

Section RequestProps.

Context {num : Type} `{JSNumber num} {js_string : JSString}.

Lemma hex_digits_unreserved (c : ascii) :
  unreserved (hex_digit (nat_of_ascii c / 16)) = true
  /\ unreserved (hex_digit (nat_of_ascii c mod 16)) = true.
Proof.
  destruct c as [[|] [|] [|] [|] [|] [|] [|] [|]]; split; vm_compute; reflexivity.
Qed.

Lemma encodeURIComponent_alphabet (s : string) (c : ascii) :
  In c (list_ascii_of_string (encodeURIComponent s)) ->
  unreserved c = true \/ c = "%"%char.
Proof.
  induction s as [|d s IH]; cbn [encodeURIComponent list_ascii_of_string In];
    [tauto|].
  destruct (unreserved d) eqn:Hd; cbn [list_ascii_of_string In].
  - intros [<- | Hin]; auto.
  - destruct (hex_digits_unreserved d) as [Hhi Hlo].
    intros [<- | [<- | [<- | Hin]]]; auto.
Qed.

Lemma encodeURIComponent_length (s : string) :
  String.length s <= String.length (encodeURIComponent s).
Proof.
  induction s as [|d s IH]; [reflexivity|]. cbn [encodeURIComponent].
  destruct (unreserved d); cbn [String.length]; lia.
Qed.

(** X8. What [encodeURIComponent] lets through.  Every unit of the encoded
    text is a letter, a digit, one of [- _ . ! ~ * ' ( )] or a percent
    sign, so an encoded device id or metric never holds a slash, a
    question mark, an ampersand, an equals sign, a hash or a blank; and a
    text is sent as it is exactly when all of its units are letters,
    digits or one of those nine marks. *)
Theorem encodeURIComponent_safe (s : string) :
  (forall c : ascii,
     In c (list_ascii_of_string (encodeURIComponent s)) ->
     unreserved c = true \/ c = "%"%char)
  /\ Forall (fun c => includes (encodeURIComponent s) c = false)
       ["/"; "?"; "&"; "="; "#"; " "]%char
  /\ (encodeURIComponent s = s
      <-> Forall (fun c => unreserved c = true) (list_ascii_of_string s)).
Proof.
  split; [apply encodeURIComponent_alphabet|]. split.
  - assert (Hno : forall c, unreserved c = false -> c <> "%"%char ->
                    includes (encodeURIComponent s) c = false).
    { intros c Hc Hp. destruct (includes (encodeURIComponent s) c) eqn:Hin;
        [|reflexivity].
      apply includes_In, encodeURIComponent_alphabet in Hin as [Hun | ->];
        congruence. }
    repeat constructor; apply Hno; (reflexivity || discriminate).
  - induction s as [|d s IH]; cbn [encodeURIComponent list_ascii_of_string].
    + split; [constructor|reflexivity].
    + destruct (unreserved d) eqn:Hd.
      * split.
        -- intros [= Heq]. constructor; [exact Hd|]. apply IH. exact Heq.
        -- intros Hall. inversion Hall; subst. f_equal. apply IH. assumption.
      * split.
        -- intros Heq. apply (f_equal String.length) in Heq.
           cbn [String.length] in Heq.
           pose proof (encodeURIComponent_length s). lia.
        -- intros Hall. inversion Hall; subst. congruence.
Qed.

Lemma mappers_same (metric : string) :
  cmpMapMetricToApi metric = mapMetricToApi metric.
Proof.
  unfold cmpMapMetricToApi, mapMetricToApi.
  generalize (toLowerCase (str_or metric "")). intros m.
  destruct (String.eqb_spec m "humidity") as [-> | _]; [reflexivity|].
  destruct (String.eqb_spec m "pm25") as [-> | _]; [reflexivity|].
  destruct (String.eqb_spec m "pm03") as [-> | _]; [reflexivity|].
  destruct (String.eqb_spec m "pm3") as [-> | _]; [reflexivity|].
  destruct (String.eqb_spec m "pm1") as [-> | _]; reflexivity.
Qed.

Lemma basePath_day (range : string) :
  ~ In range ["week"; "month"; "year"] -> basePath (str_or range "day") = "day".
Proof.
  cbn [In]. intros Hout. unfold str_or.
  destruct (String.eqb_spec range ""); [reflexivity|].
  unfold basePath.
  destruct (String.eqb_spec range "week"); [listed Hout|].
  destruct (String.eqb_spec range "month"); [listed Hout|].
  destruct (String.eqb_spec range "year"); [listed Hout|reflexivity].
Qed.

Lemma series_of_body_data (body : value num) (points : list (value num)) :
  series_of_body body = Some points ->
  match member body "data" with
  | VArr items => items = points
  | _ => points = []
  end.
Proof.
  unfold series_of_body, or_else.
  destruct (member body "data"); cbn [truthy];
    repeat match goal with
           | |- context [if ?b then _ else _] => destruct b
           end;
    intros Hx; try discriminate Hx; try injection Hx as <-; reflexivity.
Qed.

(** X9. The comparison view and the history view read the same data.  For
    the sensor selected in the history panel and any range that is not
    ['week'], ['month'] or ['year'], [cmpFetchDay] fetches the very URL
    [loadHistory] fetches; and when [loadHistory], started on an empty
    cache, caches a series from an exchange, [cmpFetchDay] returns the same
    points from it. *)
Theorem comparison_day_agrees (baseUrl : string) (f : history_form)
    (sensors : list (Sensor num)) (net : string -> response num)
    (chart_ok : bool) (idx : nat) (s : Sensor num) (points : list (value num)) :
  selected_sensor f sensors = Some (idx, s) ->
  ~ In (historyRange f) ["week"; "month"; "year"] ->
  lastHistorySeries
    (loadHistory baseUrl (Some f) sensors net chart_ok
       {| lastHistorySeries := None; lastHistoryMeta := None |}) = Some points ->
  loadHistory_request baseUrl (Some f) sensors
  = Some (cmp_url baseUrl "day" s (str_or (historyMetric f) "temp"))
  /\ cmpFetchDay baseUrl s (str_or (historyMetric f) "temp") net = points.
Proof.
  intros Hsel Hrange.
  assert (Hurl : history_url baseUrl (str_or (historyRange f) "day") (deviceId s)
                   (mapMetricToApi (str_or (historyMetric f) "temp"))
                 = cmp_url baseUrl "day" s (str_or (historyMetric f) "temp")).
  { unfold history_url, cmp_url. rewrite (basePath_day _ Hrange), mappers_same.
    reflexivity. }
  unfold loadHistory, loadHistory_request, cmpFetchDay, cmp_fetch.
  cbn [mbind option_bind]. rewrite Hsel. cbn [mbind option_bind snd].
  rewrite Hurl. intros Hload. split; [reflexivity|].
  destruct (net (cmp_url baseUrl "day" s (str_or (historyMetric f) "temp")))
    as [|ok [body|]]; try discriminate Hload.
  destruct (read body "success") as [success|]; [|discriminate Hload].
  destruct (negb ok || is_false success); [discriminate Hload|].
  destruct (series_of_body body) as [cachedPoints|] eqn:Hbody;
    [|discriminate Hload].
  destruct chart_ok; [|discriminate Hload].
  cbn in Hload. injection Hload as <-.
  apply series_of_body_data in Hbody.
  destruct (member body "data"); subst; reflexivity.
Qed.

End RequestProps.

Section CacheProps.

Context {num : Type} `{JSNumber num} {js_string : JSString}.

Lemma last_n_short {A : Type} (n : nat) (l : list A) :
  length l <= n -> last_n n l = l.
Proof.
  intros Hle. unfold last_n. replace (length l - n) with 0 by lia. reflexivity.
Qed.

(** Closes the goal with series [k] as the witness. *)
Ltac charted k := exists k; split; [discriminate|reflexivity].

Lemma getSeriesForMetric_cases (s : Sensor num) (metric : string) :
  getSeriesForMetric s metric = []
  \/ exists k : series,
       k <> AqiSeries /\ getSeriesForMetric s metric = series_data k s.
Proof.
  unfold getSeriesForMetric.
  repeat match goal with
         | |- context [String.eqb metric ?m] => destruct (String.eqb metric m)
         end;
    first [ left; reflexivity
          | right;
            first [ charted TempSeries | charted Co2Series
                  | charted HumiditySeries | charted Pm25Series
                  | charted Pm10Series | charted Pm03Series | charted Pm1Series
                  | charted TvocSeries | charted CoSeries | charted HchoSeries ] ].
Qed.

(** X10. The series behind a comparison chart.  For every sensor of a page
    reached from the empty page and every metric name, the series
    [getSeriesForMetric] returns is empty or one of the sensor's series
    other than [aqiData], it already fits the window, so that taking its
    last [WINDOW_SIZE] entries changes nothing; and for each entry of
    [chartDefs] it is the series the live chart of that entry draws. *)
Theorem comparison_series (events : list page_event) (s : Sensor num)
    (metric : string) :
  In s (sensors (run_page events (initial_page (num := num)))) ->
  last_n WINDOW_SIZE (getSeriesForMetric s metric) = getSeriesForMetric s metric
  /\ (getSeriesForMetric s metric = []
      \/ exists k : series,
           k <> AqiSeries /\ getSeriesForMetric s metric = series_data k s)
  /\ Forall (fun def => getSeriesForMetric s (chart_metric def)
                        = series_data (chart_key def) s) chartDefs.
Proof.
  intros Hin.
  pose proof (run_page_ok events _ (initial_page_ok (num := num))) as Hok.
  destruct Hok as (_ & Hsens & _). rewrite List.Forall_forall in Hsens.
  destruct (Hsens s Hin) as (_ & _ & _ & Hlab & Hser).
  split; [|split; [apply getSeriesForMetric_cases|repeat constructor]].
  apply last_n_short.
  destruct (getSeriesForMetric_cases s metric) as [-> | (k & _ & ->)].
  - cbn. lia.
  - specialize (Hser k). lia.
Qed.

Lemma str_or_filled (a b : string) : b <> "" -> str_or a b <> "".
Proof.
  intros Hb. unfold str_or. destruct (String.eqb_spec a ""); congruence.
Qed.

(** [loadHistory] keeps the cache or replaces both of its members. *)
Lemma loadHistory_outcome (baseUrl : string) (form : option history_form)
    (sensors : list (Sensor num)) (net : string -> response num)
    (chart_ok : bool) (cache : history_cache num) :
  loadHistory baseUrl form sensors net chart_ok cache = cache
  \/ exists (f : history_form) (idx : nat) (s : Sensor num) (body : value num)
            (points : list (value num)),
       form = Some f
       /\ selected_sensor f sensors = Some (idx, s)
       /\ loadHistory_request baseUrl form sensors
          = Some (history_url baseUrl (str_or (historyRange f) "day") (deviceId s)
                    (mapMetricToApi (str_or (historyMetric f) "temp")))
       /\ net (history_url baseUrl (str_or (historyRange f) "day") (deviceId s)
                 (mapMetricToApi (str_or (historyMetric f) "temp")))
          = Reply true (Some body)
       /\ series_of_body body = Some points
       /\ loadHistory baseUrl form sensors net chart_ok cache
          = {| lastHistorySeries := Some points;
               lastHistoryMeta := Some
                 {| meta_deviceId := deviceId s;
                    meta_sensorName :=
                      or_else (deviceName s)
                        (VStr ("Sensor " +:+ pretty (idx + 1)%nat));
                    meta_room := or_else (classroomNumber s) (VStr "");
                    meta_metric := str_or (historyMetric f) "temp";
                    meta_range := str_or (historyRange f) "day";
                    meta_unit := metric_unit (str_or (historyMetric f) "temp") |}
            |}.
Proof.
  unfold loadHistory, loadHistory_request.
  destruct form as [f|]; [|left; reflexivity]. cbn [mbind option_bind].
  destruct (selected_sensor f sensors) as [[idx s]|] eqn:Hsel; [|left; reflexivity].
  cbn [mbind option_bind snd].
  destruct (net _) as [|ok [body|]] eqn:Hnet; try (left; reflexivity).
  destruct (read body "success") as [success|]; [|left; reflexivity].
  destruct ok; cbn [negb orb]; [|left; reflexivity].
  destruct (is_false success); [left; reflexivity|].
  destruct (series_of_body body) as [points|] eqn:Hbody; [|left; reflexivity].
  destruct chart_ok; [|left; reflexivity].
  right. exists f, idx, s, body, points. rewrite str_or_empty.
  repeat split; try reflexivity; assumption.
Qed.

Lemma selected_sensor_id (f : history_form) (sensors : list (Sensor num))
    (idx : nat) (s : Sensor num) :
  selected_sensor f sensors = Some (idx, s) ->
  sensors !! idx = Some s /\ truthy (deviceId s) = true.
Proof.
  unfold selected_sensor.
  destruct (historySensor f) as [z|]; cbn [mbind option_bind]; [|discriminate].
  destruct (z <? 0)%Z; [discriminate|].
  destruct (sensors !! Z.to_nat z) as [s0|] eqn:Hs; cbn [mbind option_bind];
    [|discriminate].
  destruct (truthy (deviceId s0)) eqn:Hid; [|discriminate].
  intros [= <- <-]. split; assumption.
Qed.

(** X11. A load is all or nothing.  [loadHistory] either leaves the cache
    exactly as it was, so that an earlier series stays there to be
    exported, or replaces the series and the meta record together, with
    the points of an ok answer to its own request and with the device id,
    name and room of the selected sensor, the selected metric (['temp']
    for an empty selector) with its unit, and the selected range (['day']
    for an empty selector) as it was selected, also when the request went
    to the day endpoint because the range was none of the four known. *)
Theorem load_all_or_nothing (baseUrl : string) (f : history_form)
    (sensors : list (Sensor num)) (net : string -> response num)
    (chart_ok : bool) (cache : history_cache num) :
  loadHistory baseUrl (Some f) sensors net chart_ok cache = cache
  \/ exists (idx : nat) (s : Sensor num) (url : string) (body : value num)
            (points : list (value num)) (meta : history_meta num),
       sensors !! idx = Some s
       /\ loadHistory_request baseUrl (Some f) sensors = Some url
       /\ net url = Reply true (Some body)
       /\ series_of_body body = Some points
       /\ lastHistorySeries (loadHistory baseUrl (Some f) sensors net chart_ok cache)
          = Some points
       /\ lastHistoryMeta (loadHistory baseUrl (Some f) sensors net chart_ok cache)
          = Some meta
       /\ meta_deviceId meta = deviceId s
       /\ meta_sensorName meta
          = or_else (deviceName s) (VStr ("Sensor " +:+ pretty (idx + 1)%nat))
       /\ meta_room meta = or_else (classroomNumber s) (VStr "")
       /\ meta_metric meta = str_or (historyMetric f) "temp"
       /\ meta_range meta = str_or (historyRange f) "day"
       /\ meta_unit meta = metric_unit (str_or (historyMetric f) "temp").
Proof.
  destruct (loadHistory_outcome baseUrl (Some f) sensors net chart_ok cache)
    as [Hsame | (f' & idx & s & body & points & [= <-] & Hsel & Hreq & Hnet & Hbody & Hnew)];
    [left; exact Hsame|].
  right. destruct (selected_sensor_id f sensors idx s Hsel) as [Hs _].
  eexists idx, s, _, body, points, _.
  split; [exact Hs|]. split; [exact Hreq|]. split; [exact Hnet|].
  split; [exact Hbody|]. rewrite Hnew. cbn.
  repeat split; reflexivity.
Qed.

(** X12. Series and meta record go together.  In every cache
    [loadHistory] can leave, from the empty cache on, the series and the
    meta record are both absent or both present; a cached series holds no
    [null] point; and a cached meta record has a truthy device id and
    sensor name, a non-empty metric and range, and the unit of its
    metric. *)
Theorem history_cache_paired (cache : history_cache num) :
  cached cache ->
  (lastHistorySeries cache = None <-> lastHistoryMeta cache = None)
  /\ (forall series : list (value num),
        lastHistorySeries cache = Some series ->
        Forall (fun p => nullish p = false) series)
  /\ (forall meta : history_meta num,
        lastHistoryMeta cache = Some meta ->
        truthy (meta_deviceId meta) = true
        /\ truthy (meta_sensorName meta) = true
        /\ meta_metric meta <> ""
        /\ meta_range meta <> ""
        /\ meta_unit meta = metric_unit (meta_metric meta)).
Proof.
  induction 1 as [|baseUrl form sensors net chart_ok cache Hc IH].
  - cbn. split; [tauto|]. split; intros ? [=].
  - destruct (loadHistory_outcome baseUrl form sensors net chart_ok cache)
      as [-> | (f & idx & s & body & points & _ & Hsel & _ & _ & Hbody & ->)];
      [exact IH|].
    destruct (selected_sensor_id f sensors idx s Hsel) as [_ Hid].
    cbn. split; [split; discriminate|]. split.
    + intros series [= <-]. eapply series_of_body_points. exact Hbody.
    + intros meta [= <-]. cbn.
      split; [exact Hid|]. split.
      { apply or_else_truthy. reflexivity. }
      split; [apply str_or_filled; discriminate|].
      split; [apply str_or_filled; discriminate|reflexivity].
Qed.

End CacheProps.

Section DownloadProps.

Context {num : Type} `{JSNumber num} {js_string : JSString}.
Variable toLocaleString : value num -> string.

Lemma replace_runs_chars (s : string) :
  forall (in_run : bool) (c : ascii),
  In c (list_ascii_of_string (replace_runs in_run s)) -> name_char c = true.
Proof.
  induction s as [|d s IH]; intros in_run c; cbn [replace_runs list_ascii_of_string In];
    [tauto|].
  destruct (name_char d) eqn:Hd.
  - cbn [list_ascii_of_string In]. intros [<- | Hin]; [exact Hd|eauto].
  - destruct in_run; [eauto|].
    cbn [list_ascii_of_string In]. intros [<- | Hin]; [reflexivity|eauto].
Qed.

Lemma replace_runs_kept (s : string) :
  Forall (fun c => name_char c = true) (list_ascii_of_string s) ->
  forall in_run : bool, replace_runs in_run s = s.
Proof.
  induction s as [|d s IH]; intros Hall in_run; [reflexivity|].
  cbn [list_ascii_of_string] in Hall. inversion Hall as [|? ? Hd Hrest]; subst.
  cbn [replace_runs]. rewrite Hd. f_equal. apply IH. exact Hrest.
Qed.

Lemma replace_runs_length (s : string) :
  forall in_run : bool,
  String.length (replace_runs in_run s) <= String.length s.
Proof.
  induction s as [|d s IH]; intros in_run; [reflexivity|].
  cbn [replace_runs]. destruct (name_char d); [|destruct in_run];
    cbn [String.length];
    first [ specialize (IH false); lia | specialize (IH true); lia ].
Qed.

(** X13. The sensor part of the file name.  Whatever the sensor is called,
    the part of the file name made from its name holds letters, digits,
    underscores and hyphens only, is no longer than the name, is the name
    itself when the name holds nothing else, and is left as it is by a
    second pass. *)
Theorem safe_name_chars (s : string) :
  Forall (fun c => name_char c = true)
    (list_ascii_of_string (replace_runs false s))
  /\ String.length (replace_runs false s) <= String.length s
  /\ (Forall (fun c => name_char c = true) (list_ascii_of_string s) ->
      replace_runs false s = s)
  /\ replace_runs false (replace_runs false s) = replace_runs false s.
Proof.
  assert (Hchars : Forall (fun c => name_char c = true)
                     (list_ascii_of_string (replace_runs false s))).
  { apply List.Forall_forall. intros c. apply replace_runs_chars. }
  split; [exact Hchars|]. split; [apply replace_runs_length|].
  split; [intros Hall; apply replace_runs_kept; exact Hall|].
  apply replace_runs_kept. exact Hchars.
Qed.


End DownloadProps.

Section FileProps.

Context {num : Type} `{JSNumber num} {js_string : JSString}.
Variable toLocaleString : value num -> string.

(** X15. The exported file reads back row by row.  A reader that ends rows
    at newlines outside quotes, ends fields at separators outside quotes
    and collapses doubled quotes gets back, from the text of any
    non-empty list of non-empty rows, exactly the texts of the fields,
    row by row, whatever the fields hold, newlines included; and from
    every file the exporter offers, after the byte order mark, it gets
    the ten header names followed by one row of ten texts per cached
    point. *)
Theorem csv_file_round_trip :
  (forall (r : list (value num)) (rows : list (list (value num))),
     Forall (fun r' => r' <> []) (r :: rows) ->
     parse_csv (csv_text (r :: rows)) = map (map field_text) (r :: rows))
  /\ (forall (ls : storage) (cache : history_cache num) (text : string),
        snd (exportHistoryCSV toLocaleString ls cache) = Download text ->
        exists (series : list (value num)) (body : string)
               (records : list (list string)),
          lastHistorySeries cache = Some series
          /\ text = bom +:+ body
          /\ parse_csv body = map field_text header_row :: records
          /\ length records = length series
          /\ Forall (fun rec => length rec = 10) records).
Proof.
  pose proof csv_text_read as Hround.
  split.
  - intros r rows Hall. apply Hround; [discriminate|exact Hall].
  - intros ls cache text. unfold exportHistoryCSV.
    destruct (negb (__isAdmin ls)); [discriminate|].
    destruct (lastHistorySeries cache) as [[|p ps]|]; try discriminate.
    destruct (lastHistoryMeta cache) as [meta|]; [|discriminate].
    destruct (mapM (history_row toLocaleString meta) (p :: ps)) as [rows|] eqn:Hrows;
      [|discriminate].
    destruct (safeName (meta_sensorName meta)); [|discriminate].
    cbn [snd]. intros [= <-].
    apply mapM_Some in Hrows.
    assert (Hten : Forall (fun r => length r = 10) rows).
    { clear -Hrows. induction Hrows as [|q r qs rs Hq _ IH]; constructor;
        [|exact IH].
      unfold history_row in Hq. destruct (read q "ts"); cbn in Hq; [|discriminate].
      injection Hq as <-. reflexivity. }
    exists (p :: ps), (csv_text (header_row :: rows)), (map (map field_text) rows).
    split; [reflexivity|]. split; [reflexivity|]. split.
    + rewrite Hround; [reflexivity|discriminate|].
      constructor; [discriminate|].
      eapply Forall_impl; [exact Hten|]. intros r Hr ->. discriminate Hr.
    + split.
      * rewrite length_map. symmetry. eapply Forall2_length. exact Hrows.
      * apply List.Forall_forall. intros rec Hin.
        apply in_map_iff in Hin as (r0 & <- & Hr0). rewrite length_map.
        rewrite List.Forall_forall in Hten. apply Hten. exact Hr0.
Qed.

End FileProps.

Section FormProps.

Context {num : Type} `{JSNumber num} {js_string : JSString}.

Lemma isAdmin_items (room : gmap string string -> bool)
    (items : gmap string string) :
  __isAdmin (Items room items) = true <->
  items !! "isLoggedIn" = Some "true"
  /\ exists role : string,
       items !! "userRole" = Some role /\ toLowerCase role = "admin".
Proof.
  unfold __isAdmin, isAdmin_try. cbn.
  destruct (decide (items !! "isLoggedIn" = Some "true")) as [Hin|Hout].
  - rewrite bool_decide_eq_true_2 by assumption. cbn.
    destruct (items !! "userRole") as [role|]; cbn.
    + rewrite str_or_empty.
      destruct (String.eqb_spec (toLowerCase role) "admin") as [Heq|Hne].
      * split; [intros _|reflexivity]. split; [exact Hin|]. eauto.
      * split; [discriminate|]. intros (_ & r & [= <-] & Hadm). contradiction.
    + rewrite (toLowerCase_ascii "") by reflexivity. cbn.
      split; [discriminate|]. intros (_ & r & [=] & _).
  - rewrite bool_decide_eq_false_2 by assumption. cbn.
    split; [discriminate|]. intros [Hin _]. contradiction.
Qed.

(** X16. Logging in and the admin check.  After a granted login that
    ended in the redirect, so that the storage took every write, the
    admin check of the dashboard passes exactly when the backend supplied
    a role whose text, as the storage holds it, has the lowercased form
    ['admin']: whatever role and login flag the storage held before mean
    nothing, and a login without a supplied role never makes an admin.
    The supplied role is any truthy [data.user.role] and its text is
    [String(role)], so that the string ['Admin'] makes an admin and so
    does the array [['Admin']]. *)
Theorem login_then_admin (inp : auth_input) (net : response num)
    (st : auth_state num) (data : value num)
    (room : gmap string string -> bool) (items : gmap string string) :
  login_mode (mode st) = true ->
  email inp <> "" ->
  password inp <> "" ->
  login_granted net = Some data ->
  store st = Items room items ->
  effects (submit inp net st) = effects st ++ [Redirect "index.html"] ->
  (__isAdmin (store (submit inp net st)) = true
   <-> exists role : string,
         supplied_role data = Some role /\ toLowerCase role = "admin")
  /\ (supplied_role data = None -> __isAdmin (store (submit inp net st)) = false)
  /\ (forall role : string,
        member (member data "user") "role" = VArr [VStr role] ->
        role <> "" ->
        (__isAdmin (store (submit inp net st)) = true
         <-> toLowerCase role = "admin")).
Proof.
  intros Hmode Hmail Hpass Hgrant Hstore.
  rewrite (submit_in_login_mode inp net st Hmode Hmail Hpass).
  destruct (login_granted_inv net data Hgrant) as (-> & Hsucc & Hread).
  destruct (submit_login_granted inp data st Hsucc) as [-> ->].
  rewrite Hstore. intros Hdone. apply app_inv_head in Hdone.
  destruct (login_writes_items (email inp) data room items)
    as (items' & -> & _ & _ & Hkeys & _).
  destruct (snd (login_writes (email inp) data (Items room items))) as [e|];
    [discriminate Hdone|].
  destruct (Hkeys eq_refl) as (Hflag & _ & Hrole & _).
  assert (Hiff : __isAdmin (Items room items') = true
                 <-> exists role, supplied_role data = Some role
                                  /\ toLowerCase role = "admin").
  { rewrite isAdmin_items, Hrole. split.
    - intros (_ & r & [= <-] & Hadm).
      destruct (supplied_role data) as [role|]; cbn in *; [eauto|].
      rewrite (toLowerCase_ascii "Gast") in Hadm by reflexivity.
      discriminate Hadm.
    - intros (role & Hsup & Hadm). split; [exact Hflag|].
      exists role. rewrite Hsup. auto. }
  split; [exact Hiff|]. split.
  - intros Hnone. apply not_true_is_false. intros Hadm.
    apply Hiff in Hadm as (role & Hsup & _). congruence.
  - intros role Harr Hrole'. rewrite Hiff.
    assert (Huser : truthy (member data "user") = true).
    { destruct (member data "user"); cbn in Harr; try discriminate Harr;
        reflexivity. }
    assert (Hsup : supplied_role data = Some role).
    { unfold supplied_role. rewrite Huser, Harr. cbn.
      destruct (String.eqb_spec role ""); [contradiction|]. reflexivity. }
    rewrite Hsup. split.
    + intros (r & [= <-] & Hadm). exact Hadm.
    + intros Hadm. eauto.
Qed.

Lemma submit_one_effect (inp : auth_input) (net : response num)
    (st : auth_state num) :
  exists e : effect num, effects (submit inp net st) = effects st ++ [e].
Proof.
  unfold submit, submit_reset1, submit_reset2, submit_register, submit_login.
  repeat match goal with
         | |- context [if ?b then _ else _] => destruct b
         | |- context [match ?r with Failed => _ | Reply _ _ => _ end] =>
             destruct r as [|? [?|]]
         | |- context [match read ?d ?k with _ => _ end] => destruct (read d k)
         | |- context [match login_writes ?m ?d ?s with _ => _ end] =>
             destruct (login_writes m d s) as [? [?|]]
         end; cbn; eauto.
Qed.

(** A submission that is not granted a login ends in an alert. *)
Lemma submit_login_alert (inp : auth_input) (net : response num)
    (st : auth_state num) (e : effect num) :
  login_granted net = None ->
  effects (submit_login inp net st) = effects st ++ [e] ->
  is_alert e = true.
Proof.
  unfold submit_login, login_granted. intros Hgrant.
  destruct net as [|ok [data|]]; cbn;
    try (intros He; apply app_inv_head in He; injection He as <-; reflexivity).
  destruct (read data "success") as [success|] eqn:Hread; cbn;
    try (intros He; apply app_inv_head in He; injection He as <-; reflexivity).
  assert (success = member data "success") as ->.
  { unfold read in Hread. destruct (nullish data); [discriminate|].
    injection Hread as <-. reflexivity. }
  destruct ok; cbn [andb];
    try (intros He; apply app_inv_head in He; injection He as <-; reflexivity).
  destruct (truthy (member data "success")); [discriminate|].
  intros He; apply app_inv_head in He; injection He as <-; reflexivity.
Qed.

Lemma submit_elsewhere_alert (inp : auth_input) (net : response num)
    (st : auth_state num) (e : effect num) :
  login_mode (mode st) = false ->
  effects (submit inp net st) = effects st ++ [e] ->
  is_alert e = true.
Proof.
  unfold submit, submit_reset1, submit_reset2, submit_register, login_mode.
  intros Hmode.
  destruct (isResetPhase1 (mode st)), (isResetPhase2 (mode st)),
    (isLogin (mode st)); try discriminate Hmode;
    repeat match goal with
           | |- context [if ?b then _ else _] => destruct b
           | |- context [match ?r with Failed => _ | Reply _ _ => _ end] =>
               destruct r as [|? [?|]]
           end; cbn;
    intros He; apply app_inv_head in He; injection He as <-; reflexivity.
Qed.

(** The one effect of a submission and when it is the redirect. *)
Lemma submit_effect (inp : auth_input) (net : response num)
    (st : auth_state num) :
  exists e : effect num,
    effects (submit inp net st) = effects st ++ [e]
    /\ (e = Redirect "index.html"
        <-> login_mode (mode st) = true /\ email inp <> "" /\ password inp <> ""
            /\ exists data : value num,
                 login_granted net = Some data
                 /\ snd (login_writes (email inp) data (store st)) = None)
    /\ (is_alert e = true \/ e = Redirect "index.html").
Proof.
  destruct (submit_one_effect inp net st) as [e He]. exists e.
  split; [exact He|].
  assert (Halert : is_alert e = true -> 
            ~ (login_mode (mode st) = true /\ email inp <> "" /\ password inp <> ""
               /\ exists data : value num,
                    login_granted net = Some data
                    /\ snd (login_writes (email inp) data (store st)) = None) ->
            (e = Redirect "index.html"
             <-> login_mode (mode st) = true /\ email inp <> ""
                 /\ password inp <> ""
                 /\ exists data : value num,
                      login_granted net = Some data
                      /\ snd (login_writes (email inp) data (store st)) = None)
            /\ (is_alert e = true \/ e = Redirect "index.html")).
  { intros Ha Hno. split; [|left; exact Ha].
    split; [intros ->; discriminate Ha|]. intros Hyes. contradiction. }
  destruct (login_mode (mode st)) eqn:Hmode.
  - destruct (String.eqb_spec (email inp) "") as [Hmail|Hmail].
    { apply Halert; [|intros (_ & Hm & _); contradiction].
      revert He. unfold submit, login_mode in *.
      destruct (isResetPhase1 (mode st)); [discriminate|].
      destruct (isResetPhase2 (mode st)); [discriminate|].
      destruct (String.eqb_spec (email inp) ""); [|contradiction].
      cbn. intros He. apply app_inv_head in He. injection He as <-. reflexivity. }
    destruct (String.eqb_spec (password inp) "") as [Hpass|Hpass].
    { apply Halert; [|intros (_ & _ & Hp & _); contradiction].
      revert He. unfold submit, login_mode in *.
      destruct (isResetPhase1 (mode st)); [discriminate|].
      destruct (isResetPhase2 (mode st)); [discriminate|].
      destruct (String.eqb_spec (password inp) ""); [|contradiction].
      rewrite orb_true_r. cbn. intros He. apply app_inv_head in He.
      injection He as <-. reflexivity. }
    rewrite (submit_in_login_mode inp net st Hmode Hmail Hpass) in He.
    destruct (login_granted net) as [data|] eqn:Hgrant.
    + destruct (login_granted_inv net data Hgrant) as (-> & Hsucc & _).
      destruct (submit_login_granted inp data st Hsucc) as [_ Heff].
      rewrite Heff in He. apply app_inv_head in He. injection He as <-.
      destruct (snd (login_writes (email inp) data (store st))) as [err|] eqn:Hw.
      * apply Halert; [reflexivity|].
        intros (_ & _ & _ & data' & [= <-] & Hnone). congruence.
      * split; [|right; reflexivity].
        split; [intros _|reflexivity].
        repeat split; try assumption. exists data. auto.
    + apply Halert; [exact (submit_login_alert inp net st e Hgrant He)|].
      intros (_ & _ & _ & data & Hdata & _). discriminate Hdata.
  - apply Halert; [exact (submit_elsewhere_alert inp net st e Hmode He)|].
    intros (Hm & _). discriminate Hm.
Qed.


Lemma submit_denied_store (inp : auth_input) (net : response num)
    (st : auth_state num) :
  login_granted net = None -> store (submit inp net st) = store st.
Proof.
  intros Hquiet.
  destruct (login_mode (mode st)) eqn:Hmode; [|apply submit_elsewhere; exact Hmode].
  unfold submit, login_mode in *.
  destruct (isResetPhase1 (mode st)); [discriminate|].
  destruct (isResetPhase2 (mode st)); [discriminate|].
  destruct (isLogin (mode st)); [|discriminate].
  destruct (_ || _); [reflexivity|].
  apply submit_login_denied. exact Hquiet.
Qed.

Lemma form_step_quiet (st : auth_state num) (ev : form_event num) :
  (forall inp net, ev = Submitted inp net -> login_granted net = None) ->
  store (form_step st ev) = store st
  /\ exists more : list (effect num),
       effects (form_step st ev) = effects st ++ more
       /\ forallb is_alert more = true.
Proof.
  intros Hquiet. destruct ev as [inp net| | |]; cbn [form_step].
  - specialize (Hquiet inp net eq_refl).
    split; [apply submit_denied_store; exact Hquiet|].
    destruct (submit_effect inp net st) as (e & He & Hredirect & Hkind).
    exists [e]. split; [exact He|]. cbn. rewrite andb_true_r.
    destruct Hkind as [Halert | ->]; [exact Halert|].
    exfalso. destruct (proj1 Hredirect eq_refl) as (_ & _ & _ & data & Hgrant & _).
    congruence.
  - split; [reflexivity|]. exists []. rewrite app_nil_r. split; reflexivity.
  - split; [reflexivity|]. exists []. rewrite app_nil_r. split; reflexivity.
  - split; [reflexivity|]. exists []. rewrite app_nil_r. split; reflexivity.
Qed.

(** X18. Nothing happens without a granted login.  Whatever the user does
    with the form, in whatever order (submissions in any mode, switching
    between login and registration, starting and cancelling a password
    reset), as long as no submission receives an ok response with a truthy
    [success] the storage stays exactly as it was and the page is never
    left: every effect is an alert. *)
Theorem form_quiet (events : list (form_event num)) (st : auth_state num) :
  (forall inp net, In (Submitted inp net) events -> login_granted net = None) ->
  store (form_run events st) = store st
  /\ exists more : list (effect num),
       effects (form_run events st) = effects st ++ more
       /\ forallb is_alert more = true.
Proof.
  unfold form_run. revert st.
  induction events as [|ev events IH]; intros st Hquiet.
  - split; [reflexivity|]. exists []. rewrite app_nil_r. split; reflexivity.
  - cbn [fold_left].
    destruct (form_step_quiet st ev) as (Hstore & more1 & Heff1 & Hal1).
    { intros inp net ->. apply (Hquiet inp net). left. reflexivity. }
    destruct (IH (form_step st (ev))) as (Hstore2 & more2 & Heff2 & Hal2).
    { intros inp net Hin. apply (Hquiet inp net). right. exact Hin. }
    split; [congruence|].
    exists (more1 ++ more2). rewrite Heff2, Heff1, <- app_assoc.
    split; [reflexivity|]. rewrite forallb_app, Hal1, Hal2. reflexivity.
Qed.

End FormProps.

Section FreshProps.

Context {num : Type} `{JSNumber num} {js_string : JSString}.

Lemma build_sensors_fresh (devices : list (value num)) :
  forall (i : nat) (s : Sensor num),
  In s (build_sensors i devices) ->
  timeLabels s = []
  /\ (forall k : series, series_data k s = [])
  /\ (forall q : scalar, scalar_value q s = VNull)
  /\ lastRaw s = VNull.
Proof.
  induction devices as [|dev rest IH]; intros i s; cbn [build_sensors];
    [intros []|].
  destruct (negb (truthy (device_id dev))); [apply IH|].
  intros [<- | Hin]; [|eapply IH; exact Hin].
  split; [reflexivity|]. split; [intros k; destruct k; reflexivity|].
  split; [intros q; destruct q; reflexivity|reflexivity].
Qed.

(** X19. A device list starts the sensors afresh.  An accepted device list
    without [null] entries builds the sensors and the offline entries from
    the list alone: the result is the same whatever page it arrives on,
    and every sensor comes out with empty time labels, empty series and
    no last values, so the measurements shown before, also those of a
    device that is still listed, are gone. *)
Theorem devices_start_afresh (json : value num) (all : list (value num))
    (render1 render2 : bool) (page1 page2 : Page num) :
  truthy (member json "success") = true ->
  member json "data" = VArr all ->
  Forall (fun dev => nullish dev = false) all ->
  sensors (settled (fetchDevices (Reply true (Some json)) render1 page1))
  = sensors (settled (fetchDevices (Reply true (Some json)) render2 page2))
  /\ offlineSensors (settled (fetchDevices (Reply true (Some json)) render1 page1))
     = offlineSensors (settled (fetchDevices (Reply true (Some json)) render2 page2))
  /\ forall s : Sensor num,
       In s (sensors (settled (fetchDevices (Reply true (Some json)) render1 page1))) ->
       timeLabels s = []
       /\ (forall k : series, series_data k s = [])
       /\ (forall q : scalar, scalar_value q s = VNull)
       /\ lastRaw s = VNull.
Proof.
  intros Hsucc Hdata Hall.
  destruct (fetchDevices_accepted json all render1 page1 Hsucc Hdata Hall)
    as (p1 & -> & Hs1 & Ho1).
  destruct (fetchDevices_accepted json all render2 page2 Hsucc Hdata Hall)
    as (p2 & -> & Hs2 & Ho2).
  cbn [settled]. split; [congruence|]. split; [congruence|].
  intros s Hin. rewrite Hs1 in Hin. eapply build_sensors_fresh. exact Hin.
Qed.

(** X20. The time stamp of the file name.  The stamp made from the ISO
    time of the click holds no colon, no [T] and no dot: colons and [T]
    are written as hyphens and the text is cut at its first dot; it is
    never longer than the ISO time. *)
Theorem stamp_chars (iso : string) :
  Forall (fun c => c <> ":"%char /\ c <> "T"%char /\ c <> "."%char)
    (list_ascii_of_string (stamp iso))
  /\ String.length (stamp iso) <= String.length iso
  /\ (includes iso "." = false -> String.length (stamp iso) = String.length iso).
Proof.
  induction iso as [|c iso (IHc & IHl & IHe)]; [repeat split; constructor|].
  cbn [stamp includes].
  destruct (Ascii.eqb_spec c ".") as [-> | Hdot]; cbn [orb].
  - split; [constructor|]. split; [cbn; lia|discriminate].
  - destruct (Ascii.eqb_spec c ":") as [-> | Hcolon]; cbn [orb].
    + split; [constructor; [repeat split; discriminate|exact IHc]|].
      split; [cbn; lia|]. intros Hno. cbn. f_equal. apply IHe. exact Hno.
    + destruct (Ascii.eqb_spec c "T") as [-> | Ht].
      * split; [constructor; [repeat split; discriminate|exact IHc]|].
        split; [cbn; lia|]. intros Hno. cbn. f_equal. apply IHe. exact Hno.
      * split; [constructor; [repeat split; assumption|exact IHc]|].
        split; [cbn; lia|]. intros Hno. cbn. f_equal. apply IHe. exact Hno.
Qed.

End FreshProps.

(** * The rest of the dashboard on the sample data *)

Example school_day :
  map deviceName (sensors school_page)
  = [VStr "Kollab"; VStr "Labor Nord"; VStr "Werkstatt"]
  /\ map off_name (offlineSensors school_page) = [VStr "Keller"]
  /\ map tempData (sensors (settled
       (fetchLatestMeasurements broken_round (fun _ => "10:00") true school_page)))
     = [[21%Z]; []; []]
  /\ map (tab_label 0) (sensors school_page)
     = ["Kollab - Raum 7"; "Labor Nord"; "Werkstatt - Lab 2"]
  /\ tempData busy_sensor = [22; 23; 24; 25; 26]%Z
  /\ comparison_label "now" 1 busy_sensor = "Labor Nord um 10:06".
Proof. repeat split; vm_compute; reflexivity. Qed.

Example school_search :
  findSensorIndexByQuery trim_blanks "  lab " (sensors school_page) = Some 1%Z
  /\ findSensorIndexByQuery trim_blanks "stat" (sensors school_page) = Some 2%Z
  /\ findSensorIndexByQuery trim_blanks "raum" (sensors school_page) = Some 0%Z
  /\ findSensorIndexByQuery trim_blanks "xyz" (sensors school_page) = Some (-1)%Z
  /\ findSensorIndexByQuery trim_blanks "   " (sensors school_page) = Some (-1)%Z
  /\ findSensorIndexByQuery trim_blanks "12" [numbered_sensor] = None.
Proof. repeat split; reflexivity. Qed.

Example school_names :
  replace_runs false "Labor Nord (EG) #1" = "Labor_Nord_EG_1"
  /\ stamp "2025-01-02T03:04:05.678Z" = "2025-01-02-03-04-05"
  /\ encodeURIComponent "dev 1/a?b=c&d" = "dev%201%2Fa%3Fb%3Dc%26d"
  /\ snd (exportHistoryCSV_file demo_clock "2025-01-02T03:04:05.678Z"
            admin_storage numbered_cache) = Thrown.
Proof. repeat split; vm_compute; reflexivity. Qed.

Example school_file :
  parse_csv (csv_text [[VStr "a;b"; VNull];
                       [VStr (String "x" (String newline "y")); VNum 3%Z]])
  = [["a;b"; ""]; [String "x" (String newline "y"); "3"]].
Proof. reflexivity. Qed.

Lemma poll_stops_at_failure_witness :
  sensors school_page !! 1 = Some (newSensor 1 (VStr "d2") (VStr "Labor Nord")
                                     (VStr "") (VStr "online"))
  /\ request_failed (broken_round 1) = true
  /\ sensors (settled (fetchLatestMeasurements broken_round (fun _ => "10:00")
                         true school_page)) !! 2
     = sensors school_page !! 2.
Proof.
  split; [reflexivity|]. split; [reflexivity|].
  apply (poll_stops_at_failure broken_round (fun _ => "10:00") true school_page 1
           (newSensor 1 (VStr "d2") (VStr "Labor Nord") (VStr "") (VStr "online")));
    [reflexivity|reflexivity|reflexivity|lia].
Defined.

Lemma active_after_devices_witness :
  Forall (fun dev => nullish dev = false) school_devices
  /\ activeSensorIndex
       (settled (fetchDevices (Reply true (Some (device_list school_devices))) true
                   {| sensors := []; offlineSensors := [];
                      activeSensorIndex := (-1)%Z |})) = (-1)%Z
  /\ getActive
       (settled (fetchDevices (Reply true (Some (device_list school_devices))) true
                   {| sensors := []; offlineSensors := [];
                      activeSensorIndex := (-1)%Z |})) = None
  /\ is_Some (getActive
       (settled (fetchDevices (Reply true (Some (device_list school_devices))) true
                   empty_page))).
Proof.
  assert (Hall : Forall (fun dev : value Z => nullish dev = false) school_devices)
    by (repeat constructor).
  destruct (active_after_devices (device_list school_devices) school_devices true
              {| sensors := []; offlineSensors := []; activeSensorIndex := (-1)%Z |}
              eq_refl eq_refl Hall) as (Hsticky & _ & _).
  destruct (active_after_devices (device_list school_devices) school_devices true
              empty_page eq_refl eq_refl Hall) as (_ & _ & Hactive).
  split; [exact Hall|].
  destruct (Hsticky eq_refl) as [Hidx Hnone].
  split; [exact Hidx|]. split; [exact Hnone|].
  apply Hactive; [cbn; lia|discriminate].
Defined.

Lemma search_finds_witness :
  findSensorIndexByQuery trim_blanks "  lab " (sensors school_page) = Some 1%Z
  /\ exists s : Sensor Z,
       sensors school_page !! 1 = Some s
       /\ sensor_matches includes_text "lab" s = Some true.
Proof.
  assert (Hfind : findSensorIndexByQuery trim_blanks "  lab " (sensors school_page)
                  = Some 1%Z) by reflexivity.
  split; [exact Hfind|].
  destruct (search_finds trim_blanks "  lab " (sensors school_page) 1 Hfind)
    as [[Hneg _] | (k & s & Hk & Hs & _ & Hhit & _)]; [discriminate Hneg|].
  assert (k = 1) as -> by lia.
  exists s. split; [exact Hs|exact Hhit].
Defined.

Lemma search_enter_activates_witness :
  search_enter trim_blanks "stat" school_page
  = Some {| sensors := sensors school_page;
            offlineSensors := offlineSensors school_page;
            activeSensorIndex := 2 |}
  /\ exists s : Sensor Z,
       sensors school_page !! 2 = Some s
       /\ getActive {| sensors := sensors school_page;
                       offlineSensors := offlineSensors school_page;
                       activeSensorIndex := 2 |} = Some s
       /\ sensor_matches includes_text "stat" s = Some true.
Proof.
  assert (Hrun : search_enter trim_blanks "stat" school_page
                 = Some {| sensors := sensors school_page;
                           offlineSensors := offlineSensors school_page;
                           activeSensorIndex := 2 |}) by reflexivity.
  split; [exact Hrun|].
  destruct (search_enter_activates trim_blanks "stat" school_page _ Hrun)
    as (idx & Hfind & [[Hnone _] | (k & s & Hidx & Hk & Hact & Hget & Hhit & _)]).
  - subst idx. vm_compute in Hfind. discriminate Hfind.
  - cbn [activeSensorIndex] in Hact.
    assert (k = 2) as -> by lia.
    exists s. split; [exact Hk|]. split; [exact Hget|exact Hhit].
Defined.


Lemma comparison_day_agrees_witness :
  selected_sensor day_form (sensors school_page)
  = Some (1, newSensor 1 (VStr "d2") (VStr "Labor Nord") (VStr "") (VStr "online"))
  /\ ~ In (historyRange day_form) ["week"; "month"; "year"]
  /\ loadHistory_request "https://air.example/api" (Some day_form)
       (sensors school_page)
     = Some "https://air.example/api/sensor/history/day/d2?metric=pm0_3"
  /\ length (cmpFetchDay "https://air.example/api"
               (newSensor 1 (VStr "d2") (VStr "Labor Nord") (VStr "")
                  (VStr "online")) "pm3"
               (fun _ => Reply true (Some demo_history))) = 2.
Proof.
  assert (Hsel : selected_sensor day_form (sensors school_page)
                 = Some (1, newSensor 1 (VStr "d2") (VStr "Labor Nord") (VStr "")
                              (VStr "online" : value Z))) by reflexivity.
  assert (Hrange : ~ In (historyRange day_form) ["week"; "month"; "year"]).
  { cbn. intros [Hw | [Hm | [Hy | []]]]; discriminate. }
  assert (Hload : lastHistorySeries
                    (loadHistory "https://air.example/api" (Some day_form)
                       (sensors school_page)
                       (fun _ => Reply true (Some demo_history)) true
                       {| lastHistorySeries := None; lastHistoryMeta := None |})
                  = Some [VObj [("ts", VStr "2025-01-01T10:00:00Z");
                                ("avg", VNum 21%Z); ("n", VNum 4%Z)];
                          VObj [("ts", VStr "2025-01-01T11:00:00Z");
                                ("avg", VNull)]]) by reflexivity.
  destruct (comparison_day_agrees "https://air.example/api" day_form
              (sensors school_page) (fun _ => Reply true (Some demo_history)) true
              1 _ _ Hsel Hrange Hload) as [Hurl Hday].
  split; [exact Hsel|]. split; [exact Hrange|].
  split; [rewrite Hurl; reflexivity|].
  change (str_or (historyMetric day_form) "temp") with "pm3" in Hday.
  rewrite Hday. reflexivity.
Defined.

Lemma comparison_series_witness :
  In busy_sensor (sensors (run_page busy_events (initial_page (num := Z))))
  /\ getSeriesForMetric busy_sensor "temp" = [22; 23; 24; 25; 26]%Z
  /\ last_n WINDOW_SIZE (getSeriesForMetric busy_sensor "temp")
     = getSeriesForMetric busy_sensor "temp"
  /\ getSeriesForMetric busy_sensor "pm3" = series_data Pm03Series busy_sensor.
Proof.
  assert (Hin : In busy_sensor
                   (sensors (run_page busy_events (initial_page (num := Z)))))
    by (vm_compute; right; left; reflexivity).
  destruct (comparison_series busy_events busy_sensor "temp" Hin)
    as (Hfits & _ & _).
  split; [exact Hin|]. split; [vm_compute; reflexivity|].
  split; [exact Hfits|vm_compute; reflexivity].
Defined.

Lemma history_cache_paired_witness :
  cached demo_cache
  /\ exists meta : history_meta Z,
       lastHistoryMeta demo_cache = Some meta
       /\ meta_metric meta = "PM25" /\ meta_range meta = "month"
       /\ meta_unit meta = metric_unit (meta_metric meta).
Proof.
  assert (Hcached : cached demo_cache) by (apply cached_load, cached_init).
  destruct (history_cache_paired demo_cache Hcached) as (_ & _ & Hmeta).
  split; [exact Hcached|].
  eexists. split; [reflexivity|].
  destruct (Hmeta _ eq_refl) as (_ & _ & _ & _ & Hunit).
  split; [reflexivity|]. split; [reflexivity|exact Hunit].
Defined.


Lemma login_then_admin_witness :
  login_mode (mode login_start) = true
  /\ effects (submit login_input admin_reply login_start) = [Redirect "index.html"]
  /\ __isAdmin (store (submit login_input admin_reply login_start)) = true
  /\ __isAdmin (store (submit login_input array_reply login_start)) = true
  /\ __isAdmin (store (submit login_input login_reply login_start)) = false.
Proof.
  assert (Hmail : email login_input <> "") by discriminate.
  assert (Hpass : password login_input <> "") by discriminate.
  assert (Hstore : store login_start
                   = Items no_limit
                       (<["userRole" := "admin"]>
                          (<["userEmail" := "old@example.org"]> ∅)))
    by reflexivity.
  destruct (login_then_admin login_input admin_reply login_start _ _ _
              eq_refl Hmail Hpass eq_refl Hstore eq_refl) as [Hiff _].
  destruct (login_then_admin login_input array_reply login_start _ _ _
              eq_refl Hmail Hpass eq_refl Hstore eq_refl) as (_ & _ & Harray).
  destruct (login_then_admin login_input login_reply login_start _ _ _
              eq_refl Hmail Hpass eq_refl Hstore eq_refl) as (_ & Hguest & _).
  split; [reflexivity|]. split; [reflexivity|]. split; [|split].
  - apply Hiff. exists "ADMIN". split; reflexivity.
  - apply (Harray "Admin"); [reflexivity|discriminate|reflexivity].
  - apply Hguest. reflexivity.
Defined.

Lemma form_quiet_witness :
  store (form_run quiet_events login_start) = store login_start
  /\ length (effects (form_run quiet_events login_start)) = 4.
Proof.
  assert (Hdenied : forall inp net,
             In (Submitted inp net) quiet_events ->
             login_granted net = None).
  { intros inp net Hin. cbn in Hin.
    repeat (destruct Hin as [Hin | Hin];
            [first [discriminate Hin | injection Hin as <- <-; reflexivity]|]).
    destruct Hin. }
  destruct (form_quiet quiet_events login_start Hdenied) as [Hstore _].
  split; [exact Hstore|reflexivity].
Defined.

Lemma devices_start_afresh_witness :
  Forall (fun dev => nullish dev = false) school_devices
  /\ sensors (settled (fetchDevices (Reply true (Some (device_list school_devices)))
                         true empty_page))
     = sensors (settled (fetchDevices (Reply true (Some (device_list school_devices)))
                           false
                           (settled (fetchLatestMeasurements broken_round
                                       (fun _ => "10:00") true school_page)))).
Proof.
  assert (Hall : Forall (fun dev : value Z => nullish dev = false) school_devices)
    by (repeat constructor).
  split; [exact Hall|].
  exact (proj1 (devices_start_afresh (device_list school_devices) school_devices
                  true false empty_page
                  (settled (fetchLatestMeasurements broken_round
                              (fun _ => "10:00") true school_page))
                  eq_refl eq_refl Hall)).
Defined.
